(** * RwaDealTracker: aggregation, caching and financial-analysis core

    A shallow embedding of
      - [models/property.py]            (the [Property] record and its normalisation),
      - [utils/financial_analysis.py]   (class [FinancialAnalysis]),
      - [utils/cache_utils.py]          (classes [MemoryCache], [DiskCache], decorator [cache]),
      - [utils/data_aggregator.py]      (class [DataAggregator]),
      - [app.py]                        (function [calculate_financial_metrics]),
    followed by the properties established about them.

    Modelling conventions.
      - Python numbers are exact rationals ([Q]); [float('inf')] is the
        separate value [VInf].  Rounding and overflow of binary floating
        point are outside the model.
      - A Python exception is an explicit outcome [Raise e] of the [result]
        monad; division by zero raises [ZeroDivisionError] as in Python.
      - Dictionaries are finite maps ([gmap string _]).
      - [time.time()] is an explicit argument of every operation reading
        the clock. *)

From Stdlib Require Import QArith Qpower ZArith Ascii String List Lia Lqa.
From stdpp Require Import gmap strings list fin_maps pretty sorting.

Open Scope Q_scope.

(** ** Python outcomes *)

Inductive exn : Type :=
| ZeroDivisionError
| ValueError
| TypeError
| AttributeError
| KeyError.

Inductive result (A : Type) : Type :=
| Ok (a : A)
| Raise (e : exn).
Arguments Ok {A} a.
Arguments Raise {A} e.

#[global] Instance result_ret : MRet result := fun _ a => Ok a.
#[global] Instance result_bind : MBind result := fun _ _ f r =>
  match r with
  | Ok a => f a
  | Raise e => Raise e
  end.

#[global] Instance result_fmap : FMap result := fun _ _ f r =>
  match r with
  | Ok a => Ok (f a)
  | Raise e => Raise e
  end.

Definition returns {A} (r : result A) : Prop := exists a, r = Ok a.

(** ** Python values stored in dictionaries *)

Inductive pyval : Type :=
| VNone
| VBool (b : bool)
| VInt (z : Z)
| VFloat (q : Q)
| VInf
| VStr (s : string)
| VList (l : list string).

(** Numbers extended with [float('inf')]. *)
Inductive pynum : Type :=
| Fin (q : Q)
| PInf.

Definition as_num (v : pyval) : option pynum :=
  match v with
  | VBool b => Some (Fin (if b then 1 else 0))
  | VInt z => Some (Fin (inject_Z z))
  | VFloat q => Some (Fin q)
  | VInf => Some PInf
  | _ => None
  end.

Definition num_le (a b : pynum) : bool :=
  match a, b with
  | Fin x, Fin y => Qle_bool x y
  | _, PInf => true
  | PInf, Fin _ => false
  end.

Definition Qlt_bool (x y : Q) : bool := negb (Qle_bool y x).

Definition num_lt (a b : pynum) : bool := negb (num_le b a).

(** Lexicographic [<=] on lists of strings, as Python compares lists. *)
Fixpoint list_leb (l1 l2 : list string) : bool :=
  match l1, l2 with
  | [], _ => true
  | _ :: _, [] => false
  | x :: l1', y :: l2' =>
      if String.eqb x y then list_leb l1' l2' else String.ltb x y
  end.

(** [a <= b] on Python values: numbers with numbers, strings with strings,
    lists with lists; any other pairing is a [TypeError]. *)
Definition py_le (a b : pyval) : result bool :=
  match as_num a, as_num b with
  | Some x, Some y => Ok (num_le x y)
  | _, _ =>
      match a, b with
      | VStr s1, VStr s2 => Ok (String.leb s1 s2)
      | VList l1, VList l2 => Ok (list_leb l1 l2)
      | _, _ => Raise TypeError
      end
  end.

Definition py_ge (a b : pyval) : result bool := py_le b a.

(** [a > b], the complement of [a <= b] on each of these total orders. *)
Definition py_gt (a b : pyval) : result bool := negb <$> py_le a b.

(** [d[k]]: a missing key is a [KeyError]. *)
Definition subscript {V} (d : gmap string V) (k : string) : result V :=
  match d !! k with
  | Some v => Ok v
  | None => Raise KeyError
  end.

(** The float operand of an arithmetic expression; a value that is not a
    finite number is a [TypeError]. *)
Definition py_float (v : pyval) : result Q :=
  match as_num v with
  | Some (Fin q) => Ok q
  | _ => Raise TypeError
  end.

(** [int(x)]: truncation towards zero. *)
Definition py_int (q : Q) : Z := Z.quot (Qnum q) (Z.pos (Qden q)).

(** Truthiness. *)
Definition q_truthy (q : Q) : bool := negb (Qeq_bool q 0).

Definition truthy (v : pyval) : bool :=
  match v with
  | VNone => false
  | VBool b => b
  | VInt z => negb (z =? 0)%Z
  | VFloat q => q_truthy q
  | VInf => true
  | VStr s => negb (String.eqb s "")
  | VList l => match l with [] => false | _ => true end
  end.

Definition opt_truthy (o : option pyval) : bool :=
  match o with
  | Some v => truthy v
  | None => false
  end.

Definition rent_truthy (o : option Q) : bool :=
  match o with
  | Some q => q_truthy q
  | None => false
  end.

(** Float division: [ZeroDivisionError] on a zero divisor.  A division by
    a non-zero literal is written with [/] directly. *)
Definition py_div (a b : Q) : result Q :=
  if Qeq_bool b 0 then Raise ZeroDivisionError else Ok (a / b).

(** [math.pow] with an integer exponent: a zero base with a negative
    exponent is a [ValueError]. *)
Definition math_pow (x : Q) (n : Z) : result Q :=
  if Qeq_bool x 0 && (n <? 0)%Z then Raise ValueError else Ok (Qpower x n).

(** ** models/property.py *)

Record Property : Type := mkProperty {
  id : string;
  source : string;
  property_url : string;
  property_type : option string;
  address : string;
  city : option string;
  state : option string;
  zip_code : option string;
  price : option Q;
  bedrooms : option Q;
  bathrooms : option Q;
  square_feet : option Q;
  lot_size : option Q;
  year_built : option Z;
  monthly_rent : option Q;
  annual_rent : option Q;
  rental_yield : option Q;
  cap_rate : option Q;
  price_to_rent_ratio : option Q;
  risk_level : option string;
  financial_metrics : gmap string pyval
}.

Definition set_monthly_rent (v : option Q) (p : Property) : Property :=
  mkProperty (id p) (source p) (property_url p) (property_type p) (address p)
    (city p) (state p) (zip_code p) (price p) (bedrooms p) (bathrooms p)
    (square_feet p) (lot_size p) (year_built p) v (annual_rent p)
    (rental_yield p) (cap_rate p) (price_to_rent_ratio p) (risk_level p)
    (financial_metrics p).

Definition set_annual_rent (v : option Q) (p : Property) : Property :=
  mkProperty (id p) (source p) (property_url p) (property_type p) (address p)
    (city p) (state p) (zip_code p) (price p) (bedrooms p) (bathrooms p)
    (square_feet p) (lot_size p) (year_built p) (monthly_rent p) v
    (rental_yield p) (cap_rate p) (price_to_rent_ratio p) (risk_level p)
    (financial_metrics p).

Definition set_rental_yield (v : option Q) (p : Property) : Property :=
  mkProperty (id p) (source p) (property_url p) (property_type p) (address p)
    (city p) (state p) (zip_code p) (price p) (bedrooms p) (bathrooms p)
    (square_feet p) (lot_size p) (year_built p) (monthly_rent p) (annual_rent p)
    v (cap_rate p) (price_to_rent_ratio p) (risk_level p)
    (financial_metrics p).

Definition set_price_to_rent_ratio (v : option Q) (p : Property) : Property :=
  mkProperty (id p) (source p) (property_url p) (property_type p) (address p)
    (city p) (state p) (zip_code p) (price p) (bedrooms p) (bathrooms p)
    (square_feet p) (lot_size p) (year_built p) (monthly_rent p) (annual_rent p)
    (rental_yield p) (cap_rate p) v (risk_level p)
    (financial_metrics p).

Definition set_financial_metrics (v : gmap string pyval) (p : Property) : Property :=
  mkProperty (id p) (source p) (property_url p) (property_type p) (address p)
    (city p) (state p) (zip_code p) (price p) (bedrooms p) (bathrooms p)
    (square_feet p) (lot_size p) (year_built p) (monthly_rent p) (annual_rent p)
    (rental_yield p) (cap_rate p) (price_to_rent_ratio p) (risk_level p) v.

(** [self.price and self.price > 0] *)
Definition price_positive (p : Property) : option Q :=
  match price p with
  | Some x => if q_truthy x && Qlt_bool 0 x then Some x else None
  | None => None
  end.

(** The four statements of [Property.__post_init__], in order. *)
Definition post_init_yield (p : Property) : result Property :=
  match annual_rent p, price_positive p with
  | Some a, Some x =>
      if q_truthy a
      then q ← py_div a x; Ok (set_rental_yield (Some (q * 100)) p)
      else Ok p
  | _, _ => Ok p
  end.

Definition post_init_ratio (p : Property) : result Property :=
  match annual_rent p, price p with
  | Some a, Some x =>
      if q_truthy a && q_truthy x && Qlt_bool 0 a
      then q ← py_div x a; Ok (set_price_to_rent_ratio (Some q) p)
      else Ok p
  | _, _ => Ok p
  end.

Definition post_init_annual (p : Property) : result Property :=
  match monthly_rent p with
  | Some m =>
      if q_truthy m && negb (rent_truthy (annual_rent p))
      then
        let a := m * 12 in
        let p1 := set_annual_rent (Some a) p in
        match price_positive p1 with
        | Some x =>
            y ← py_div a x;
            let p2 := set_rental_yield (Some (y * 100)) p1 in
            r ← py_div x a;
            Ok (set_price_to_rent_ratio (Some r) p2)
        | None => Ok p1
        end
      else Ok p
  | None => Ok p
  end.

Definition post_init_monthly (p : Property) : result Property :=
  match annual_rent p with
  | Some a =>
      if q_truthy a && negb (rent_truthy (monthly_rent p))
      then Ok (set_monthly_rent (Some (a / 12)) p)
      else Ok p
  | None => Ok p
  end.

(** Construction of a [Property] from its fields: the dataclass
    constructor followed by [__post_init__]. *)
Definition post_init (p : Property) : result Property :=
  p1 ← post_init_yield p;
  p2 ← post_init_ratio p1;
  p3 ← post_init_annual p2;
  post_init_monthly p3.

(** ** utils/financial_analysis.py *)

Module FinancialAnalysis.

Definition DEFAULT_PROPERTY_TAX_RATE : Q := 11 # 1000.
Definition DEFAULT_INSURANCE_RATE : Q := 5 # 1000.
Definition DEFAULT_VACANCY_RATE : Q := 5 # 100.
Definition DEFAULT_MAINTENANCE_RATE : Q := 5 # 100.
Definition DEFAULT_MANAGEMENT_FEE_RATE : Q := 1 # 10.
Definition DEFAULT_MORTGAGE_INTEREST_RATE : Q := 55 # 1000.
Definition DEFAULT_MORTGAGE_TERM_YEARS : Z := 30.

Definition _calculate_mortgage_payment
    (loan_amount annual_interest_rate : Q) (loan_term_years : Z) : result Q :=
  let monthly_rate := annual_interest_rate / 12 in
  let num_payments := (loan_term_years * 12)%Z in
  if Qeq_bool monthly_rate 0
  then py_div loan_amount (inject_Z num_payments)
  else
    pw ← math_pow (1 + monthly_rate) num_payments;
    pw' ← math_pow (1 + monthly_rate) num_payments;
    py_div (loan_amount * (monthly_rate * pw)) (pw' - 1).

Definition MSG_PRICE : string :=
  "Property price is required and must be greater than zero".
Definition MSG_RENT : string :=
  "Rental information is missing, limited metrics available".

(** [property_data.annual_rent or (monthly_rent * 12 if monthly_rent else None)] *)
Definition effective_annual_rent (p : Property) : option Q :=
  if rent_truthy (annual_rent p) then annual_rent p
  else
    match monthly_rent p with
    | Some m => if q_truthy m then Some (m * 12) else None
    | None => None
    end.

(** The threshold checks of the risk score, each with its reason. *)
Definition risk_cap_rate (cap_rate : Q) : list string * Z :=
  if Qlt_bool cap_rate 4 then (["Low cap rate"%string], 2%Z)
  else if Qlt_bool cap_rate 6 then (["Moderate cap rate"%string], 1%Z)
  else ([], 0%Z).

Definition risk_cash_on_cash (coc : Q) : list string * Z :=
  if Qlt_bool coc 4 then (["Low cash on cash return"%string], 2%Z)
  else if Qlt_bool coc 8 then (["Moderate cash on cash return"%string], 1%Z)
  else ([], 0%Z).

Definition risk_dscr (dscr : pynum) : list string * Z :=
  if num_lt dscr (Fin 1) then (["DSCR below 1.0 (negative cash flow)"%string], 3%Z)
  else if num_lt dscr (Fin (125 # 100)) then (["Low DSCR (tight cash flow)"%string], 2%Z)
  else if num_lt dscr (Fin (15 # 10)) then (["Moderate DSCR"%string], 1%Z)
  else ([], 0%Z).

Definition risk_one_percent (passed : bool) : list string * Z :=
  if negb passed then (["Does not meet 1% rule"%string], 1%Z) else ([], 0%Z).

Definition risk_level_of (risk_score : Z) : string :=
  if (risk_score <=? 1)%Z then "Low"
  else if (risk_score <=? 4)%Z then "Moderate"
  else "High".

Definition of_num (n : pynum) : pyval :=
  match n with
  | Fin q => VFloat q
  | PInf => VInf
  end.

Definition calculate_metrics (property_data : Property)
    (down_payment_percentage : Q) (interest_rate : option Q)
    (loan_term_years : Z) : result (gmap string pyval) :=
  let interest_rate := default DEFAULT_MORTGAGE_INTEREST_RATE interest_rate in
  let metrics : gmap string pyval := ∅ in
  let monthly_rent := monthly_rent property_data in
  let annual_rent := effective_annual_rent property_data in
  match price_positive property_data with
  | None => Ok {[ "error"%string := VStr MSG_PRICE ]}
  | Some price =>
      match annual_rent with
      | None =>
          let metrics := <["error"%string := VStr MSG_RENT]> metrics in
          let down_payment := price * down_payment_percentage in
          let metrics := <["down_payment"%string := VFloat down_payment]> metrics in
          let loan_amount := price - down_payment in
          let metrics := <["loan_amount"%string := VFloat loan_amount]> metrics in
          payment ← _calculate_mortgage_payment loan_amount interest_rate loan_term_years;
          Ok (<["monthly_mortgage_payment"%string := VFloat payment]> metrics)
      | Some annual_rent =>
          monthly_rent ←
            (if rent_truthy monthly_rent
             then Ok (default 0 monthly_rent)
             else Ok (annual_rent / 12));
          let down_payment := price * down_payment_percentage in
          let loan_amount := price - down_payment in
          monthly_mortgage_payment ←
            _calculate_mortgage_payment loan_amount interest_rate loan_term_years;
          let property_tax := price * DEFAULT_PROPERTY_TAX_RATE / 12 in
          let insurance := price * DEFAULT_INSURANCE_RATE / 12 in
          let vacancy_cost := monthly_rent * DEFAULT_VACANCY_RATE in
          let maintenance := monthly_rent * DEFAULT_MAINTENANCE_RATE in
          let property_management := monthly_rent * DEFAULT_MANAGEMENT_FEE_RATE in
          let total_monthly_expenses :=
            property_tax + insurance + vacancy_cost + maintenance + property_management in
          let monthly_cash_flow :=
            monthly_rent - monthly_mortgage_payment - total_monthly_expenses in
          let annual_cash_flow := monthly_cash_flow * 12 in
          let monthly_noi := monthly_rent - total_monthly_expenses in
          let annual_noi := monthly_noi * 12 in
          cr ← py_div annual_noi price;
          let cap_rate := cr * 100 in
          ry ← py_div annual_rent price;
          let rental_yield := ry * 100 in
          coc ← py_div annual_cash_flow down_payment;
          let cash_on_cash_return := coc * 100 in
          gross_rent_multiplier ← py_div price annual_rent;
          let annual_debt_service := monthly_mortgage_payment * 12 in
          debt_service_coverage_ratio ←
            (if Qlt_bool 0 annual_debt_service
             then Fin <$> py_div annual_noi annual_debt_service
             else Ok PInf);
          price_to_rent_ratio ← py_div price annual_rent;
          break_even_ratio ←
            (if Qlt_bool 0 monthly_rent
             then Fin <$> py_div (total_monthly_expenses + monthly_mortgage_payment) monthly_rent
             else Ok PInf);
          operating_expense_ratio ←
            (if Qlt_bool 0 monthly_rent
             then Fin <$> py_div total_monthly_expenses monthly_rent
             else Ok PInf);
          one_percent_rule_value ←
            (if Qlt_bool 0 price
             then v ← py_div monthly_rent price; Ok (v * 100)
             else Ok 0);
          let one_percent_rule_passed := Qle_bool 1 one_percent_rule_value in
          let r1 := risk_cap_rate cap_rate in
          let r2 := risk_cash_on_cash cash_on_cash_return in
          let r3 := risk_dscr debt_service_coverage_ratio in
          let r4 := risk_one_percent one_percent_rule_passed in
          let risk_factors := r1.1 ++ r2.1 ++ r3.1 ++ r4.1 in
          let risk_score := (r1.2 + r2.2 + r3.2 + r4.2)%Z in
          let risk_level := risk_level_of risk_score in
          Ok (list_to_map [
            ("property_price"%string, VFloat price);
            ("monthly_rent"%string, VFloat monthly_rent);
            ("annual_rent"%string, VFloat annual_rent);
            ("down_payment"%string, VFloat down_payment);
            ("down_payment_percentage"%string, VFloat (down_payment_percentage * 100));
            ("loan_amount"%string, VFloat loan_amount);
            ("interest_rate"%string, VFloat (interest_rate * 100));
            ("loan_term_years"%string, VInt loan_term_years);
            ("monthly_mortgage_payment"%string, VFloat monthly_mortgage_payment);
            ("annual_mortgage_payment"%string, VFloat (monthly_mortgage_payment * 12));
            ("monthly_property_tax"%string, VFloat property_tax);
            ("annual_property_tax"%string, VFloat (property_tax * 12));
            ("monthly_insurance"%string, VFloat insurance);
            ("annual_insurance"%string, VFloat (insurance * 12));
            ("monthly_vacancy_cost"%string, VFloat vacancy_cost);
            ("annual_vacancy_cost"%string, VFloat (vacancy_cost * 12));
            ("monthly_maintenance"%string, VFloat maintenance);
            ("annual_maintenance"%string, VFloat (maintenance * 12));
            ("monthly_property_management"%string, VFloat property_management);
            ("annual_property_management"%string, VFloat (property_management * 12));
            ("total_monthly_expenses"%string, VFloat total_monthly_expenses);
            ("total_annual_expenses"%string, VFloat (total_monthly_expenses * 12));
            ("monthly_noi"%string, VFloat monthly_noi);
            ("annual_noi"%string, VFloat annual_noi);
            ("monthly_cash_flow"%string, VFloat monthly_cash_flow);
            ("annual_cash_flow"%string, VFloat annual_cash_flow);
            ("cap_rate"%string, VFloat cap_rate);
            ("rental_yield"%string, VFloat rental_yield);
            ("cash_on_cash_return"%string, VFloat cash_on_cash_return);
            ("gross_rent_multiplier"%string, VFloat gross_rent_multiplier);
            ("debt_service_coverage_ratio"%string, of_num debt_service_coverage_ratio);
            ("price_to_rent_ratio"%string, VFloat price_to_rent_ratio);
            ("break_even_ratio"%string, of_num break_even_ratio);
            ("operating_expense_ratio"%string, of_num operating_expense_ratio);
            ("one_percent_rule_value"%string, VFloat one_percent_rule_value);
            ("one_percent_rule_passed"%string, VBool one_percent_rule_passed);
            ("risk_score"%string, VInt risk_score);
            ("risk_level"%string, VStr risk_level);
            ("risk_factors"%string, VList risk_factors)
          ])
      end
  end.

(** [f"{int(dp_percentage * 100)}%_down_payment"] *)
Definition scenario_name (dp_percentage : Q) : string :=
  pretty (py_int (dp_percentage * 100)) +:+ "%_down_payment".

Definition calculate_multiple_scenarios (property_data : Property)
    : result (gmap string (gmap string pyval)) :=
  let down_payment_scenarios := [20 # 100; 25 # 100; 30 # 100] in
  foldl
    (fun acc dp_percentage =>
       scenarios ← acc;
       m ← calculate_metrics property_data dp_percentage None 30;
       Ok (<[scenario_name dp_percentage := m]> scenarios))
    (Ok ∅) down_payment_scenarios.

(** The result is either [{"error": msg}] or a dictionary of scenario
    dictionaries: values are [inl] for a plain value and [inr] for a nested
    dictionary.  The human-readable ["scenario"] captions, which format
    floats, are left out of the scenario dictionaries. *)
Definition perform_stress_test (property_data : Property)
    : result (gmap string (pyval + gmap string pyval)) :=
  base_metrics ← calculate_metrics property_data (2 # 10) None 30;
  match base_metrics !! "error"%string with
  | Some e => Ok {[ "error"%string := inl e ]}
  | None =>
      (* Test 1: increased vacancy *)
      vacancy_property ← post_init property_data;
      vacancy_test_metrics ← calculate_metrics vacancy_property (2 # 10) None 30;
      let monthly_rent := monthly_rent property_data in
      v ← subscript vacancy_test_metrics "monthly_cash_flow";
      cf ← py_float v;
      rent ← (match monthly_rent with Some r => Ok r | None => Raise TypeError end);
      let vacancy_adjusted_cash_flow := cf - rent * DEFAULT_VACANCY_RATE in
      let increased_vacancy : gmap string pyval := list_to_map [
        ("monthly_cash_flow"%string, VFloat vacancy_adjusted_cash_flow);
        ("annual_cash_flow"%string, VFloat (vacancy_adjusted_cash_flow * 12));
        ("still_profitable"%string, VBool (Qlt_bool 0 vacancy_adjusted_cash_flow)) ] in
      (* Test 2: interest rate increase *)
      higher_interest_metrics ←
        calculate_metrics property_data (2 # 10)
          (Some (DEFAULT_MORTGAGE_INTEREST_RATE + (2 # 100))) 30;
      h_payment ← subscript higher_interest_metrics "monthly_mortgage_payment";
      h_monthly ← subscript higher_interest_metrics "monthly_cash_flow";
      h_annual ← subscript higher_interest_metrics "annual_cash_flow";
      h_monthly' ← subscript higher_interest_metrics "monthly_cash_flow";
      h_profitable ← py_gt h_monthly' (VInt 0);
      let interest_rate_increase : gmap string pyval := list_to_map [
        ("monthly_mortgage_payment"%string, h_payment);
        ("monthly_cash_flow"%string, h_monthly);
        ("annual_cash_flow"%string, h_annual);
        ("still_profitable"%string, VBool h_profitable) ] in
      (* Test 3: combined stress *)
      combined_property ← post_init property_data;
      combined_metrics ←
        calculate_metrics combined_property (2 # 10)
          (Some (DEFAULT_MORTGAGE_INTEREST_RATE + (2 # 100))) 30;
      let vacancy_impact := rent * DEFAULT_VACANCY_RATE in
      let maintenance_impact := rent * (DEFAULT_MAINTENANCE_RATE * (5 # 10)) in
      c ← subscript combined_metrics "monthly_cash_flow";
      ccf ← py_float c;
      let combined_adjusted_cash_flow := ccf - vacancy_impact - maintenance_impact in
      let combined_stress : gmap string pyval := list_to_map [
        ("monthly_cash_flow"%string, VFloat combined_adjusted_cash_flow);
        ("annual_cash_flow"%string, VFloat (combined_adjusted_cash_flow * 12));
        ("still_profitable"%string, VBool (Qlt_bool 0 combined_adjusted_cash_flow)) ] in
      let summary : gmap string pyval := list_to_map [
        ("passed_all_tests"%string,
           VBool (Qlt_bool 0 vacancy_adjusted_cash_flow
                  && h_profitable
                  && Qlt_bool 0 combined_adjusted_cash_flow));
        ("worst_case_monthly_cash_flow"%string, VFloat combined_adjusted_cash_flow) ] in
      Ok (list_to_map [
        ("increased_vacancy"%string, inr increased_vacancy);
        ("interest_rate_increase"%string, inr interest_rate_increase);
        ("combined_stress"%string, inr combined_stress);
        ("summary"%string, inr summary) ])
  end.

End FinancialAnalysis.

(** ** utils/cache_utils.py *)

(** A cached value is [option V]: [None] is Python's [None], [Some v] any
    other object.  Both tiers hand back the store they leave behind. *)

Definition CACHE_DIR : string := ".cache".

Module MemoryCache.
Section Values.
Context {V : Type}.

Definition get (now : Q) (key : string) (_cache : gmap string (option V * Q))
    : option V * gmap string (option V * Q) :=
  match _cache !! key with
  | Some (value, expiry) =>
      if Qlt_bool now expiry
      then (value, _cache)
      else (None, delete key _cache)
  | None => (None, _cache)
  end.

Definition set (now : Q) (key : string) (value : option V) (ttl : Z)
    (_cache : gmap string (option V * Q)) : gmap string (option V * Q) :=
  let expiry := now + inject_Z ttl in
  <[key := (value, expiry)]> _cache.

Definition clear (_cache : gmap string (option V * Q))
    : gmap string (option V * Q) := ∅.
End Values.
End MemoryCache.

(** What a file of the cache directory holds: the pickle of a
    [(value, expiry)] pair, or bytes that [pickle.load] rejects with a
    [PickleError].  The file system itself is reliable: a write stores
    what was written, and every cached value can be pickled. *)
Inductive file (V : Type) : Type :=
| Pickled (value : option V) (expiry : Q)
| Corrupt.
Arguments Pickled {V} value expiry.
Arguments Corrupt {V}.

Module DiskCache.
Section Values.
Context {V : Type}.
(** [hashlib.md5(key.encode()).hexdigest()] *)
Variable md5_hexdigest : string -> string.

(** The file system is the finite map from paths to file contents. *)
Definition _get_cache_path (key : string) : string :=
  let hashed_key := md5_hexdigest key in
  CACHE_DIR +:+ "/" +:+ hashed_key +:+ ".cache".

Definition get (now : Q) (key : string) (fs : gmap string (file V))
    : option V * gmap string (file V) :=
  let cache_path := _get_cache_path key in
  match fs !! cache_path with
  | Some (Pickled value expiry) =>
      if Qlt_bool now expiry
      then (value, fs)
      else (None, delete cache_path fs)
  | Some Corrupt => (None, fs)
  | None => (None, fs)
  end.

Definition set (now : Q) (key : string) (value : option V) (ttl : Z)
    (fs : gmap string (file V)) : gmap string (file V) :=
  let cache_path := _get_cache_path key in
  let expiry := now + inject_Z ttl in
  <[cache_path := Pickled value expiry]> fs.
End Values.
End DiskCache.

(** The decorator [cache(ttl, use_disk)] applied to [func]. *)
Section Decorator.
Context {A V : Type}.
Variable md5_hexdigest : string -> string.
(** [str(arg)] *)
Variable py_str : A -> string.

(** Both stores, and the log of the invocations of the wrapped operation. *)
Record world : Type := mkWorld {
  memory : gmap string (option V * Q);
  disk : gmap string (file V);
  calls : list (list A * gmap string A)
}.

Fixpoint insert_item (x : string * A) (l : list (string * A)) : list (string * A) :=
  match l with
  | [] => [x]
  | y :: l' => if String.leb x.1 y.1 then x :: l else y :: insert_item x l'
  end.

(** [sorted(kwargs.items())] *)
Definition sorted_items (kwargs : gmap string A) : list (string * A) :=
  foldr insert_item [] (map_to_list kwargs).

Definition key_parts (func_name : string) (args : list A) (kwargs : gmap string A)
    : list string :=
  [func_name]
    ++ (py_str <$> args)
    ++ ((fun kv => kv.1 +:+ "=" +:+ py_str kv.2) <$> sorted_items kwargs).

Definition cache_key (func_name : string) (args : list A) (kwargs : gmap string A)
    : string :=
  String.concat ":" (key_parts func_name args kwargs).

Definition handler_get (use_disk : bool) (now : Q) (key : string) (w : world)
    : option V * world :=
  if use_disk
  then let r := DiskCache.get md5_hexdigest now key (disk w) in
       (r.1, mkWorld (memory w) r.2 (calls w))
  else let r := MemoryCache.get now key (memory w) in
       (r.1, mkWorld r.2 (disk w) (calls w)).

Definition handler_set (use_disk : bool) (now : Q) (key : string)
    (value : option V) (ttl : Z) (w : world) : world :=
  if use_disk
  then mkWorld (memory w) (DiskCache.set md5_hexdigest now key value ttl (disk w)) (calls w)
  else mkWorld (MemoryCache.set now key value ttl (memory w)) (disk w) (calls w).

(** The wrapped operation [func] may answer differently from one
    invocation to the next: it is given the number of its earlier
    invocations.  [t_get] and [t_set] are the clock readings of the
    cache lookup and of the cache store. *)
Definition wrapper (ttl : Z) (use_disk : bool) (func_name : string)
    (func : nat -> list A -> gmap string A -> option V)
    (args : list A) (kwargs : gmap string A) (t_get t_set : Q) (w : world)
    : option V * world :=
  let cache_key := cache_key func_name args kwargs in
  let '(cached_value, w) := handler_get use_disk t_get cache_key w in
  match cached_value with
  | Some v => (Some v, w)
  | None =>
      let result := func (length (calls w)) args kwargs in
      let w := mkWorld (memory w) (disk w) (calls w ++ [(args, kwargs)]) in
      let w := handler_set use_disk t_set cache_key result ttl w in
      (result, w)
  end.

(** Successive calls of the wrapped operation with the same arguments,
    one per pair of clock readings; the results come in call order. *)
Fixpoint call_sequence (ttl : Z) (use_disk : bool) (func_name : string)
    (func : nat -> list A -> gmap string A -> option V)
    (args : list A) (kwargs : gmap string A) (times : list (Q * Q))
    (w : world) : list (option V) * world :=
  match times with
  | [] => ([], w)
  | (t_get, t_set) :: times' =>
      let r := wrapper ttl use_disk func_name func args kwargs t_get t_set w in
      let rest := call_sequence ttl use_disk func_name func args kwargs times' r.2 in
      (r.1 :: rest.1, rest.2)
  end.

(** The entry of [key], in the tier in use, holds the value [None]. *)
Definition stored_none (use_disk : bool) (key : string) (w : world) : Prop :=
  if use_disk
  then exists e, disk w !! DiskCache._get_cache_path md5_hexdigest key
                 = Some (Pickled None e)
  else exists e, memory w !! key = Some (None, e).
End Decorator.

Arguments world : clear implicits.
Arguments mkWorld {A V} memory disk calls.

(** ** utils/data_aggregator.py *)

Module DataAggregator.

(** *** String operations *)

Definition lower_ascii (c : ascii) : ascii :=
  let n := nat_of_ascii c in
  if (65 <=? n)%nat && (n <=? 90)%nat then ascii_of_nat (n + 32) else c.

(** [s.lower()] *)
Fixpoint lower (s : string) : string :=
  match s with
  | EmptyString => EmptyString
  | String c s' => String (lower_ascii c) (lower s')
  end.

(** [sub in s] for two strings *)
Fixpoint contains (sub s : string) : bool :=
  String.prefix sub s ||
  match s with
  | EmptyString => false
  | String _ s' => contains sub s'
  end.

(** The characters of a string, as iteration over a [str] yields them. *)
Fixpoint chars (s : string) : list string :=
  match s with
  | EmptyString => []
  | String c s' => String c EmptyString :: chars s'
  end.

(** [x in c] where [c] is a filter value *)
Definition py_in (x : string) (c : pyval) : result bool :=
  match c with
  | VList l => Ok (bool_decide (x ∈ l))
  | VStr s => Ok (contains x s)
  | _ => Raise TypeError
  end.

(** [[x.lower() for x in c]] where [c] is a filter value *)
Definition lower_all (c : pyval) : result (list string) :=
  match c with
  | VList l => Ok (lower <$> l)
  | VStr s => Ok (lower <$> chars s)
  | _ => Raise TypeError
  end.

(** A list comprehension [[p for p in ps if cond(p)]] whose condition may
    raise. *)
Fixpoint filterM {A} (cond : A -> result bool) (ps : list A) : result (list A) :=
  match ps with
  | [] => Ok []
  | p :: ps' =>
      b ← cond p;
      rest ← filterM cond ps';
      Ok (if (b : bool) then p :: rest else rest)
  end.

(** [a or b] as a condition *)
Definition py_or (a b : result bool) : result bool :=
  x ← a; if (x : bool) then Ok true else b.

(** [p.field and cmp(p.field, bound)] *)
Definition field_cmp (cmp : pyval -> pyval -> result bool)
    (field : option pyval) (bound : pyval) : result bool :=
  match field with
  | Some v => if truthy v then cmp v bound else Ok false
  | None => Ok false
  end.

Definition dict_truthy (d : gmap string pyval) : bool :=
  negb (bool_decide (size d = 0%nat)).

(** [p.financial_metrics and cmp(p.financial_metrics.get(k, dflt), bound)] *)
Definition metrics_cmp (cmp : pyval -> pyval -> result bool)
    (p : Property) (k : string) (dflt bound : pyval) : result bool :=
  if dict_truthy (financial_metrics p)
  then cmp (default dflt (financial_metrics p !! k)) bound
  else Ok false.

(** [p.property_type and any(pt in p.property_type.lower() for pt in types)] *)
Definition type_matches (property_types_lower : list string) (p : Property) : bool :=
  match property_type p with
  | Some ty =>
      negb (String.eqb ty "")
      && existsb (fun pt => contains pt (lower ty)) property_types_lower
  | None => false
  end.

(** [s and s.lower() in l] *)
Definition lower_in (s : option string) (l : list string) : bool :=
  match s with
  | Some x => negb (String.eqb x "") && bool_decide (lower x ∈ l)
  | None => false
  end.

(** [k in filters and filters[k]] *)
Definition if_truthy {A} (filters : gmap string pyval) (k : string)
    (f : pyval -> A -> result A) (x : A) : result A :=
  match filters !! k with
  | Some v => if truthy v then f v x else Ok x
  | None => Ok x
  end.

(** [k in filters and filters[k] is not None] *)
Definition if_not_none {A} (filters : gmap string pyval) (k : string)
    (f : pyval -> A -> result A) (x : A) : result A :=
  match filters !! k with
  | Some VNone => Ok x
  | Some v => f v x
  | None => Ok x
  end.

Definition num (q : option Q) : option pyval := VFloat <$> q.
Definition int (z : option Z) : option pyval := VInt <$> z.

Definition filter_properties (properties : list Property)
    (filters : gmap string pyval) : result (list Property) :=
  let filtered_properties := properties in
  filtered_properties ←
    if_truthy filters "sources"
      (fun v => filterM (fun p => py_in (source p) v)) filtered_properties;
  filtered_properties ←
    if_truthy filters "property_types"
      (fun v ps =>
         property_types_lower ← lower_all v;
         filterM (fun p => Ok (type_matches property_types_lower p)) ps)
      filtered_properties;
  filtered_properties ←
    if_not_none filters "min_price"
      (fun v => filterM (fun p => field_cmp py_ge (num (price p)) v))
      filtered_properties;
  filtered_properties ←
    if_not_none filters "max_price"
      (fun v => filterM (fun p => field_cmp py_le (num (price p)) v))
      filtered_properties;
  filtered_properties ←
    if_not_none filters "min_bedrooms"
      (fun v => filterM (fun p => field_cmp py_ge (num (bedrooms p)) v))
      filtered_properties;
  filtered_properties ←
    if_not_none filters "max_bedrooms"
      (fun v => filterM (fun p => field_cmp py_le (num (bedrooms p)) v))
      filtered_properties;
  filtered_properties ←
    if_not_none filters "min_rental_yield"
      (fun v => filterM (fun p => field_cmp py_ge (num (rental_yield p)) v))
      filtered_properties;
  filtered_properties ←
    if_not_none filters "max_rental_yield"
      (fun v => filterM (fun p => field_cmp py_le (num (rental_yield p)) v))
      filtered_properties;
  filtered_properties ←
    if_not_none filters "min_cap_rate"
      (fun v => filterM (fun p =>
         py_or (field_cmp py_ge (num (cap_rate p)) v)
               (metrics_cmp py_ge p "cap_rate" (VInt 0) v)))
      filtered_properties;
  filtered_properties ←
    if_not_none filters "max_cap_rate"
      (fun v => filterM (fun p =>
         py_or (field_cmp py_le (num (cap_rate p)) v)
               (metrics_cmp py_le p "cap_rate" (VInt 0) v)))
      filtered_properties;
  filtered_properties ←
    if_not_none filters "min_square_feet"
      (fun v => filterM (fun p => field_cmp py_ge (num (square_feet p)) v))
      filtered_properties;
  filtered_properties ←
    if_not_none filters "max_square_feet"
      (fun v => filterM (fun p => field_cmp py_le (num (square_feet p)) v))
      filtered_properties;
  filtered_properties ←
    if_not_none filters "min_year_built"
      (fun v => filterM (fun p => field_cmp py_ge (int (year_built p)) v))
      filtered_properties;
  filtered_properties ←
    if_not_none filters "max_year_built"
      (fun v => filterM (fun p => field_cmp py_le (int (year_built p)) v))
      filtered_properties;
  filtered_properties ←
    if_not_none filters "min_cash_flow"
      (fun v => filterM (fun p => metrics_cmp py_ge p "monthly_cash_flow" (VInt 0) v))
      filtered_properties;
  filtered_properties ←
    if_truthy filters "risk_levels"
      (fun v ps =>
         risk_levels ← lower_all v;
         filterM (fun p =>
           py_or (Ok (lower_in (risk_level p) risk_levels))
                 (if dict_truthy (financial_metrics p)
                  then match default (VStr "") (financial_metrics p !! "risk_level"%string) with
                       | VStr s => Ok (bool_decide (lower s ∈ risk_levels))
                       | _ => Raise AttributeError
                       end
                  else Ok false)) ps)
      filtered_properties;
  filtered_properties ←
    if_truthy filters "locations"
      (fun v ps =>
         locations_lower ← lower_all v;
         filterM (fun p =>
           py_or (Ok (lower_in (city p) locations_lower))
             (py_or (Ok (lower_in (state p) locations_lower))
                (match zip_code p with
                 | Some z => if String.eqb z "" then Ok false else py_in z v
                 | None => Ok false
                 end))) ps)
      filtered_properties;
  Ok filtered_properties.

(** *** Aggregation *)

(** A source adapter: [search_properties(location, min_price, max_price,
    max_results)], which may raise. *)
Definition scraper : Type :=
  string -> option Z -> option Z -> Z -> result (list Property).

Record aggregator : Type := mkAggregator {
  zillow_scraper : scraper;
  loopnet_scraper : scraper
}.

Definition _fetch_from_zillow (self : aggregator) (location : string)
    (min_price max_price : option Z) (max_results : Z) : result (list Property) :=
  match zillow_scraper self location min_price max_price max_results with
  | Ok ps => Ok ps
  | Raise _ => Ok []
  end.

Definition _fetch_from_loopnet (self : aggregator) (location : string)
    (min_price max_price : option Z) (max_results : Z) : result (list Property) :=
  match loopnet_scraper self location min_price max_price max_results with
  | Ok ps => Ok ps
  | Raise _ => Ok []
  end.

(** The body of the loop over [as_completed]: a future that raises is
    logged and adds nothing. *)
Definition collect (all_properties : list Property)
    (future : string * result (list Property)) : list Property :=
  match future.2 with
  | Ok properties => all_properties ++ properties
  | Raise _ => all_properties
  end.

(** [zillow_first] is the order in which the two futures complete. *)
Definition fetch_properties (self : aggregator) (zillow_first : bool)
    (location : string) (property_types : option (list string))
    (min_price max_price : option Z) (max_results_per_source : Z)
    : list Property :=
  let all_properties : list Property := [] in
  let sources := [
    ("Zillow"%string,
      _fetch_from_zillow self location min_price max_price max_results_per_source);
    ("LoopNet"%string,
      _fetch_from_loopnet self location min_price max_price max_results_per_source) ] in
  let as_completed := if zillow_first then sources else reverse sources in
  let all_properties := foldl collect all_properties as_completed in
  match property_types with
  | Some (pt :: pts) =>
      let property_types_lower := lower <$> (pt :: pts) in
      filter (fun p => type_matches property_types_lower p = true) all_properties
  | _ => all_properties
  end.

(** *** Sorting *)

(** A sort key: a Python value, or [float('-inf')]. *)
Inductive sort_key : Type :=
| KNegInf
| KVal (v : pyval).

Definition is_num (v : pyval) : bool :=
  match as_num v with
  | Some _ => true
  | None => false
  end.

(** [a < b] on sort keys, as [sorted] compares them. *)
Definition key_lt (a b : sort_key) : result bool :=
  match a, b with
  | KNegInf, KNegInf => Ok false
  | KNegInf, KVal v => if is_num v then Ok true else Raise TypeError
  | KVal v, KNegInf => if is_num v then Ok false else Raise TypeError
  | KVal x, KVal y => negb <$> py_le y x
  end.

(** Insertion of [x], which came before every element of the sorted list
    [s], behind the elements smaller than it. *)
Fixpoint insert_sorted {A} (lt : A -> A -> result bool) (x : A) (s : list A)
    : result (list A) :=
  match s with
  | [] => Ok [x]
  | y :: s' =>
      b ← lt y x;
      if (b : bool)
      then r ← insert_sorted lt x s'; Ok (y :: r)
      else Ok (x :: s)
  end.

(** A stable ascending sort; an unsupported comparison raises. *)
Fixpoint stable_sort {A} (lt : A -> A -> result bool) (l : list A)
    : result (list A) :=
  match l with
  | [] => Ok []
  | x :: l' => s ← stable_sort lt l'; insert_sorted lt x s
  end.

(** [sorted(l, key=key, reverse=reverse)]: a reverse sort reverses the
    list, sorts it ascending and reverses the outcome. *)
Definition py_sorted {A} (key : A -> sort_key) (reverse : bool) (l : list A)
    : result (list A) :=
  let lt := fun a b => key_lt (key a) (key b) in
  if reverse
  then @rev A <$> stable_sort lt (rev l)
  else stable_sort lt l.

(** [field if field is not None else dflt] *)
Definition or_default (field : option pyval) (dflt : sort_key) : sort_key :=
  match field with
  | Some v => KVal v
  | None => dflt
  end.

(** [p.financial_metrics.get(k, dflt) if p.financial_metrics else dflt] *)
Definition metric_or (p : Property) (k : string) (dflt : pyval) : sort_key :=
  if dict_truthy (financial_metrics p)
  then KVal (default dflt (financial_metrics p !! k))
  else KVal dflt.

(** The table [sort_keys]. *)
Definition sort_keys : list (string * (Property -> sort_key)) :=
  [ ("price"%string, fun p => or_default (num (price p)) (KVal VInf));
    ("price_asc"%string, fun p => or_default (num (price p)) (KVal VInf));
    ("rental_yield"%string, fun p => or_default (num (rental_yield p)) KNegInf);
    ("cap_rate"%string, fun p => or_default (num (cap_rate p)) KNegInf);
    ("price_to_rent"%string,
       fun p => or_default (num (price_to_rent_ratio p)) (KVal VInf));
    ("square_feet"%string, fun p => or_default (num (square_feet p)) (KVal (VInt 0)));
    ("bedrooms"%string, fun p => or_default (num (bedrooms p)) (KVal (VInt 0)));
    ("bathrooms"%string, fun p => or_default (num (bathrooms p)) (KVal (VInt 0)));
    ("year_built"%string, fun p => or_default (int (year_built p)) (KVal (VInt 0)));
    ("cash_flow"%string, fun p => metric_or p "monthly_cash_flow" (VInt 0));
    ("cash_on_cash"%string, fun p => metric_or p "cash_on_cash_return" (VInt 0));
    ("risk_score"%string, fun p => metric_or p "risk_score" VInf) ].

(** [sort_keys[k]], if [k in sort_keys] *)
Fixpoint lookup_key (k : string) (table : list (string * (Property -> sort_key)))
    : option (Property -> sort_key) :=
  match table with
  | [] => None
  | (k', f) :: table' => if String.eqb k k' then Some f else lookup_key k table'
  end.

Definition sort_properties (properties : list Property) (sort_by : string)
    (reverse : bool) : result (list Property) :=
  match properties with
  | [] => Ok []
  | _ =>
      match lookup_key sort_by sort_keys with
      | Some key_func =>
          let reverse := if String.eqb sort_by "price_asc" then false else reverse in
          let reverse := if String.eqb sort_by "risk_score" then negb reverse else reverse in
          py_sorted key_func reverse properties
      | None =>
          py_sorted (fun p => or_default (num (price p)) (KVal VInf)) reverse properties
      end
  end.

End DataAggregator.

(** ** app.py *)

Module App.

(** [calculate_for_property]: the record with the metrics assigned to
    it, or the record as it is when the computation raises.  The
    assignment is made on the object itself, which the computation of
    the metrics does not read back. *)
Definition calculate_for_property (prop : Property) : Property :=
  match FinancialAnalysis.calculate_metrics prop (2 # 10) None 30 with
  | Ok metrics => set_financial_metrics metrics prop
  | Raise _ => prop
  end.

(** [executor.map] hands the results back in the order of the input. *)
Definition calculate_financial_metrics (properties : list Property)
    : list Property :=
  match properties with
  | [] => []
  | _ => calculate_for_property <$> properties
  end.

End App.

(** ** Reference formulas *)

Import FinancialAnalysis DataAggregator.

(** The level-payment amortization formula [L*[c(1+c)^N]/[(1+c)^N - 1]]
    with [c = r/12] and [N = 12 n], and [L/N] when [c] is zero. *)
Definition amortization_formula (L r : Q) (n : Z) : Q :=
  let c := r / 12 in
  let N := (n * 12)%Z in
  if Qeq_bool c 0 then L / inject_Z N
  else L * (c * (1 + c) ^ N) / ((1 + c) ^ N - 1).

(** Property tax, insurance, vacancy, maintenance and management for a
    price [x] and a monthly rent [m]. *)
Definition total_expenses (x m : Q) : Q :=
  x * DEFAULT_PROPERTY_TAX_RATE / 12 + x * DEFAULT_INSURANCE_RATE / 12
  + m * DEFAULT_VACANCY_RATE + m * DEFAULT_MAINTENANCE_RATE
  + m * DEFAULT_MANAGEMENT_FEE_RATE.

(** The monthly rent a computation runs on, given the annual rent [a] in
    effect: the supplied one, or [a / 12]. *)
Definition rent_used (p : Property) (a : Q) : Q :=
  if rent_truthy (monthly_rent p) then default 0 (monthly_rent p) else a / 12.

(** The partial result for a price [x], a down-payment share [dp] and a
    mortgage payment [payment]: the four entries and nothing else. *)
Definition is_partial_result (x dp payment : Q) (d : gmap string pyval) : Prop :=
  dom d = {[ "error"%string; "down_payment"%string; "loan_amount"%string;
             "monthly_mortgage_payment"%string ]}
  /\ d !! "error"%string = Some (VStr MSG_RENT)
  /\ d !! "down_payment"%string = Some (VFloat (x * dp))
  /\ d !! "loan_amount"%string = Some (VFloat (x - x * dp))
  /\ d !! "monthly_mortgage_payment"%string = Some (VFloat payment).

(** The records an adapter contributes: those it returned, none if it
    raised. *)
Definition records_of (r : result (list Property)) : list Property :=
  match r with
  | Ok ps => ps
  | Raise _ => []
  end.

(** The property-type filter of an aggregation: with a non-empty list of
    requested types, a record is kept when its type contains one of them,
    case-insensitively. *)
Definition retained (property_types : option (list string)) (p : Property) : bool :=
  match property_types with
  | Some (pt :: pts) => type_matches (lower <$> (pt :: pts)) p
  | _ => true
  end.

(** The range checks made on a field of the record itself: the filter
    key, the comparison with the bound, and the field. *)
Definition range_dimensions
    : list (string * (pyval -> pyval -> result bool) * (Property -> option pyval)) :=
  [ ("min_price"%string, py_ge, fun p => num (price p));
    ("max_price"%string, py_le, fun p => num (price p));
    ("min_bedrooms"%string, py_ge, fun p => num (bedrooms p));
    ("max_bedrooms"%string, py_le, fun p => num (bedrooms p));
    ("min_rental_yield"%string, py_ge, fun p => num (rental_yield p));
    ("max_rental_yield"%string, py_le, fun p => num (rental_yield p));
    ("min_square_feet"%string, py_ge, fun p => num (square_feet p));
    ("max_square_feet"%string, py_le, fun p => num (square_feet p));
    ("min_year_built"%string, py_ge, fun p => int (year_built p));
    ("max_year_built"%string, py_le, fun p => int (year_built p)) ].

(** The numbers that sort keys range over: rationals and both infinities. *)
Inductive xnum : Type :=
| XNegInf
| XFin (q : Q)
| XPosInf.

Definition xleb (a b : xnum) : bool :=
  match a, b with
  | XNegInf, _ => true
  | _, XPosInf => true
  | XFin x, XFin y => Qle_bool x y
  | _, _ => false
  end.

(** The number a sort key stands for, if it is one. *)
Definition key_num (k : sort_key) : option xnum :=
  match k with
  | KNegInf => Some XNegInf
  | KVal v =>
      match as_num v with
      | Some (Fin q) => Some (XFin q)
      | Some PInf => Some XPosInf
      | None => None
      end
  end.

(** Both keys are numbers, the first at most the second. *)
Definition key_le (a b : sort_key) : Prop :=
  match key_num a, key_num b with
  | Some x, Some y => xleb x y = true
  | _, _ => False
  end.

(** The key function a sort runs on: the table entry, or the price key
    for a name that is not in the table. *)
Definition key_of (sort_by : string) : Property -> sort_key :=
  default (fun p => or_default (num (price p)) (KVal VInf))
          (lookup_key sort_by sort_keys).

(** The direction a sort runs in: [price_asc] is always ascending and
    [risk_score] inverts the flag. *)
Definition descending (sort_by : string) (reverse : bool) : bool :=
  if String.eqb sort_by "price_asc" then false
  else if String.eqb sort_by "risk_score" then negb reverse
  else reverse.

(** The records that the four statements of [__post_init__] arrive at,
    their divisions written as plain quotients. *)
Definition derive_yield (p : Property) : Property :=
  match annual_rent p, price_positive p with
  | Some a, Some x =>
      if q_truthy a then set_rental_yield (Some (a / x * 100)) p else p
  | _, _ => p
  end.

Definition derive_ratio (p : Property) : Property :=
  match annual_rent p, price p with
  | Some a, Some x =>
      if q_truthy a && q_truthy x && Qlt_bool 0 a
      then set_price_to_rent_ratio (Some (x / a)) p
      else p
  | _, _ => p
  end.

Definition derive_annual (p : Property) : Property :=
  match monthly_rent p with
  | Some m =>
      if q_truthy m && negb (rent_truthy (annual_rent p))
      then
        let p1 := set_annual_rent (Some (m * 12)) p in
        match price_positive p1 with
        | Some x =>
            set_price_to_rent_ratio (Some (x / (m * 12)))
              (set_rental_yield (Some (m * 12 / x * 100)) p1)
        | None => p1
        end
      else p
  | None => p
  end.

Definition derive_monthly (p : Property) : Property :=
  match annual_rent p with
  | Some a =>
      if q_truthy a && negb (rent_truthy (monthly_rent p))
      then set_monthly_rent (Some (a / 12)) p
      else p
  | None => p
  end.

Definition normalised (p : Property) : Property :=
  derive_monthly (derive_annual (derive_ratio (derive_yield p))).

(** What normalisation establishes: the rent fields are both usable or both
    not, and the rental yield and the price-to-rent ratio are the ones the
    annual rent and the price give wherever the constructor computes them. *)
Definition consistent (q : Property) : Prop :=
  rent_truthy (monthly_rent q) = rent_truthy (annual_rent q)
  /\ (forall a x, annual_rent q = Some a -> q_truthy a = true ->
        price_positive q = Some x -> rental_yield q = Some (a / x * 100))
  /\ (forall a x, annual_rent q = Some a -> price q = Some x ->
        q_truthy a && q_truthy x && Qlt_bool 0 a = true ->
        price_to_rent_ratio q = Some (x / a)).

(** A quotient that is computed only for a positive divisor, and is
    infinite otherwise. *)
Definition ratio_or_inf (num den : Q) : pynum :=
  if Qlt_bool 0 den then Fin (num / den) else PInf.

(** The full dictionary for a price [x], an annual rent [a], a monthly
    rent [m], a mortgage payment [M], a down-payment share [dp], a rate
    [ir] and a term [n], its divisions written as plain quotients. *)
Definition full_result (x a m M dp ir : Q) (n : Z) : gmap string pyval :=
  let down_payment := x * dp in
  let loan_amount := x - down_payment in
  let property_tax := x * DEFAULT_PROPERTY_TAX_RATE / 12 in
  let insurance := x * DEFAULT_INSURANCE_RATE / 12 in
  let vacancy_cost := m * DEFAULT_VACANCY_RATE in
  let maintenance := m * DEFAULT_MAINTENANCE_RATE in
  let property_management := m * DEFAULT_MANAGEMENT_FEE_RATE in
  let total_monthly_expenses :=
    property_tax + insurance + vacancy_cost + maintenance + property_management in
  let monthly_cash_flow := m - M - total_monthly_expenses in
  let annual_cash_flow := monthly_cash_flow * 12 in
  let monthly_noi := m - total_monthly_expenses in
  let annual_noi := monthly_noi * 12 in
  let cap_rate := annual_noi / x * 100 in
  let rental_yield := a / x * 100 in
  let cash_on_cash_return := annual_cash_flow / down_payment * 100 in
  let gross_rent_multiplier := x / a in
  let debt_service_coverage_ratio := ratio_or_inf annual_noi (M * 12) in
  let price_to_rent_ratio := x / a in
  let break_even_ratio := ratio_or_inf (total_monthly_expenses + M) m in
  let operating_expense_ratio := ratio_or_inf total_monthly_expenses m in
  let one_percent_rule_value := m / x * 100 in
  let one_percent_rule_passed := Qle_bool 1 one_percent_rule_value in
  let r1 := risk_cap_rate cap_rate in
  let r2 := risk_cash_on_cash cash_on_cash_return in
  let r3 := risk_dscr debt_service_coverage_ratio in
  let r4 := risk_one_percent one_percent_rule_passed in
  let risk_factors := r1.1 ++ r2.1 ++ r3.1 ++ r4.1 in
  let risk_score := (r1.2 + r2.2 + r3.2 + r4.2)%Z in
  let risk_level := risk_level_of risk_score in
  list_to_map [
    ("property_price"%string, VFloat x);
    ("monthly_rent"%string, VFloat m);
    ("annual_rent"%string, VFloat a);
    ("down_payment"%string, VFloat down_payment);
    ("down_payment_percentage"%string, VFloat (dp * 100));
    ("loan_amount"%string, VFloat loan_amount);
    ("interest_rate"%string, VFloat (ir * 100));
    ("loan_term_years"%string, VInt n);
    ("monthly_mortgage_payment"%string, VFloat M);
    ("annual_mortgage_payment"%string, VFloat (M * 12));
    ("monthly_property_tax"%string, VFloat property_tax);
    ("annual_property_tax"%string, VFloat (property_tax * 12));
    ("monthly_insurance"%string, VFloat insurance);
    ("annual_insurance"%string, VFloat (insurance * 12));
    ("monthly_vacancy_cost"%string, VFloat vacancy_cost);
    ("annual_vacancy_cost"%string, VFloat (vacancy_cost * 12));
    ("monthly_maintenance"%string, VFloat maintenance);
    ("annual_maintenance"%string, VFloat (maintenance * 12));
    ("monthly_property_management"%string, VFloat property_management);
    ("annual_property_management"%string, VFloat (property_management * 12));
    ("total_monthly_expenses"%string, VFloat total_monthly_expenses);
    ("total_annual_expenses"%string, VFloat (total_monthly_expenses * 12));
    ("monthly_noi"%string, VFloat monthly_noi);
    ("annual_noi"%string, VFloat annual_noi);
    ("monthly_cash_flow"%string, VFloat monthly_cash_flow);
    ("annual_cash_flow"%string, VFloat annual_cash_flow);
    ("cap_rate"%string, VFloat cap_rate);
    ("rental_yield"%string, VFloat rental_yield);
    ("cash_on_cash_return"%string, VFloat cash_on_cash_return);
    ("gross_rent_multiplier"%string, VFloat gross_rent_multiplier);
    ("debt_service_coverage_ratio"%string, of_num debt_service_coverage_ratio);
    ("price_to_rent_ratio"%string, VFloat price_to_rent_ratio);
    ("break_even_ratio"%string, of_num break_even_ratio);
    ("operating_expense_ratio"%string, of_num operating_expense_ratio);
    ("one_percent_rule_value"%string, VFloat one_percent_rule_value);
    ("one_percent_rule_passed"%string, VBool one_percent_rule_passed);
    ("risk_score"%string, VInt risk_score);
    ("risk_level"%string, VStr risk_level);
    ("risk_factors"%string, VList risk_factors)
  ].

(** The stress report for a monthly rent [r], a base monthly cash flow
    [b], and a monthly cash flow [i] and a mortgage payment [M] at the
    raised rate. *)
Definition stress_report (r b i M : Q) : gmap string (pyval + gmap string pyval) :=
  let v := b - r * DEFAULT_VACANCY_RATE in
  let c := i - r * DEFAULT_VACANCY_RATE
           - r * (DEFAULT_MAINTENANCE_RATE * (5 # 10)) in
  list_to_map [
    ("increased_vacancy"%string, inr (list_to_map [
       ("monthly_cash_flow"%string, VFloat v);
       ("annual_cash_flow"%string, VFloat (v * 12));
       ("still_profitable"%string, VBool (Qlt_bool 0 v)) ]));
    ("interest_rate_increase"%string, inr (list_to_map [
       ("monthly_mortgage_payment"%string, VFloat M);
       ("monthly_cash_flow"%string, VFloat i);
       ("annual_cash_flow"%string, VFloat (i * 12));
       ("still_profitable"%string, VBool (Qlt_bool 0 i)) ]));
    ("combined_stress"%string, inr (list_to_map [
       ("monthly_cash_flow"%string, VFloat c);
       ("annual_cash_flow"%string, VFloat (c * 12));
       ("still_profitable"%string, VBool (Qlt_bool 0 c)) ]));
    ("summary"%string, inr (list_to_map [
       ("passed_all_tests"%string,
          VBool (Qlt_bool 0 v && Qlt_bool 0 i && Qlt_bool 0 c));
       ("worst_case_monthly_cash_flow"%string, VFloat c) ])) ].

(** The payment on the loan that a 20 percent down payment leaves of a
    price [x], over thirty years at the rate [r]. *)
Definition payment_at (x r : Q) : Q :=
  amortization_formula (x - x * (2 # 10)) r 30.

(** A stage of a filter works record by record: what it returns is a
    sublist of what it was given, and it returns on a concatenation
    exactly when it returns on both parts, with the two outcomes
    concatenated. *)
Definition record_wise (S : list Property -> result (list Property)) : Prop :=
  (forall l l', S l = Ok l' -> sublist l' l)
  /\ (forall a b out,
        S (a ++ b) = Ok out <->
        exists a' b', S a = Ok a' /\ S b = Ok b' /\ out = a' ++ b').

(** The record passes the filters when filtered on its own. *)
Definition kept (filters : gmap string pyval) (p : Property) : bool :=
  match filter_properties [p] filters with
  | Ok (_ :: _) => true
  | _ => false
  end.

(** The keys that [filter_properties] reads: those of the list-valued
    filters and those of the bounds. *)
Definition list_filter_keys : list string :=
  [ "sources"; "property_types"; "risk_levels"; "locations" ]%string.

Definition bound_filter_keys : list string :=
  [ "min_price"; "max_price"; "min_bedrooms"; "max_bedrooms";
    "min_rental_yield"; "max_rental_yield"; "min_cap_rate"; "max_cap_rate";
    "min_square_feet"; "max_square_feet"; "min_year_built"; "max_year_built";
    "min_cash_flow" ]%string.

(** The metrics of a record are well typed for filtering: a cap rate and
    a monthly cash flow, if present, are numbers and a risk level, if
    present, is a string. *)
Definition metrics_typed (p : Property) : Prop :=
  (forall v, financial_metrics p !! "cap_rate"%string = Some v ->
             is_Some (as_num v))
  /\ (forall v, financial_metrics p !! "monthly_cash_flow"%string = Some v ->
                is_Some (as_num v))
  /\ (forall v, financial_metrics p !! "risk_level"%string = Some v ->
                exists s, v = VStr s).

(** The filters are well typed: every bound is absent, [None] or a
    number, and every list-valued filter is absent, empty or a list of
    strings. *)
Definition filters_typed (filters : gmap string pyval) : Prop :=
  (forall k v, k ∈ bound_filter_keys -> filters !! k = Some v ->
               v = VNone \/ is_Some (as_num v))
  /\ (forall k v, k ∈ list_filter_keys -> filters !! k = Some v ->
                  truthy v = false \/ exists l, v = VList l).

(** A string in which the separator of the cache key does not occur. *)
Fixpoint colon_free (s : string) : bool :=
  match s with
  | EmptyString => true
  | String c s' => negb (Ascii.eqb c ":") && colon_free s'
  end.

(** A string in which the character [c] does not occur. *)
Fixpoint char_free (c : ascii) (s : string) : bool :=
  match s with
  | EmptyString => true
  | String a s' => negb (Ascii.eqb a c) && char_free c s'
  end.

(** [f"{k}={v}"] on a keyword name and the string form of its value. *)
Definition kv_join (kv : string * string) : string := kv.1 +:+ "=" +:+ kv.2.

(** [str] on an integer or a string: the decimal numeral, the string
    itself. *)
Definition str_of (v : Z + string) : string :=
  match v with
  | inl z => pretty z
  | inr s => s
  end.

(** ** Example inputs *)

(** A listing with only the fields the computations read. *)
Definition listing (price monthly_rent annual_rent cap_rate : option Q)
    (financial_metrics : gmap string pyval) : Property :=
  mkProperty "1" "Zillow" "https://example.test/1" (Some "house"%string)
    "1 Main St" (Some "Austin"%string) (Some "TX"%string) (Some "78701"%string)
    price None None None None None monthly_rent annual_rent None cap_rate None
    None financial_metrics.

(** The listing of price 300000 and monthly rent 2000, before
    normalisation ... *)
Definition example_fields : Property :=
  listing (Some 300000) (Some 2000) None None ∅.

(** ... and after it. *)
Definition example_property : Property :=
  set_price_to_rent_ratio (Some (300000 / (2000 * 12)))
    (set_rental_yield (Some (2000 * 12 / 300000 * 100))
       (set_annual_rent (Some (2000 * 12)) example_fields)).

(** A listing without rent, carrying the partial metrics computed for it. *)
Definition listing_without_rent : Property :=
  listing (Some 300000) None None None
    (<["error"%string := VStr FinancialAnalysis.MSG_RENT]> ∅).

(** * Properties *)

(** ** Outcomes and arithmetic *)

Lemma bind_Ok {A B} (a : A) (f : A -> result B) : (Ok a ≫= f) = f a.
Proof. reflexivity. Qed.

Lemma bind_Raise {A B} (e : exn) (f : A -> result B) : (Raise e ≫= f) = Raise e.
Proof. reflexivity. Qed.

Lemma fmap_Ok {A B} (f : A -> B) (a : A) : f <$> Ok a = Ok (f a).
Proof. reflexivity. Qed.

Lemma Qlt_bool_iff (x y : Q) : Qlt_bool x y = true <-> x < y.
Proof.
  unfold Qlt_bool. rewrite negb_true_iff, <- not_true_iff_false, Qle_bool_iff.
  split; [apply Qnot_le_lt | apply Qlt_not_le].
Qed.

Lemma q_truthy_iff (x : Q) : q_truthy x = true <-> ~ x == 0.
Proof.
  unfold q_truthy. rewrite negb_true_iff, <- not_true_iff_false, Qeq_bool_iff.
  reflexivity.
Qed.

Lemma q_truthy_false_iff (x : Q) : q_truthy x = false <-> x == 0.
Proof.
  unfold q_truthy. rewrite negb_false_iff. apply Qeq_bool_iff.
Qed.

Lemma py_div_Ok (a b : Q) : ~ b == 0 -> py_div a b = Ok (a / b).
Proof.
  intros Hb. unfold py_div.
  destruct (Qeq_bool b 0) eqn:E; [| reflexivity].
  apply Qeq_bool_iff in E. contradiction.
Qed.

Lemma py_div_zero (a b : Q) : b == 0 -> py_div a b = Raise ZeroDivisionError.
Proof.
  intros Hb. unfold py_div. apply Qeq_bool_iff in Hb. rewrite Hb. reflexivity.
Qed.

Lemma price_positive_Some (p : Property) (x : Q) :
  price_positive p = Some x <-> price p = Some x /\ 0 < x.
Proof.
  unfold price_positive.
  destruct (price p) as [y|]; [| split; [discriminate | intros [? _]; discriminate]].
  destruct (q_truthy y && Qlt_bool 0 y) eqn:E.
  - apply andb_true_iff in E as [_ E]. apply Qlt_bool_iff in E.
    split; [intros [= <-]; auto | intros [[= <-] _]; reflexivity].
  - split; [discriminate |]. intros [[= <-] Hx].
    apply andb_false_iff in E as [E | E].
    + apply not_true_iff_false in E. exfalso. apply E, q_truthy_iff.
      intros H0. rewrite H0 in Hx. discriminate.
    + apply not_true_iff_false in E. exfalso. apply E, Qlt_bool_iff, Hx.
Qed.

Lemma post_init_example : post_init example_fields = Ok example_property.
Proof. reflexivity. Qed.

(** ** The mortgage payment *)

(** With a positive term and a non-negative rate the payment is defined
    and is the amortization formula. *)
Lemma mortgage_payment_returns (L r : Q) (n : Z) :
  (0 < n)%Z -> 0 <= r ->
  _calculate_mortgage_payment L r n = Ok (amortization_formula L r n).
Proof.
  intros Hn Hr. unfold _calculate_mortgage_payment, amortization_formula.
  cbv zeta.
  destruct (Qeq_bool (r / 12) 0) eqn:Ec.
  - apply py_div_Ok. intros H.
    assert (Hz : (n * 12)%Z = 0%Z).
    { unfold Qeq, inject_Z in H. simpl in H. lia. }
    lia.
  - apply Qeq_bool_neq in Ec.
    assert (Hc : 0 < r / 12).
    { apply Qle_lteq in Hr as [Hr | Hr].
      - apply Qlt_shift_div_l; [reflexivity | lra].
      - exfalso. apply Ec. rewrite <- Hr. reflexivity. }
    assert (H1 : 1 < 1 + r / 12) by lra.
    unfold math_pow.
    replace (Qeq_bool (1 + r / 12) 0) with false.
    2:{ symmetry. apply not_true_iff_false. rewrite Qeq_bool_iff. lra. }
    cbn [andb]. rewrite !bind_Ok.
    apply py_div_Ok.
    pose proof (Qpower_1_lt (1 + r / 12) (n * 12) H1 ltac:(lia)). lra.
Qed.

(** A term of zero years always ends in a division by zero. *)
Lemma mortgage_payment_zero_term (L r : Q) :
  _calculate_mortgage_payment L r 0 = Raise ZeroDivisionError.
Proof.
  unfold _calculate_mortgage_payment. cbv zeta.
  destruct (Qeq_bool (r / 12) 0) eqn:Ec; [reflexivity |].
  unfold math_pow. rewrite andb_false_r, !bind_Ok. reflexivity.
Qed.

(** ** The two result shapes of [calculate_metrics] *)

Lemma effective_annual_rent_None (p : Property) :
  effective_annual_rent p = None <->
  rent_truthy (monthly_rent p) = false /\ rent_truthy (annual_rent p) = false.
Proof.
  unfold effective_annual_rent.
  destruct (rent_truthy (annual_rent p)) eqn:Ea.
  - split; [| intros [_ ?]; discriminate].
    intros H. rewrite H in Ea. discriminate.
  - destruct (monthly_rent p) as [m|]; cbn [rent_truthy].
    + destruct (q_truthy m); split; auto; try discriminate.
      intros [? _]; discriminate.
    + split; auto.
Qed.

Lemma effective_annual_rent_nonzero (p : Property) (a : Q) :
  effective_annual_rent p = Some a -> ~ a == 0.
Proof.
  unfold effective_annual_rent. intros Ha.
  destruct (rent_truthy (annual_rent p)) eqn:E.
  - rewrite Ha in E. apply q_truthy_iff, E.
  - destruct (monthly_rent p) as [m|]; [| discriminate].
    destruct (q_truthy m) eqn:Em; [| discriminate].
    injection Ha as <-. apply q_truthy_iff in Em. lra.
Qed.

Lemma partial_dict_shape (x dp payment : Q) :
  is_partial_result x dp payment
    (<["monthly_mortgage_payment"%string := VFloat payment]>
       (<["loan_amount"%string := VFloat (x - x * dp)]>
          (<["down_payment"%string := VFloat (x * dp)]>
             (<["error"%string := VStr MSG_RENT]> ∅)))).
Proof.
  unfold is_partial_result. split.
  - rewrite !dom_insert_L, dom_empty_L. set_solver.
  - repeat split; reflexivity.
Qed.

(** Without rent the result is the partial dictionary, provided the
    mortgage payment is defined; otherwise its exception propagates. *)
Lemma calculate_metrics_no_rent p dp ir n x :
  price_positive p = Some x ->
  effective_annual_rent p = None ->
  calculate_metrics p dp ir n =
    match _calculate_mortgage_payment (x - x * dp)
            (default DEFAULT_MORTGAGE_INTEREST_RATE ir) n with
    | Ok payment =>
        Ok (<["monthly_mortgage_payment"%string := VFloat payment]>
              (<["loan_amount"%string := VFloat (x - x * dp)]>
                 (<["down_payment"%string := VFloat (x * dp)]>
                    (<["error"%string := VStr MSG_RENT]> ∅))))
    | Raise e => Raise e
    end.
Proof.
  intros Hx Ha. unfold calculate_metrics. rewrite Hx, Ha. cbv zeta.
  destruct (_calculate_mortgage_payment _ _ _); reflexivity.
Qed.

Ltac div_step H :=
  match type of H with
  | _ = mbind _ (py_div ?a ?b) =>
      rewrite (py_div_Ok a b) in H; [rewrite bind_Ok in H |]
  end.

Lemma rent_used_Ok (p : Property) (a : Q) :
  (if rent_truthy (monthly_rent p)
   then Ok (default 0 (monthly_rent p)) else Ok (a / 12))
  = Ok (rent_used p a).
Proof. unfold rent_used. destruct (rent_truthy (monthly_rent p)); reflexivity. Qed.

(** With rent, a defined mortgage payment [M] and a non-zero down payment
    the full dictionary is returned; the entries the later results read
    are listed. *)
Lemma calculate_metrics_full p dp ir n x a M :
  price_positive p = Some x ->
  effective_annual_rent p = Some a ->
  _calculate_mortgage_payment (x - x * dp)
    (default DEFAULT_MORTGAGE_INTEREST_RATE ir) n = Ok M ->
  ~ x * dp == 0 ->
  let m := rent_used p a in
  let E := total_expenses x m in
  exists d,
    calculate_metrics p dp ir n = Ok d /\
    d !! "error"%string = None /\
    d !! "monthly_cash_flow"%string = Some (VFloat (m - M - E)) /\
    d !! "annual_cash_flow"%string = Some (VFloat ((m - M - E) * 12)) /\
    d !! "monthly_mortgage_payment"%string = Some (VFloat M) /\
    d !! "total_monthly_expenses"%string = Some (VFloat E) /\
    d !! "annual_noi"%string = Some (VFloat ((m - E) * 12)) /\
    d !! "annual_rent"%string = Some (VFloat a) /\
    d !! "cap_rate"%string = Some (VFloat ((m - E) * 12 / x * 100)) /\
    d !! "rental_yield"%string = Some (VFloat (a / x * 100)).
Proof.
  intros Hx Ha HM Hdp m E.
  assert (Hx0 : 0 < x) by (apply price_positive_Some in Hx; tauto).
  pose proof (effective_annual_rent_nonzero p a Ha) as Ha0.
  remember (calculate_metrics p dp ir n) as r eqn:Hr.
  unfold calculate_metrics in Hr. rewrite Hx, Ha in Hr. cbv zeta in Hr.
  rewrite rent_used_Ok, bind_Ok, HM, bind_Ok in Hr.
  fold m in Hr. fold (total_expenses x m) in Hr. fold E in Hr.
  div_step Hr; [| lra].
  div_step Hr; [| lra].
  div_step Hr; [| assumption].
  div_step Hr; [| assumption].
  assert (Hd : exists v, (if Qlt_bool 0 (M * 12)
                then Fin <$> py_div ((m - E) * 12) (M * 12) else Ok PInf) = Ok v).
  { destruct (Qlt_bool 0 (M * 12)) eqn:G; [| eauto].
    apply Qlt_bool_iff in G. rewrite py_div_Ok by lra. eauto. }
  destruct Hd as [dscr Hd]. rewrite Hd, !bind_Ok in Hr.
  assert (Hb : exists v, (if Qlt_bool 0 m
                then Fin <$> py_div (E + M) m else Ok PInf) = Ok v).
  { destruct (Qlt_bool 0 m) eqn:G; [| eauto].
    apply Qlt_bool_iff in G. rewrite py_div_Ok by lra. eauto. }
  destruct Hb as [ber Hb]. rewrite Hb, bind_Ok in Hr.
  assert (Ho : exists v, (if Qlt_bool 0 m
                then Fin <$> py_div E m else Ok PInf) = Ok v).
  { destruct (Qlt_bool 0 m) eqn:G; [| eauto].
    apply Qlt_bool_iff in G. rewrite py_div_Ok by lra. eauto. }
  destruct Ho as [oer Ho]. rewrite Ho, bind_Ok in Hr.
  replace (Qlt_bool 0 x) with true in Hr by (symmetry; apply Qlt_bool_iff, Hx0).
  cbv iota in Hr.
  rewrite (py_div_Ok m x), !bind_Ok in Hr by lra.
  subst r. eexists. split; [reflexivity |].
  repeat split; reflexivity.
Qed.

(** Conversely a returned result, with rent, means that the mortgage
    payment was defined and the down payment non-zero. *)
Lemma calculate_metrics_returns_inv p dp ir n x a d :
  price_positive p = Some x ->
  effective_annual_rent p = Some a ->
  calculate_metrics p dp ir n = Ok d ->
  exists M,
    _calculate_mortgage_payment (x - x * dp)
      (default DEFAULT_MORTGAGE_INTEREST_RATE ir) n = Ok M
    /\ ~ x * dp == 0.
Proof.
  intros Hx Ha Hr.
  assert (Hx0 : 0 < x) by (apply price_positive_Some in Hx; tauto).
  symmetry in Hr.
  unfold calculate_metrics in Hr. rewrite Hx, Ha in Hr. cbv zeta in Hr.
  rewrite rent_used_Ok, bind_Ok in Hr.
  destruct (_calculate_mortgage_payment _ _ _) as [M | e];
    [| rewrite bind_Raise in Hr; discriminate].
  rewrite bind_Ok in Hr.
  div_step Hr; [| lra].
  div_step Hr; [| lra].
  exists M. split; [reflexivity |].
  intros H0. rewrite (py_div_zero _ _ H0), bind_Raise in Hr. discriminate.
Qed.

(** With a price above zero, a term of zero years makes every call raise,
    with or without rent. *)
Lemma calculate_metrics_zero_term p dp ir x :
  price_positive p = Some x ->
  calculate_metrics p dp ir 0 = Raise ZeroDivisionError.
Proof.
  intros Hx. unfold calculate_metrics. rewrite Hx. cbv zeta.
  destruct (effective_annual_rent p) as [a |].
  - rewrite rent_used_Ok, bind_Ok, mortgage_payment_zero_term. reflexivity.
  - rewrite mortgage_payment_zero_term. reflexivity.
Qed.

(** Rents that are absent or zero give the result of a property without
    rent fields. *)
Lemma falsy_rents_as_absent p dp ir n :
  rent_truthy (monthly_rent p) = false ->
  rent_truthy (annual_rent p) = false ->
  calculate_metrics p dp ir n
  = calculate_metrics (set_monthly_rent None (set_annual_rent None p)) dp ir n.
Proof.
  intros Hm Ha. unfold calculate_metrics.
  change (price_positive (set_monthly_rent None (set_annual_rent None p)))
    with (price_positive p).
  change (effective_annual_rent (set_monthly_rent None (set_annual_rent None p)))
    with (@None Q).
  replace (effective_annual_rent p) with (@None Q)
    by (symmetry; apply effective_annual_rent_None; auto).
  reflexivity.
Qed.

(** ** Totality (C1) *)

(** C1: [calculate_metrics] is claimed to return a result for every
    combination of its parameters, [loan_term_years = 0] included.  On the
    example property with the default down payment and interest rate and
    [loan_term_years = 0] it raises [ZeroDivisionError] instead: the
    number of payments is zero, the guard of [_calculate_mortgage_payment]
    only tests the monthly rate, and the amortization formula divides by
    [(1 + c)^0 - 1 = 0]. *)
Theorem calculate_metrics_zero_term_raises :
  calculate_metrics example_property (2 # 10) None 0 = Raise ZeroDivisionError.
Proof. vm_compute. reflexivity. Qed.

(** ** Missing rent (C3) *)

(** The shape of the result when neither rent is available and the
    mortgage payment is defined. *)
Lemma no_rent_partial p dp ir n x payment :
  price p = Some x -> 0 < x ->
  rent_truthy (monthly_rent p) = false ->
  rent_truthy (annual_rent p) = false ->
  _calculate_mortgage_payment (x - x * dp)
    (default DEFAULT_MORTGAGE_INTEREST_RATE ir) n = Ok payment ->
  exists d, calculate_metrics p dp ir n = Ok d
            /\ is_partial_result x dp payment d.
Proof.
  intros Hp Hx Hm Ha HM.
  assert (Hpp : price_positive p = Some x) by (apply price_positive_Some; auto).
  assert (Hr : effective_annual_rent p = None)
    by (apply effective_annual_rent_None; auto).
  rewrite (calculate_metrics_no_rent p dp ir n x Hpp Hr), HM.
  eexists. split; [reflexivity |]. apply partial_dict_shape.
Qed.

(** C3: for every property with a price above zero and neither rent
    available, [calculate_metrics] returns exactly the partial result: the
    error flag, [down_payment = price * down_payment_percentage],
    [loan_amount = price - down_payment] and the mortgage payment, and no
    other entry.  Whenever the mortgage payment is defined the result is
    that dictionary; with a positive term and a non-negative rate it is
    defined and is the amortization formula. *)
Theorem missing_rent_partial_result p dp ir n x :
  price p = Some x -> 0 < x ->
  rent_truthy (monthly_rent p) = false ->
  rent_truthy (annual_rent p) = false ->
  let rate := default DEFAULT_MORTGAGE_INTEREST_RATE ir in
  (forall payment,
      _calculate_mortgage_payment (x - x * dp) rate n = Ok payment ->
      exists d, calculate_metrics p dp ir n = Ok d
                /\ is_partial_result x dp payment d)
  /\ ((0 < n)%Z -> 0 <= rate ->
      exists d, calculate_metrics p dp ir n = Ok d
                /\ is_partial_result x dp
                     (amortization_formula (x - x * dp) rate n) d).
Proof.
  intros Hp Hx Hm Ha rate. split.
  - intros payment HM. apply no_rent_partial; assumption.
  - intros Hn Hrate. apply no_rent_partial; try assumption.
    apply mortgage_payment_returns; assumption.
Qed.

Lemma missing_rent_partial_result_witness :
  exists d,
    calculate_metrics (listing (Some 300000) None None None ∅) (2 # 10) None 30
      = Ok d
    /\ is_partial_result 300000 (2 # 10)
         (amortization_formula (300000 - 300000 * (2 # 10))
            DEFAULT_MORTGAGE_INTEREST_RATE 30) d.
Proof.
  apply (missing_rent_partial_result
           (listing (Some 300000) None None None ∅) (2 # 10) None 30 300000);
    [reflexivity | reflexivity | reflexivity | reflexivity | reflexivity
    | discriminate].
Defined.

(** ** Zero rent (C10) *)

(** C10: a rent of exactly zero counts as absent.  A property whose
    monthly rent is zero (the annual rent being absent or zero), or whose
    annual rent is zero (the monthly rent being absent or zero), comes out
    of normalisation unchanged, so that no rent field, rental yield or
    price-to-rent ratio is derived; [calculate_metrics] treats it as the
    property without rent fields, and with a price above zero returns the
    partial missing-rent result for it. *)
Theorem zero_rent_treated_as_absent p z dp ir n x :
  z == 0 ->
  (monthly_rent p = Some z /\ rent_truthy (annual_rent p) = false)
  \/ (annual_rent p = Some z /\ rent_truthy (monthly_rent p) = false) ->
  price p = Some x -> 0 < x ->
  let rate := default DEFAULT_MORTGAGE_INTEREST_RATE ir in
  post_init p = Ok p
  /\ calculate_metrics p dp ir n
     = calculate_metrics (set_monthly_rent None (set_annual_rent None p)) dp ir n
  /\ (forall payment,
        _calculate_mortgage_payment (x - x * dp) rate n = Ok payment ->
        exists d, calculate_metrics p dp ir n = Ok d
                  /\ is_partial_result x dp payment d)
  /\ ((0 < n)%Z -> 0 <= rate ->
      exists d, calculate_metrics p dp ir n = Ok d
                /\ is_partial_result x dp
                     (amortization_formula (x - x * dp) rate n) d).
Proof.
  intros Hz Hrent Hp Hx rate.
  assert (Hzt : q_truthy z = false) by (apply q_truthy_false_iff, Hz).
  assert (Hm : rent_truthy (monthly_rent p) = false).
  { destruct Hrent as [[-> _] | [_ H]]; [exact Hzt | exact H]. }
  assert (Ha : rent_truthy (annual_rent p) = false).
  { destruct Hrent as [[_ H] | [-> _]]; [exact H | exact Hzt]. }
  split; [| split; [| split]].
  2: { apply falsy_rents_as_absent; assumption. }
  2: { intros payment HM. apply no_rent_partial; assumption. }
  2: { intros Hn Hrate. apply no_rent_partial; try assumption.
       apply mortgage_payment_returns; assumption. }
  assert (H1 : post_init_yield p = Ok p).
  { unfold post_init_yield. destruct (annual_rent p) as [a|]; [| reflexivity].
    cbn [rent_truthy] in Ha. rewrite Ha.
    destruct (price_positive p); reflexivity. }
  assert (H2 : post_init_ratio p = Ok p).
  { unfold post_init_ratio. destruct (annual_rent p) as [a|]; [| reflexivity].
    cbn [rent_truthy] in Ha. rewrite Ha.
    destruct (price p); reflexivity. }
  assert (H3 : post_init_annual p = Ok p).
  { unfold post_init_annual. destruct (monthly_rent p) as [m|]; [| reflexivity].
    cbn [rent_truthy] in Hm. rewrite Hm. reflexivity. }
  assert (H4 : post_init_monthly p = Ok p).
  { unfold post_init_monthly. destruct (annual_rent p) as [a|]; [| reflexivity].
    cbn [rent_truthy] in Ha. rewrite Ha. reflexivity. }
  unfold post_init. rewrite H1, bind_Ok, H2, bind_Ok, H3, bind_Ok. exact H4.
Qed.

Lemma zero_rent_treated_as_absent_witness :
  post_init (listing (Some 300000) (Some 0) None None ∅)
    = Ok (listing (Some 300000) (Some 0) None None ∅)
  /\ exists d,
       calculate_metrics (listing (Some 300000) (Some 0) None None ∅)
         (2 # 10) None 30 = Ok d
       /\ is_partial_result 300000 (2 # 10)
            (amortization_formula (300000 - 300000 * (2 # 10))
               DEFAULT_MORTGAGE_INTEREST_RATE 30) d.
Proof.
  destruct (zero_rent_treated_as_absent
              (listing (Some 300000) (Some 0) None None ∅) 0 (2 # 10) None 30
              300000) as (H1 & _ & _ & H3);
    [reflexivity | left; split; reflexivity | reflexivity | reflexivity |].
  split; [exact H1 |].
  apply H3; [reflexivity | discriminate].
Defined.

(** ** Cap rate against rental yield (C8) *)

(** The rent fields of a property agree when an annual rent supplied
    together with a monthly rent is twelve times the monthly one. *)
Lemma rent_used_agrees (p : Property) (a : Q) :
  effective_annual_rent p = Some a ->
  (forall m a', monthly_rent p = Some m -> annual_rent p = Some a' ->
                ~ m == 0 -> ~ a' == 0 -> a' == m * 12) ->
  a == rent_used p a * 12.
Proof.
  unfold effective_annual_rent, rent_used. intros Ha Hagree.
  destruct (monthly_rent p) as [m|] eqn:Em; cbn [rent_truthy default].
  - destruct (q_truthy m) eqn:Tm.
    + destruct (annual_rent p) as [a'|] eqn:Ea; cbn [rent_truthy] in Ha.
      * destruct (q_truthy a') eqn:Ta.
        -- injection Ha as <-.
           apply (Hagree m a'); auto; apply q_truthy_iff; assumption.
        -- injection Ha as <-. reflexivity.
      * injection Ha as <-. reflexivity.
    + field.
  - field.
Qed.

(** A property whose two rent fields disagree: price 100000, monthly rent
    2000, annual rent 12000.  Its expenses are positive and its cap rate
    (17.6) is above its rental yield (12). *)
Lemma cap_rate_above_yield_counterexample :
  exists p d cr ry E,
    post_init (listing (Some 100000) (Some 2000) (Some 12000) None ∅) = Ok p
    /\ calculate_metrics p (2 # 10) None 30 = Ok d
    /\ d !! "cap_rate"%string = Some (VFloat cr)
    /\ d !! "rental_yield"%string = Some (VFloat ry)
    /\ d !! "total_monthly_expenses"%string = Some (VFloat E)
    /\ 0 < E
    /\ ~ cr < ry.
Proof.
  set (p := set_price_to_rent_ratio (Some (100000 / 12000))
              (set_rental_yield (Some (12000 / 100000 * 100))
                 (listing (Some 100000) (Some 2000) (Some 12000) None ∅))).
  destruct (calculate_metrics_full p (2 # 10) None 30 100000 12000
              (amortization_formula (100000 - 100000 * (2 # 10))
                 DEFAULT_MORTGAGE_INTEREST_RATE 30))
    as (d & Hd & _ & _ & _ & _ & HE & _ & _ & Hcr & Hry);
    [reflexivity | reflexivity
    | apply mortgage_payment_returns; [reflexivity | discriminate]
    | discriminate |].
  exists p, d. do 3 eexists.
  split; [reflexivity |].
  split; [exact Hd |]. split; [exact Hcr |]. split; [exact Hry |].
  split; [exact HE |].
  split; [reflexivity |].
  apply Qle_not_lt. discriminate.
Qed.

(** C8, amended: for every property with a price above zero and rent data,
    the cap rate and the rental yield in a result of [calculate_metrics]
    are equal exactly when the annual NOI equals the annual rent; when the
    property's rent fields agree (an annual rent supplied together with a
    monthly rent is twelve times it) this is the case of zero expenses,
    and the cap rate is below the rental yield whenever the total monthly
    expenses are positive.  A result
    is returned whenever the term is positive, the rate non-negative and
    the down-payment share non-zero. *)
Theorem cap_rate_vs_rental_yield p dp ir n x a :
  price p = Some x -> 0 < x ->
  effective_annual_rent p = Some a ->
  (forall d, calculate_metrics p dp ir n = Ok d ->
     exists cr ry noi E,
       d !! "cap_rate"%string = Some (VFloat cr)
       /\ d !! "rental_yield"%string = Some (VFloat ry)
       /\ d !! "annual_noi"%string = Some (VFloat noi)
       /\ d !! "annual_rent"%string = Some (VFloat a)
       /\ d !! "total_monthly_expenses"%string = Some (VFloat E)
       /\ (cr == ry <-> noi == a)
       /\ ((forall m a', monthly_rent p = Some m -> annual_rent p = Some a' ->
                         ~ m == 0 -> ~ a' == 0 -> a' == m * 12) ->
           (noi == a <-> E == 0) /\ (0 < E -> cr < ry)))
  /\ ((0 < n)%Z -> 0 <= default DEFAULT_MORTGAGE_INTEREST_RATE ir ->
      ~ dp == 0 ->
      exists d, calculate_metrics p dp ir n = Ok d).
Proof.
  intros Hp Hx Ha.
  assert (Hpp : price_positive p = Some x) by (apply price_positive_Some; auto).
  split.
  - intros d Hd.
    destruct (calculate_metrics_returns_inv p dp ir n x a d Hpp Ha Hd)
      as (M & HM & Hdp).
    destruct (calculate_metrics_full p dp ir n x a M Hpp Ha HM Hdp)
      as (d' & Hd' & _ & _ & _ & _ & HE & Hnoi & Har & Hcr & Hry).
    rewrite Hd in Hd'. injection Hd' as <-.
    do 4 eexists.
    split; [exact Hcr |]. split; [exact Hry |]. split; [exact Hnoi |].
    split; [exact Har |]. split; [exact HE |].
    set (m := rent_used p a) in *. set (E := total_expenses x m) in *.
    split.
    + split; intros H.
      * assert (H' : (m - E) * 12 / x == a / x) by lra.
        apply (Qmult_inj_r _ _ (/ x)); [| exact H'].
        intros H0. apply (Qinv_lt_0_compat x) in Hx. lra.
      * assert (H' : (m - E) * 12 / x == a / x).
        { unfold Qdiv. rewrite H. reflexivity. }
        lra.
    + intros Hagree.
      pose proof (rent_used_agrees p a Ha Hagree) as Hma. fold m in Hma.
      split; [split; intros H; lra |].
      intros HE0.
      assert (H' : (m - E) * 12 / x < a / x).
      { unfold Qdiv. apply Qmult_lt_compat_r; [apply Qinv_lt_0_compat, Hx | lra]. }
      lra.
  - intros Hn Hr Hdp.
    destruct (calculate_metrics_full p dp ir n x a
                (amortization_formula (x - x * dp)
                   (default DEFAULT_MORTGAGE_INTEREST_RATE ir) n) Hpp Ha)
      as (d & Hd & _).
    + apply mortgage_payment_returns; assumption.
    + intros H0. apply Qmult_integral in H0 as [H0 | H0]; [lra | contradiction].
    + exists d. exact Hd.
Qed.

Lemma cap_rate_vs_rental_yield_witness :
  exists d, calculate_metrics example_property (2 # 10) None 30 = Ok d.
Proof.
  destruct (cap_rate_vs_rental_yield example_property (2 # 10) None 30
              300000 (2000 * 12)) as [_ H];
    [reflexivity | reflexivity | reflexivity |].
  apply H; [reflexivity | discriminate | discriminate].
Defined.

(** ** Stress test on the worked example (C7) *)

Lemma subscript_Some {V} (d : gmap string V) (k : string) (v : V) :
  d !! k = Some v -> subscript d k = Ok v.
Proof. intros H. unfold subscript. rewrite H. reflexivity. Qed.

Lemma py_float_VFloat (q : Q) : py_float (VFloat q) = Ok q.
Proof. reflexivity. Qed.

Lemma py_gt_VFloat_zero (q : Q) :
  py_gt (VFloat q) (VInt 0) = Ok (negb (Qle_bool q (inject_Z 0))).
Proof. reflexivity. Qed.

(** The growth factor of the default rate over thirty years. *)
Lemma default_rate_growth :
  31 # 9 <= (1 + DEFAULT_MORTGAGE_INTEREST_RATE / 12) ^ (30 * 12).
Proof. apply Qle_bool_imp_le. vm_compute. reflexivity. Qed.

(** The default payment on the example loan is at most 1550 ... *)
Lemma example_payment_default :
  amortization_formula (300000 - 300000 * (2 # 10))
    DEFAULT_MORTGAGE_INTEREST_RATE 30 <= 1550.
Proof.
  unfold amortization_formula. cbv zeta.
  replace (Qeq_bool (DEFAULT_MORTGAGE_INTEREST_RATE / 12) 0) with false
    by reflexivity.
  pose proof default_rate_growth as HP.
  set (P := (1 + DEFAULT_MORTGAGE_INTEREST_RATE / 12) ^ (30 * 12)) in *.
  clearbody P.
  setoid_replace (DEFAULT_MORTGAGE_INTEREST_RATE / 12) with (11 # 2400)
    using relation Qeq by reflexivity.
  apply Qle_shift_div_r; lra.
Qed.

(** ... and the payment at two points more is at least 1500. *)
Lemma example_payment_stressed :
  1500 <= amortization_formula (300000 - 300000 * (2 # 10))
            (DEFAULT_MORTGAGE_INTEREST_RATE + (2 # 100)) 30.
Proof.
  unfold amortization_formula. cbv zeta.
  replace (Qeq_bool ((DEFAULT_MORTGAGE_INTEREST_RATE + (2 # 100)) / 12) 0)
    with false by reflexivity.
  assert (HP : 1 < (1 + (DEFAULT_MORTGAGE_INTEREST_RATE + (2 # 100)) / 12) ^ (30 * 12)).
  { apply Qpower_1_lt; reflexivity. }
  set (P := (1 + (DEFAULT_MORTGAGE_INTEREST_RATE + (2 # 100)) / 12) ^ (30 * 12)) in *.
  clearbody P.
  setoid_replace ((DEFAULT_MORTGAGE_INTEREST_RATE + (2 # 100)) / 12)
    with (1 # 160) using relation Qeq by reflexivity.
  apply Qle_shift_div_l; lra.
Qed.

(** C7: for the property with price 300000 and monthly rent 2000 under the
    default parameters, the stress test returns a report whose
    combined-stress monthly cash flow is at most the increased-vacancy
    one, which is at most the base monthly cash flow of
    [calculate_metrics]. *)
Theorem stress_test_example_monotone :
  exists base report combined vacancy c v b,
    calculate_metrics example_property (2 # 10) None 30 = Ok base /\
    perform_stress_test example_property = Ok report /\
    report !! "combined_stress"%string = Some (inr combined) /\
    report !! "increased_vacancy"%string = Some (inr vacancy) /\
    combined !! "monthly_cash_flow"%string = Some (VFloat c) /\
    vacancy !! "monthly_cash_flow"%string = Some (VFloat v) /\
    base !! "monthly_cash_flow"%string = Some (VFloat b) /\
    c <= v /\ v <= b.
Proof.
  pose proof example_payment_default as H55.
  pose proof example_payment_stressed as H75.
  pose proof (mortgage_payment_returns (300000 - 300000 * (2 # 10))
                DEFAULT_MORTGAGE_INTEREST_RATE 30 eq_refl ltac:(discriminate))
    as HM55.
  pose proof (mortgage_payment_returns (300000 - 300000 * (2 # 10))
                (DEFAULT_MORTGAGE_INTEREST_RATE + (2 # 100)) 30 eq_refl
                ltac:(discriminate))
    as HM75.
  set (M55 := amortization_formula _ DEFAULT_MORTGAGE_INTEREST_RATE 30) in *.
  set (M75 := amortization_formula _ (DEFAULT_MORTGAGE_INTEREST_RATE + (2 # 100)) 30) in *.
  clearbody M55 M75.
  destruct (calculate_metrics_full example_property (2 # 10) None 30
              300000 (2000 * 12) M55)
    as (d1 & Hd1 & Herr1 & Hcf1 & _);
    [reflexivity | reflexivity | exact HM55 | discriminate |].
  destruct (calculate_metrics_full example_property (2 # 10)
              (Some (DEFAULT_MORTGAGE_INTEREST_RATE + (2 # 100))) 30
              300000 (2000 * 12) M75)
    as (d2 & Hd2 & _ & Hcf2 & Hacf2 & Hmp2 & _);
    [reflexivity | reflexivity | exact HM75 | discriminate |].
  cbv zeta in Hcf1, Hcf2, Hacf2.
  change (rent_used example_property (2000 * 12)) with 2000 in *.
  set (E := total_expenses 300000 2000) in *. clearbody E.
  assert (Hpi : post_init example_property = Ok example_property)
    by reflexivity.
  remember (perform_stress_test example_property) as r eqn:Hr.
  unfold perform_stress_test in Hr.
  rewrite Hd1, bind_Ok, Herr1, Hpi, bind_Ok, Hd1, bind_Ok in Hr.
  rewrite (subscript_Some _ _ _ Hcf1), bind_Ok, py_float_VFloat, bind_Ok in Hr.
  change (monthly_rent example_property) with (Some 2000) in Hr.
  cbv iota in Hr.
  rewrite bind_Ok, Hd2, bind_Ok in Hr.
  rewrite (subscript_Some _ _ _ Hmp2), bind_Ok in Hr.
  rewrite (subscript_Some _ _ _ Hcf2), !bind_Ok in Hr.
  rewrite (subscript_Some _ _ _ Hacf2), !bind_Ok in Hr.
  rewrite py_gt_VFloat_zero, !bind_Ok in Hr.
  rewrite Hd2, bind_Ok in Hr.
  rewrite (subscript_Some _ _ _ Hcf2), bind_Ok in Hr.
  rewrite py_float_VFloat, bind_Ok in Hr.
  subst r.
  exists d1. do 6 eexists.
  split; [exact Hd1 |].
  split; [reflexivity |].
  split; [reflexivity |].
  split; [reflexivity |].
  split; [reflexivity |].
  split; [reflexivity |].
  split; [exact Hcf1 |].
  unfold DEFAULT_VACANCY_RATE, DEFAULT_MAINTENANCE_RATE.
  split; lra.
Qed.

(** ** The two cache tiers (C5) *)

Section CacheTiers.
Context {V : Type}.
Variable md5_hexdigest : string -> string.

(** C5: after [set(k, v, ttl)] at time [t], in either tier, a [get(k)]
    at a time before the expiry instant [t + ttl] returns [v] and leaves
    the store as it is, and a [get(k)] once the TTL has elapsed returns
    [None] and removes the entry: the map slot of the volatile tier, the
    file of the persistent tier. *)
Theorem cache_set_then_get (k : string) (v : option V) (ttl : Z) (t t' : Q)
    (mem : gmap string (option V * Q)) (fs : gmap string (file V)) :
  let mem1 := MemoryCache.set t k v ttl mem in
  let fs1 := DiskCache.set md5_hexdigest t k v ttl fs in
  let path := DiskCache._get_cache_path md5_hexdigest k in
  (t' < t + inject_Z ttl ->
     MemoryCache.get t' k mem1 = (v, mem1)
     /\ DiskCache.get md5_hexdigest t' k fs1 = (v, fs1))
  /\ (t + inject_Z ttl <= t' ->
      MemoryCache.get t' k mem1 = (None, delete k mem1)
      /\ delete k mem1 !! k = None
      /\ DiskCache.get md5_hexdigest t' k fs1 = (None, delete path fs1)
      /\ delete path fs1 !! path = None).
Proof.
  intros mem1 fs1 path.
  unfold MemoryCache.get, DiskCache.get. fold path.
  subst mem1 fs1. unfold MemoryCache.set, DiskCache.set. fold path.
  cbv zeta. rewrite !lookup_insert_eq.
  split.
  - intros Hlt. apply Qlt_bool_iff in Hlt. rewrite Hlt. split; reflexivity.
  - intros Hle.
    assert (Hf : Qlt_bool t' (t + inject_Z ttl) = false).
    { apply not_true_iff_false. rewrite Qlt_bool_iff. apply Qle_not_lt, Hle. }
    rewrite Hf. rewrite !lookup_delete_eq. repeat split; reflexivity.
Qed.
End CacheTiers.

Lemma cache_set_then_get_witness :
  MemoryCache.get 5 "k" (MemoryCache.set 0 "k" (Some 7%nat) 10 ∅)
    = (Some 7%nat, MemoryCache.set 0 "k" (Some 7%nat) 10 ∅)
  /\ (MemoryCache.get 10 "k" (MemoryCache.set 0 "k" (Some 7%nat) 10 ∅)).1 = None.
Proof.
  destruct (cache_set_then_get (fun s => s) "k" (Some 7%nat) 10 0 5 ∅ ∅)
    as [H1 _].
  destruct (cache_set_then_get (fun s => s) "k" (Some 7%nat) 10 0 10 ∅ ∅)
    as [_ H2].
  split.
  - apply H1. reflexivity.
  - destruct H2 as [H2 _]; [discriminate |]. rewrite H2. reflexivity.
Defined.

(** ** A result of [None] (C9) *)

Section NoneResults.
Context {A V : Type}.
Variable md5_hexdigest : string -> string.
Variable py_str : A -> string.
Variables (ttl : Z) (use_disk : bool) (func_name : string).
Variable func : nat -> list A -> gmap string A -> option V.
Variables (args : list A) (kwargs : gmap string A).

Let key := cache_key py_str func_name args kwargs.
Let call := wrapper md5_hexdigest py_str ttl use_disk func_name func args kwargs.

Let holds_none := stored_none (A:=A) (V:=V) md5_hexdigest use_disk key.

Hypothesis func_none : forall i, func i args kwargs = None.

(** A lookup that finds a stored [None] reports [None], whether the
    entry is live or expired, and leaves nothing else under the key. *)
Lemma stored_none_call (t_get t_set : Q) (w : world A V) :
  holds_none w ->
  (call t_get t_set w).1 = None
  /\ calls (call t_get t_set w).2 = calls w ++ [(args, kwargs)]
  /\ holds_none (call t_get t_set w).2.
Proof.
  unfold holds_none, stored_none, call, wrapper, handler_get, handler_set.
  fold key. destruct use_disk; intros [e He].
  - unfold DiskCache.get, DiskCache.set. rewrite He.
    destruct (Qlt_bool t_get e); cbn; rewrite func_none;
      (split; [reflexivity | split; [reflexivity |]]);
      eexists; apply lookup_insert_eq.
  - unfold MemoryCache.get, MemoryCache.set. rewrite He.
    destruct (Qlt_bool t_get e); cbn; rewrite func_none;
      (split; [reflexivity | split; [reflexivity |]]);
      eexists; apply lookup_insert_eq.
Qed.

(** A call that runs the operation stores its [None]. *)
Lemma invoked_stores_none (t_get t_set : Q) (w : world A V) :
  calls (call t_get t_set w).2 = calls w ++ [(args, kwargs)] ->
  (call t_get t_set w).1 = None /\ holds_none (call t_get t_set w).2.
Proof.
  unfold holds_none, stored_none, call, wrapper. fold key.
  destruct (handler_get md5_hexdigest use_disk t_get key w) as [[v|] w1] eqn:Hg.
  - intros Hc. exfalso.
    assert (Hw : calls w1 = calls w).
    { unfold handler_get in Hg. destruct use_disk; injection Hg as _ <-; reflexivity. }
    cbn in Hc. rewrite Hw in Hc.
    apply (f_equal length) in Hc. rewrite length_app in Hc. cbn in Hc. lia.
  - intros _. rewrite func_none. split; [reflexivity |].
    unfold handler_set. destruct use_disk; cbn.
    + eexists. apply lookup_insert_eq.
    + eexists. apply lookup_insert_eq.
Qed.

Lemma stored_none_sequence (times : list (Q * Q)) (w : world A V) :
  holds_none w ->
  let later :=
    call_sequence md5_hexdigest py_str ttl use_disk func_name func args kwargs
      times w in
  later.1 = replicate (length times) None
  /\ calls later.2 = calls w ++ replicate (length times) (args, kwargs).
Proof.
  revert w. induction times as [| [t_get t_set] times IH]; intros w Hw.
  - cbn. rewrite app_nil_r. split; reflexivity.
  - destruct (stored_none_call t_get t_set w Hw) as (Hr & Hc & Hs).
    specialize (IH _ Hs). cbn zeta in IH. destruct IH as [IH1 IH2].
    cbn [call_sequence length replicate]. cbv zeta. cbn [fst snd].
    fold call. rewrite Hr, IH1, IH2, Hc, <- app_assoc. split; reflexivity.
Qed.

(** C9: when the wrapped operation answers [None] for the arguments, a
    call that ran the operation is followed only by calls that run it
    again: each later call with the same arguments returns [None] and
    adds one invocation, whatever the clock readings, in both tiers. *)
Theorem none_result_never_served (t_get t_set : Q) (times : list (Q * Q))
    (w : world A V) :
  let first := call t_get t_set w in
  calls first.2 = calls w ++ [(args, kwargs)] ->
  let later :=
    call_sequence md5_hexdigest py_str ttl use_disk func_name func args kwargs
      times first.2 in
  first.1 = None
  /\ later.1 = replicate (length times) None
  /\ calls later.2 = calls first.2 ++ replicate (length times) (args, kwargs).
Proof.
  intros first Hinv later.
  destruct (invoked_stores_none t_get t_set w Hinv) as [Hr Hs].
  split; [exact Hr |].
  apply stored_none_sequence, Hs.
Qed.
End NoneResults.

Lemma none_result_never_served_witness :
  let f := fun (_ : nat) (_ : list string) (_ : gmap string string) => @None nat in
  let first :=
    wrapper (fun s => s) (fun s => s) 3600 false "search" f ["Austin"%string] ∅
      0 1 (mkWorld ∅ ∅ []) in
  let later :=
    call_sequence (fun s => s) (fun s => s) 3600 false "search" f
      ["Austin"%string] ∅ [(2, 3); (4000, 4001)] first.2 in
  first.1 = None
  /\ later.1 = [None; None]
  /\ calls later.2 = calls first.2 ++ [(["Austin"%string], ∅); (["Austin"%string], ∅)].
Proof.
  intros f first later.
  apply (none_result_never_served (fun s => s) (fun s => s) 3600 false "search"
           f ["Austin"%string] ∅ (fun _ => eq_refl) 0 1 [(2, 3); (4000, 4001)]
           (mkWorld ∅ ∅ [])).
  reflexivity.
Defined.

(** ** The cache key (C6) *)

Lemma colon_free_cons (c : ascii) (s : string) :
  colon_free (String c s) = true -> c <> ":"%char /\ colon_free s = true.
Proof.
  cbn [colon_free]. intros H. apply andb_true_iff in H as [Hc Hs].
  split; [| exact Hs]. intros ->. discriminate.
Qed.

Lemma colon_free_separator (y r : string) :
  colon_free (y ++ ":" ++ r)%string = false.
Proof.
  induction y as [| c y IH]; [reflexivity |].
  change (colon_free (String c y ++ ":" ++ r)%string)
    with (negb (Ascii.eqb c ":") && colon_free (y ++ ":" ++ r)%string).
  rewrite IH. apply andb_false_r.
Qed.

Lemma colon_split (x y r r' : string) :
  colon_free x = true -> colon_free y = true ->
  (x ++ ":" ++ r)%string = (y ++ ":" ++ r')%string ->
  x = y /\ r = r'.
Proof.
  revert y. induction x as [| a x IH]; intros [| b y] Hx Hy H.
  - injection H as H. change (r = r') in H. subst. split; reflexivity.
  - apply colon_free_cons in Hy as [Hb _].
    injection H as Hc _. congruence.
  - apply colon_free_cons in Hx as [Ha _].
    injection H as Hc _. congruence.
  - apply colon_free_cons in Hx as [_ Hx].
    apply colon_free_cons in Hy as [_ Hy].
    injection H as -> H.
    destruct (IH y Hx Hy H) as [-> ->]. split; reflexivity.
Qed.

(** Joining with [":"] loses nothing on non-empty lists of strings free
    of [":"]. *)
Lemma concat_colon_inj (l1 l2 : list string) :
  l1 <> [] -> l2 <> [] ->
  Forall (fun s => colon_free s = true) l1 ->
  Forall (fun s => colon_free s = true) l2 ->
  String.concat ":" l1 = String.concat ":" l2 ->
  l1 = l2.
Proof.
  revert l2. induction l1 as [| x xs IH]; intros l2 H1 H2 F1 F2 H;
    [congruence |].
  destruct l2 as [| y ys]; [congruence |].
  apply Forall_cons in F1 as [Fx F1]. apply Forall_cons in F2 as [Fy F2].
  destruct xs as [| x2 xs]; destruct ys as [| y2 ys].
  - cbn in H. congruence.
  - cbn [String.concat] in H. exfalso.
    rewrite H, colon_free_separator in Fx. discriminate.
  - cbn [String.concat] in H. exfalso.
    rewrite <- H, colon_free_separator in Fy. discriminate.
  - change (String.concat ":" (x :: x2 :: xs))
      with (x ++ ":" ++ String.concat ":" (x2 :: xs))%string in H.
    change (String.concat ":" (y :: y2 :: ys))
      with (y ++ ":" ++ String.concat ":" (y2 :: ys))%string in H.
    destruct (colon_split _ _ _ _ Fx Fy H) as [-> Hr].
    f_equal. apply IH; auto; discriminate.
Qed.

Lemma colon_free_char_free (s : string) : colon_free s = char_free ":" s.
Proof. induction s as [| a s IH]; [reflexivity |]. cbn. rewrite IH. reflexivity. Qed.

Lemma char_free_cons (c a : ascii) (s : string) :
  char_free c (String a s) = true -> a <> c /\ char_free c s = true.
Proof.
  cbn [char_free]. intros H. apply andb_true_iff in H as [Hc Hs].
  split; [| exact Hs]. intros ->. rewrite Ascii.eqb_refl in Hc. discriminate.
Qed.

Lemma char_free_separator (c : ascii) (y r : string) :
  char_free c (y ++ String c r)%string = false.
Proof.
  induction y as [| a y IH].
  - change (char_free c ("" ++ String c r)%string)
      with (negb (Ascii.eqb c c) && char_free c r).
    rewrite Ascii.eqb_refl. reflexivity.
  - change (char_free c (String a y ++ String c r)%string)
      with (negb (Ascii.eqb a c) && char_free c (y ++ String c r)%string).
    rewrite IH. apply andb_false_r.
Qed.

Lemma char_split (c : ascii) (x y r r' : string) :
  char_free c x = true -> char_free c y = true ->
  (x ++ String c r)%string = (y ++ String c r')%string ->
  x = y /\ r = r'.
Proof.
  revert y. induction x as [| a x IH]; intros [| b y] Hx Hy H.
  - injection H as H. subst. split; reflexivity.
  - apply char_free_cons in Hy as [Hb _].
    injection H as Hc _. congruence.
  - apply char_free_cons in Hx as [Ha _].
    injection H as Hc _. congruence.
  - apply char_free_cons in Hx as [_ Hx].
    apply char_free_cons in Hy as [_ Hy].
    injection H as -> H.
    destruct (IH y Hx Hy H) as [-> ->]. split; reflexivity.
Qed.

Lemma kv_join_unfold (kv : string * string) :
  kv_join kv = (kv.1 ++ String "=" kv.2)%string.
Proof. reflexivity. Qed.

Lemma kv_join_not_free (kv : string * string) :
  char_free "=" (kv_join kv) <> true.
Proof. rewrite kv_join_unfold, char_free_separator. discriminate. Qed.

(** Joining a name without ["="] to a string loses neither. *)
Lemma kv_join_inj (l l' : list (string * string)) :
  Forall (fun kv => char_free "=" kv.1 = true) l ->
  Forall (fun kv => char_free "=" kv.1 = true) l' ->
  kv_join <$> l = kv_join <$> l' -> l = l'.
Proof.
  intros F. revert l'. induction F as [| [k v] l Hk F IH];
    intros [| [k' v'] l'] F' H; try discriminate; [reflexivity |].
  apply Forall_cons in F' as [Hk' F'].
  cbn [fmap list_fmap] in H. injection H as Hkv H.
  rewrite !kv_join_unfold in Hkv. cbn [fst snd] in *.
  destruct (char_split _ _ _ _ _ Hk Hk' Hkv) as [-> ->].
  f_equal. apply IH; assumption.
Qed.

(** Two concatenations agree part by part when a property of the
    elements tells the first parts from the second. *)
Lemma app_split_by {X} (P : X -> Prop) (l1 l2 k1 k2 : list X) :
  Forall P l1 -> Forall P l2 ->
  Forall (fun x => ~ P x) k1 -> Forall (fun x => ~ P x) k2 ->
  l1 ++ k1 = l2 ++ k2 -> l1 = l2 /\ k1 = k2.
Proof.
  intros F1. revert l2. induction F1 as [| x l1 Hx F1 IH]; intros l2 F2 G1 G2 H.
  - destruct F2 as [| y l2 Hy F2]; [auto |].
    cbn in H. subst k1. apply Forall_cons in G1 as [Hn _]. contradiction.
  - destruct F2 as [| y l2 Hy F2].
    + cbn in H. subst k2. apply Forall_cons in G2 as [Hn _]. contradiction.
    + cbn in H. injection H as -> H.
      destruct (IH l2 F2 G1 G2 H) as [-> ->]. auto.
Qed.

Lemma insert_item_fmap {X Y} (f : X -> Y) (x : string * X)
    (l : list (string * X)) :
  insert_item (prod_map Datatypes.id f x) (prod_map Datatypes.id f <$> l)
  = prod_map Datatypes.id f <$> insert_item x l.
Proof.
  induction l as [| y l IH]; [reflexivity |].
  cbn [fmap list_fmap insert_item]. destruct x as [k v], y as [k' v'].
  cbn [prod_map fst snd Datatypes.id].
  destruct (String.leb k k'); [reflexivity |].
  cbn [fmap list_fmap]. f_equal. exact IH.
Qed.

(** The sorted items of a mapped dictionary are the mapped sorted items:
    the order looks at the names only. *)
Lemma sorted_items_fmap {X Y} (f : X -> Y) (m : gmap string X) :
  sorted_items (f <$> m) = prod_map Datatypes.id f <$> sorted_items m.
Proof.
  unfold sorted_items. rewrite map_to_list_fmap.
  induction (map_to_list m) as [| x l IH]; [reflexivity |].
  cbn [fmap list_fmap foldr]. rewrite IH. apply insert_item_fmap.
Qed.

Lemma insert_item_Permutation {X} (x : string * X) (l : list (string * X)) :
  insert_item x l ≡ₚ x :: l.
Proof.
  induction l as [| y l IH]; [reflexivity |].
  cbn [insert_item]. destruct (String.leb x.1 y.1); [reflexivity |].
  rewrite IH. apply Permutation_swap.
Qed.

Lemma sorted_items_Permutation {X} (m : gmap string X) :
  sorted_items m ≡ₚ map_to_list m.
Proof.
  unfold sorted_items. induction (map_to_list m) as [| x l IH]; [reflexivity |].
  cbn [foldr]. rewrite insert_item_Permutation, IH. reflexivity.
Qed.

Lemma sorted_items_inj {X} (m m' : gmap string X) :
  sorted_items m = sorted_items m' -> m = m'.
Proof.
  intros H. apply map_to_list_inj.
  rewrite <- !sorted_items_Permutation, H. reflexivity.
Qed.

Lemma sorted_items_keys {X} (P : string -> Prop) (m : gmap string X) :
  map_Forall (fun k _ => P k) m -> Forall (fun kv => P kv.1) (sorted_items m).
Proof.
  intros H. apply Forall_forall. intros [k v] Hkv.
  rewrite sorted_items_Permutation in Hkv.
  apply elem_of_map_to_list in Hkv. exact (H k v Hkv).
Qed.

(** Different calls with one key, on strings, whose [str] is the
    identity, and on integers and strings: the single argument
    ["Austin:TX"] and the two arguments ["Austin"] and ["TX"]; the
    positional argument ["state=TX"] and the keyword argument
    [state="TX"]; the keyword name ["a=b"] with the value ["c"] and the
    keyword name ["a"] with the value ["b=c"]; the integer [1] and the
    string ["1"]. *)
Lemma cache_key_collision :
  (cache_key (fun s : string => s) "search_properties" ["Austin:TX"%string] ∅
     = cache_key (fun s : string => s) "search_properties"
         ["Austin"%string; "TX"%string] ∅
   /\ ["Austin:TX"%string] <> ["Austin"%string; "TX"%string])
  /\ (cache_key (fun s : string => s) "search_properties" ["state=TX"%string] ∅
        = cache_key (fun s : string => s) "search_properties" []
            {[ "state"%string := "TX"%string ]}
      /\ ["state=TX"%string] <> [])
  /\ (cache_key (fun s : string => s) "search_properties" []
        {[ "a=b"%string := "c"%string ]}
        = cache_key (fun s : string => s) "search_properties" []
            {[ "a"%string := "b=c"%string ]}
      /\ ({[ "a=b"%string := "c"%string ]} : gmap string string)
         <> {[ "a"%string := "b=c"%string ]})
  /\ (cache_key str_of "search_properties" [inl 1%Z] ∅
        = cache_key str_of "search_properties" [inr "1"%string] ∅
      /\ [@inl Z string 1%Z] <> [inr "1"%string]).
Proof.
  repeat split; try discriminate; vm_compute; reflexivity.
Qed.

Section CacheKey.
Context {A : Type}.
Variable py_str : A -> string.

(** The key parts are the name, the string forms of the positional
    values and the joined items of the dictionary of string forms. *)
Lemma key_parts_forms (name : string) (args : list A) (kwargs : gmap string A) :
  key_parts py_str name args kwargs
  = [name] ++ (py_str <$> args) ++ (kv_join <$> sorted_items (py_str <$> kwargs)).
Proof.
  unfold key_parts. rewrite sorted_items_fmap, <- list_fmap_compose.
  reflexivity.
Qed.

(** C6, amended: the cache key depends on a call only through the
    operation name, the string forms of the positional values in order
    and the string forms of the keyword values by name, so that equal
    calls have equal keys.  Among calls none of whose key parts (the
    operation name, the string form of each positional value, the [k=v]
    form of each keyword value) contains [":"], and in which no string
    form of a positional value and no keyword name contains ["="], two
    calls have the same key only if they agree in all of these; where the
    string form is injective they are then the same call: the same
    operation name, positional values and keyword values. *)
Theorem cache_key_separated (name name' : string) (args args' : list A)
    (kwargs kwargs' : gmap string A) :
  Forall (fun s => colon_free s = true) (key_parts py_str name args kwargs) ->
  Forall (fun s => colon_free s = true) (key_parts py_str name' args' kwargs') ->
  Forall (fun a => char_free "=" (py_str a) = true) args ->
  Forall (fun a => char_free "=" (py_str a) = true) args' ->
  map_Forall (fun k _ => char_free "=" k = true) kwargs ->
  map_Forall (fun k _ => char_free "=" k = true) kwargs' ->
  (cache_key py_str name args kwargs = cache_key py_str name' args' kwargs' <->
     name = name'
     /\ py_str <$> args = py_str <$> args'
     /\ py_str <$> kwargs = py_str <$> kwargs')
  /\ ((forall a b, py_str a = py_str b -> a = b) ->
      cache_key py_str name args kwargs = cache_key py_str name' args' kwargs' ->
      name = name' /\ args = args' /\ kwargs = kwargs').
Proof.
  intros F F' E E' K K'.
  assert (Hiff : cache_key py_str name args kwargs
                 = cache_key py_str name' args' kwargs' <->
                 name = name'
                 /\ py_str <$> args = py_str <$> args'
                 /\ py_str <$> kwargs = py_str <$> kwargs').
  { split.
    - intros H.
      assert (Hparts : key_parts py_str name args kwargs
                       = key_parts py_str name' args' kwargs')
        by (apply concat_colon_inj; auto; discriminate).
      rewrite !key_parts_forms in Hparts. injection Hparts as -> Hparts.
      apply (app_split_by (fun s => char_free "=" s = true)) in Hparts
        as [Hargs Hkw].
      + split; [reflexivity |]. split; [exact Hargs |].
        apply sorted_items_inj. apply kv_join_inj in Hkw; [exact Hkw | |].
        * apply (sorted_items_keys (fun k => char_free "=" k = true)).
          intros k s Hs. rewrite lookup_fmap in Hs.
          destruct (kwargs !! k) as [v |] eqn:Ev; [| discriminate].
          exact (K k v Ev).
        * apply (sorted_items_keys (fun k => char_free "=" k = true)).
          intros k s Hs. rewrite lookup_fmap in Hs.
          destruct (kwargs' !! k) as [v |] eqn:Ev; [| discriminate].
          exact (K' k v Ev).
      + apply Forall_fmap. exact E.
      + apply Forall_fmap. exact E'.
      + apply Forall_fmap, Forall_forall. intros kv _. apply kv_join_not_free.
      + apply Forall_fmap, Forall_forall. intros kv _. apply kv_join_not_free.
    - intros (-> & Hargs & Hkw). unfold cache_key.
      rewrite !key_parts_forms, Hargs, Hkw. reflexivity. }
  split; [exact Hiff |].
  intros Hinj H. apply Hiff in H as (-> & Hargs & Hkw).
  split; [reflexivity |]. split.
  - clear -Hinj Hargs. revert args' Hargs.
    induction args as [| a l IH]; intros [| b l'] H; try discriminate;
      [reflexivity |].
    cbn in H. injection H as Hab H. f_equal; [apply Hinj, Hab | apply IH, H].
  - assert (Hi : Inj eq eq py_str) by (intros a b; apply Hinj).
    exact (map_fmap_inj py_str Hi _ _ Hkw).
Qed.
End CacheKey.

Lemma cache_key_separated_witness :
  cache_key (fun s : string => s) "search" ["Austin"%string; "TX"%string] ∅
  <> cache_key (fun s : string => s) "search" ["Austin"%string]
       {[ "state"%string := "TX"%string ]}.
Proof.
  intros H.
  destruct (cache_key_separated (fun s : string => s) "search" "search"
              ["Austin"%string; "TX"%string] ["Austin"%string]
              ∅ {[ "state"%string := "TX"%string ]}) as [Hiff _].
  - vm_compute. repeat constructor.
  - vm_compute. repeat constructor.
  - repeat constructor.
  - repeat constructor.
  - apply map_Forall_empty.
  - apply map_Forall_singleton. reflexivity.
  - apply Hiff in H as (_ & Hargs & _). discriminate Hargs.
Defined.

(** ** Aggregation under partial failure (C4) *)

Lemma filter_true_id {A} (l : list A) : filter (fun _ => true = true) l = l.
Proof.
  induction l as [| x l IH]; [reflexivity |].
  rewrite filter_cons_True by reflexivity. f_equal. exact IH.
Qed.

(** C4: whatever subset of the adapters fails, [fetch_properties] returns
    the records of the adapters that succeeded, concatenated in the order
    of completion and passed through the property-type filter; an adapter
    that raised contributes no record and the result does not depend on
    it otherwise. *)
Theorem fetch_properties_partial_failure (self : aggregator)
    (zillow_first : bool) (location : string)
    (property_types : option (list string))
    (min_price max_price : option Z) (max_results : Z) :
  let zillow :=
    records_of (zillow_scraper self location min_price max_price max_results) in
  let loopnet :=
    records_of (loopnet_scraper self location min_price max_price max_results) in
  let keep := fun p => retained property_types p = true in
  let result :=
    fetch_properties self zillow_first location property_types
      min_price max_price max_results in
  result = filter keep (if zillow_first then zillow ++ loopnet else loopnet ++ zillow)
  /\ result ≡ₚ filter keep (zillow ++ loopnet)
  /\ (zillow = [] -> result = filter keep loopnet)
  /\ (loopnet = [] -> result = filter keep zillow).
Proof.
  intros zillow loopnet keep result.
  assert (H : result
              = filter keep (if zillow_first then zillow ++ loopnet
                             else loopnet ++ zillow)).
  { subst result zillow loopnet keep.
    unfold fetch_properties, _fetch_from_zillow, _fetch_from_loopnet, retained.
    cbv zeta.
    destruct (zillow_scraper self location min_price max_price max_results)
      as [zs | ez];
      destruct (loopnet_scraper self location min_price max_price max_results)
        as [ls | el];
      destruct zillow_first; cbn [records_of reverse foldl collect snd app rev_append];
      unfold reverse; cbn [rev_append foldl collect snd app];
      rewrite ?app_nil_r;
      destruct property_types as [[| pt pts] |];
      rewrite ?filter_true_id; reflexivity. }
  split; [exact H |].
  split.
  - rewrite H. destruct zillow_first; [reflexivity |].
    apply filter_Permutation, Permutation_app_comm.
  - split; intros E; rewrite H, E; destruct zillow_first;
      rewrite ?app_nil_r; reflexivity.
Qed.

Lemma fetch_properties_partial_failure_witness :
  fetch_properties
    (mkAggregator (fun _ _ _ _ => Raise ValueError)
                  (fun _ _ _ _ => Ok [example_property]))
    true "Austin" None None None 20
  = [example_property].
Proof.
  destruct (fetch_properties_partial_failure
              (mkAggregator (fun _ _ _ _ => Raise ValueError)
                            (fun _ _ _ _ => Ok [example_property]))
              true "Austin" None None None 20) as (_ & _ & H & _).
  apply H. reflexivity.
Defined.

(** ** Range filters and missing data (C2) *)

Lemma bind_Ok_inv {A B} (r : result A) (f : A -> result B) (b : B) :
  r ≫= f = Ok b -> exists a, r = Ok a /\ f a = Ok b.
Proof. destruct r as [a | e]; [eauto | discriminate]. Qed.

Lemma filterM_Ok_inv {A} (cond : A -> result bool) (ps out : list A) :
  filterM cond ps = Ok out ->
  forall p, p ∈ out -> p ∈ ps /\ cond p = Ok true.
Proof.
  revert out. induction ps as [| x ps IH]; intros out H p Hp.
  - injection H as <-. inversion Hp.
  - cbn [filterM] in H.
    apply bind_Ok_inv in H as (b & Hb & H).
    apply bind_Ok_inv in H as (rest & Hrest & H).
    injection H as <-.
    destruct b.
    + apply elem_of_cons in Hp as [-> | Hp].
      * split; [left | exact Hb].
      * destruct (IH rest Hrest p Hp). split; [right |]; assumption.
    + destruct (IH rest Hrest p Hp). split; [right |]; assumption.
Qed.

(** A stage guarded by [is not None]: it only removes records, and when
    its key is supplied each record left satisfies its condition. *)
Lemma if_not_none_stage (filters : gmap string pyval) (k : string)
    (cond : pyval -> Property -> result bool) (l l' : list Property) :
  if_not_none filters k (fun v => filterM (cond v)) l = Ok l' ->
  (forall p, p ∈ l' -> p ∈ l)
  /\ (forall v, filters !! k = Some v -> v <> VNone ->
      forall p, p ∈ l' -> cond v p = Ok true).
Proof.
  unfold if_not_none. intros H.
  destruct (filters !! k) as [v |] eqn:Ek;
    [| injection H as <-; split; [auto | intros; discriminate]].
  assert (Hv : v = VNone \/ filterM (cond v) l = Ok l').
  { destruct v; auto. }
  destruct Hv as [-> | Hf].
  - injection H as <-. split; [auto |]. intros v' [= <-] Hv. congruence.
  - split.
    + intros p Hp. eapply filterM_Ok_inv; eauto.
    + intros v' [= <-] _ p Hp. eapply filterM_Ok_inv; eauto.
Qed.

Lemma if_truthy_stage (filters : gmap string pyval) (k : string)
    (cond : pyval -> Property -> result bool) (l l' : list Property) :
  if_truthy filters k (fun v => filterM (cond v)) l = Ok l' ->
  forall p, p ∈ l' -> p ∈ l.
Proof.
  unfold if_truthy. intros H p Hp.
  destruct (filters !! k) as [v |]; [| injection H as <-; exact Hp].
  destruct (truthy v); [| injection H as <-; exact Hp].
  eapply filterM_Ok_inv; eauto.
Qed.

Lemma if_truthy_lowered_stage (filters : gmap string pyval) (k : string)
    (cond : pyval -> list string -> Property -> result bool)
    (l l' : list Property) :
  if_truthy filters k
    (fun v ps => lowered ← lower_all v; filterM (cond v lowered) ps) l = Ok l' ->
  forall p, p ∈ l' -> p ∈ l.
Proof.
  unfold if_truthy. intros H p Hp.
  destruct (filters !! k) as [v |]; [| injection H as <-; exact Hp].
  destruct (truthy v); [| injection H as <-; exact Hp].
  apply bind_Ok_inv in H as (lowered & _ & H).
  eapply filterM_Ok_inv; eauto.
Qed.

Lemma field_cmp_true (cmp : pyval -> pyval -> result bool)
    (field : option pyval) (bound : pyval) :
  field_cmp cmp field bound = Ok true ->
  exists x, field = Some x /\ truthy x = true /\ cmp x bound = Ok true.
Proof.
  unfold field_cmp. destruct field as [x |]; [| discriminate].
  destruct (truthy x) eqn:T; [| discriminate]. eauto.
Qed.

Lemma dict_truthy_nonempty (d : gmap string pyval) :
  dict_truthy d = true -> d <> ∅.
Proof.
  unfold dict_truthy. intros H ->. rewrite map_size_empty in H. discriminate.
Qed.

Lemma metrics_cmp_true cmp p k dflt bound :
  metrics_cmp cmp p k dflt bound = Ok true -> financial_metrics p <> ∅.
Proof.
  unfold metrics_cmp. destruct (dict_truthy (financial_metrics p)) eqn:T;
    [| discriminate].
  intros _. apply dict_truthy_nonempty, T.
Qed.

Lemma py_or_true (a b : result bool) :
  py_or a b = Ok true -> a = Ok true \/ b = Ok true.
Proof.
  unfold py_or. destruct a as [[|] | e]; cbn; auto; discriminate.
Qed.

(** The stages of [filter_properties], unfolded: the lists between them. *)
Lemma filter_properties_stages ps filters out :
  filter_properties ps filters = Ok out ->
  forall p, p ∈ out ->
    p ∈ ps
    /\ (forall v, filters !! "min_price"%string = Some v -> v <> VNone ->
          field_cmp py_ge (num (price p)) v = Ok true)
    /\ (forall v, filters !! "max_price"%string = Some v -> v <> VNone ->
          field_cmp py_le (num (price p)) v = Ok true)
    /\ (forall v, filters !! "min_bedrooms"%string = Some v -> v <> VNone ->
          field_cmp py_ge (num (bedrooms p)) v = Ok true)
    /\ (forall v, filters !! "max_bedrooms"%string = Some v -> v <> VNone ->
          field_cmp py_le (num (bedrooms p)) v = Ok true)
    /\ (forall v, filters !! "min_rental_yield"%string = Some v -> v <> VNone ->
          field_cmp py_ge (num (rental_yield p)) v = Ok true)
    /\ (forall v, filters !! "max_rental_yield"%string = Some v -> v <> VNone ->
          field_cmp py_le (num (rental_yield p)) v = Ok true)
    /\ (forall v, filters !! "min_cap_rate"%string = Some v -> v <> VNone ->
          py_or (field_cmp py_ge (num (cap_rate p)) v)
                (metrics_cmp py_ge p "cap_rate" (VInt 0) v) = Ok true)
    /\ (forall v, filters !! "max_cap_rate"%string = Some v -> v <> VNone ->
          py_or (field_cmp py_le (num (cap_rate p)) v)
                (metrics_cmp py_le p "cap_rate" (VInt 0) v) = Ok true)
    /\ (forall v, filters !! "min_square_feet"%string = Some v -> v <> VNone ->
          field_cmp py_ge (num (square_feet p)) v = Ok true)
    /\ (forall v, filters !! "max_square_feet"%string = Some v -> v <> VNone ->
          field_cmp py_le (num (square_feet p)) v = Ok true)
    /\ (forall v, filters !! "min_year_built"%string = Some v -> v <> VNone ->
          field_cmp py_ge (int (year_built p)) v = Ok true)
    /\ (forall v, filters !! "max_year_built"%string = Some v -> v <> VNone ->
          field_cmp py_le (int (year_built p)) v = Ok true)
    /\ (forall v, filters !! "min_cash_flow"%string = Some v -> v <> VNone ->
          metrics_cmp py_ge p "monthly_cash_flow" (VInt 0) v = Ok true).
Proof.
  intros H p Hp. unfold filter_properties in H. cbv zeta in H.
  apply bind_Ok_inv in H as (l1 & E1 & H).
  apply bind_Ok_inv in H as (l2 & E2 & H).
  apply bind_Ok_inv in H as (l3 & E3 & H).
  apply bind_Ok_inv in H as (l4 & E4 & H).
  apply bind_Ok_inv in H as (l5 & E5 & H).
  apply bind_Ok_inv in H as (l6 & E6 & H).
  apply bind_Ok_inv in H as (l7 & E7 & H).
  apply bind_Ok_inv in H as (l8 & E8 & H).
  apply bind_Ok_inv in H as (l9 & E9 & H).
  apply bind_Ok_inv in H as (l10 & E10 & H).
  apply bind_Ok_inv in H as (l11 & E11 & H).
  apply bind_Ok_inv in H as (l12 & E12 & H).
  apply bind_Ok_inv in H as (l13 & E13 & H).
  apply bind_Ok_inv in H as (l14 & E14 & H).
  apply bind_Ok_inv in H as (l15 & E15 & H).
  apply bind_Ok_inv in H as (l16 & E16 & H).
  apply bind_Ok_inv in H as (l17 & E17 & H).
  injection H as <-.
  pose proof (if_truthy_stage _ _ _ _ _ E1) as S1.
  pose proof (if_truthy_lowered_stage _ _
                (fun _ lowered p => Ok (type_matches lowered p)) _ _ E2) as S2.
  destruct (if_not_none_stage _ _ _ _ _ E3) as [S3 C3].
  destruct (if_not_none_stage _ _ _ _ _ E4) as [S4 C4].
  destruct (if_not_none_stage _ _ _ _ _ E5) as [S5 C5].
  destruct (if_not_none_stage _ _ _ _ _ E6) as [S6 C6].
  destruct (if_not_none_stage _ _ _ _ _ E7) as [S7 C7].
  destruct (if_not_none_stage _ _ _ _ _ E8) as [S8 C8].
  destruct (if_not_none_stage _ _ _ _ _ E9) as [S9 C9].
  destruct (if_not_none_stage _ _ _ _ _ E10) as [S10 C10].
  destruct (if_not_none_stage _ _ _ _ _ E11) as [S11 C11].
  destruct (if_not_none_stage _ _ _ _ _ E12) as [S12 C12].
  destruct (if_not_none_stage _ _ _ _ _ E13) as [S13 C13].
  destruct (if_not_none_stage _ _ _ _ _ E14) as [S14 C14].
  destruct (if_not_none_stage _ _ _ _ _ E15) as [S15 C15].
  pose proof (if_truthy_lowered_stage _ _ _ _ _ E16) as S16.
  pose proof (if_truthy_lowered_stage _ _ _ _ _ E17) as S17.
  assert (H16 : p ∈ l16) by auto.
  assert (H15 : p ∈ l15) by auto.
  assert (H14 : p ∈ l14) by auto.
  assert (H13 : p ∈ l13) by auto.
  assert (H12 : p ∈ l12) by auto.
  assert (H11 : p ∈ l11) by auto.
  assert (H10 : p ∈ l10) by auto.
  assert (H9 : p ∈ l9) by auto.
  assert (H8 : p ∈ l8) by auto.
  assert (H7 : p ∈ l7) by auto.
  assert (H6 : p ∈ l6) by auto.
  assert (H5 : p ∈ l5) by auto.
  assert (H4 : p ∈ l4) by auto.
  assert (H3 : p ∈ l3) by auto.
  assert (H2 : p ∈ l2) by auto.
  assert (H1 : p ∈ l1) by auto.
  split; [auto |].
  repeat split; eauto.
Qed.

(** C2: the listing of price 300000 without rent, as enrichment hands it
    to the filter (carrying the partial metrics, which hold no cap rate
    and no cash flow), has no cap rate of its own either; all the same it
    passes a maximum cap rate of 10 and a minimum cash flow of -100, the
    missing entry being read as 0.  The check on a field of the record
    itself excludes it (maximum rental yield), and so does the cap-rate
    check before the metrics are attached. *)
Theorem missing_figure_passes_filter :
  let bare := listing (Some 300000) None None None ∅ in
  let p := App.calculate_for_property bare in
  cap_rate p = None
  /\ rental_yield p = None
  /\ financial_metrics p !! "cap_rate"%string = None
  /\ financial_metrics p !! "monthly_cash_flow"%string = None
  /\ financial_metrics p !! "error"%string = Some (VStr MSG_RENT)
  /\ filter_properties [p] {[ "max_cap_rate"%string := VFloat 10 ]} = Ok [p]
  /\ filter_properties [p] {[ "min_cash_flow"%string := VInt (-100) ]} = Ok [p]
  /\ filter_properties [p] {[ "max_rental_yield"%string := VFloat 10 ]} = Ok []
  /\ filter_properties [bare] {[ "max_cap_rate"%string := VFloat 10 ]} = Ok [].
Proof.
  intros bare p.
  assert (Hp : exists M,
             p = set_financial_metrics
                   (<["monthly_mortgage_payment"%string := VFloat M]>
                      (<["loan_amount"%string
                         := VFloat (300000 - 300000 * (2 # 10))]>
                         (<["down_payment"%string
                            := VFloat (300000 * (2 # 10))]>
                            (<["error"%string := VStr MSG_RENT]> ∅))))
                   bare).
  { subst p. unfold App.calculate_for_property.
    rewrite (calculate_metrics_no_rent bare (2 # 10) None 30 300000)
      by reflexivity.
    rewrite mortgage_payment_returns by (reflexivity || discriminate).
    eexists. reflexivity. }
  destruct Hp as [M Hp]. clearbody p. subst p bare.
  repeat split; vm_compute; reflexivity.
Qed.

Lemma metrics_cmp_true_cmp cmp p k dflt bound :
  metrics_cmp cmp p k dflt bound = Ok true ->
  financial_metrics p <> ∅
  /\ cmp (default dflt (financial_metrics p !! k)) bound = Ok true.
Proof.
  unfold metrics_cmp. destruct (dict_truthy (financial_metrics p)) eqn:T;
    [| discriminate].
  intros H. split; [apply dict_truthy_nonempty, T | exact H].
Qed.

(** What the range checks establish.  Every record that
    [filter_properties] lets through has, for each supplied range check
    on a field of the record itself (price, bedrooms, rental yield, square
    feet, year built), that field present, non-zero and within the bound.
    For a supplied cap-rate bound the record has a non-zero cap rate of
    its own within the bound, or a non-empty [financial_metrics] whose
    cap-rate entry, read as 0 when it is missing, is within the bound;
    for a supplied minimum cash flow it has a non-empty
    [financial_metrics] whose cash-flow entry, read as 0 when it is
    missing, reaches the bound. *)
Lemma range_filters_exclude_missing (ps : list Property)
    (filters : gmap string pyval) (out : list Property) :
  filter_properties ps filters = Ok out ->
  forall p, p ∈ out ->
    (forall k cmp field v,
        (k, cmp, field) ∈ range_dimensions ->
        filters !! k = Some v -> v <> VNone ->
        exists x, field p = Some x /\ truthy x = true /\ cmp x v = Ok true)
    /\ (forall k cmp v,
          (k, cmp) = ("min_cap_rate"%string, py_ge)
          \/ (k, cmp) = ("max_cap_rate"%string, py_le) ->
          filters !! k = Some v -> v <> VNone ->
          (exists x, cap_rate p = Some x /\ ~ x == 0
                     /\ cmp (VFloat x) v = Ok true)
          \/ (financial_metrics p <> ∅
              /\ cmp (default (VInt 0)
                        (financial_metrics p !! "cap_rate"%string)) v
                 = Ok true))
    /\ (forall v,
          filters !! "min_cash_flow"%string = Some v -> v <> VNone ->
          financial_metrics p <> ∅
          /\ py_ge (default (VInt 0)
                      (financial_metrics p !! "monthly_cash_flow"%string)) v
             = Ok true).
Proof.
  intros H p Hp.
  destruct (filter_properties_stages ps filters out H p Hp)
    as (_ & P1 & P2 & B1 & B2 & Y1 & Y2 & C1 & C2 & S1 & S2 & T1 & T2 & F).
  split; [| split].
  - intros k cmp field v Hk Hv Hn. unfold range_dimensions in Hk.
    repeat (apply elem_of_cons in Hk as [Hk | Hk];
            [injection Hk as -> -> ->; apply field_cmp_true; auto |]).
    inversion Hk.
  - assert (Hcap : forall cmp v,
              py_or (field_cmp cmp (num (cap_rate p)) v)
                    (metrics_cmp cmp p "cap_rate" (VInt 0) v) = Ok true ->
              (exists x, cap_rate p = Some x /\ ~ x == 0
                         /\ cmp (VFloat x) v = Ok true)
              \/ (financial_metrics p <> ∅
                  /\ cmp (default (VInt 0)
                            (financial_metrics p !! "cap_rate"%string)) v
                     = Ok true)).
    { intros cmp v Hor. apply py_or_true in Hor as [Hf | Hm].
      - left. apply field_cmp_true in Hf as (x & Hx & Tx & Hc).
        unfold num in Hx. destruct (cap_rate p) as [q |]; [| discriminate].
        injection Hx as <-. exists q. split; [reflexivity |].
        split; [apply q_truthy_iff, Tx | exact Hc].
      - right. apply metrics_cmp_true_cmp, Hm. }
    intros k cmp v [[= -> ->] | [= -> ->]] Hv Hn; apply Hcap; auto.
  - intros v Hv Hn. apply metrics_cmp_true_cmp, F; auto.
Qed.

Lemma range_filters_exclude_missing_witness :
  exists x, num (price example_property) = Some x
            /\ truthy x = true
            /\ py_ge x (VInt 250000) = Ok true.
Proof.
  assert (Hf : filter_properties
                 [listing None (Some 2000) None None ∅; example_property;
                  listing (Some 0) (Some 2000) None None ∅]
                 {[ "min_price"%string := VInt 250000 ]}
               = Ok [example_property]) by (vm_compute; reflexivity).
  destruct (range_filters_exclude_missing _ _ _ Hf example_property
              (list_elem_of_here _ _)) as [H _].
  apply (H "min_price"%string py_ge (fun p => num (price p)) (VInt 250000));
    [apply list_elem_of_here | reflexivity | discriminate].
Defined.

(** * Further properties *)

(** ** Sorting *)

Lemma insert_sorted_Permutation {A} (lt : A -> A -> result bool) (x : A)
    (s r : list A) :
  insert_sorted lt x s = Ok r -> r ≡ₚ x :: s.
Proof.
  revert r. induction s as [| y s IH]; intros r H.
  - injection H as <-. reflexivity.
  - cbn [insert_sorted] in H. apply bind_Ok_inv in H as (b & _ & H).
    destruct b.
    + apply bind_Ok_inv in H as (r' & Hr' & H). injection H as <-.
      rewrite (IH r' Hr'). apply Permutation_swap.
    + injection H as <-. reflexivity.
Qed.

Lemma stable_sort_Permutation {A} (lt : A -> A -> result bool) (l r : list A) :
  stable_sort lt l = Ok r -> r ≡ₚ l.
Proof.
  revert r. induction l as [| x l IH]; intros r H.
  - injection H as <-. reflexivity.
  - cbn [stable_sort] in H. apply bind_Ok_inv in H as (s & Hs & H).
    rewrite (insert_sorted_Permutation _ _ _ _ H), (IH s Hs). reflexivity.
Qed.

Lemma py_sorted_Permutation {A} (key : A -> sort_key) (reverse : bool)
    (l r : list A) :
  py_sorted key reverse l = Ok r -> r ≡ₚ l.
Proof.
  unfold py_sorted. destruct reverse; intros H.
  - destruct (stable_sort _ (rev l)) as [s |] eqn:Hs; [| discriminate].
    injection H as <-. apply stable_sort_Permutation in Hs.
    rewrite <- (Permutation_rev s), Hs, <- (Permutation_rev l). reflexivity.
  - apply stable_sort_Permutation in H. exact H.
Qed.

Section NumericSort.
Context {A : Type}.
Variable key : A -> sort_key.

Let lt := fun a b : A => key_lt (key a) (key b).
Let numeric := fun a : A => is_Some (key_num (key a)).
Let le := fun a b : A => key_le (key a) (key b).

Lemma xleb_trans (x y z : xnum) :
  xleb x y = true -> xleb y z = true -> xleb x z = true.
Proof.
  destruct x as [| x |], y as [| y |], z as [| z |]; cbn; auto; try discriminate.
  rewrite !Qle_bool_iff. apply Qle_trans.
Qed.

Lemma xleb_total (x y : xnum) : xleb x y = false -> xleb y x = true.
Proof.
  destruct x as [| x |], y as [| y |]; cbn; auto; try discriminate.
  intros H. apply Qle_bool_iff. apply not_true_iff_false in H.
  rewrite Qle_bool_iff in H. apply Qlt_le_weak, Qnot_le_lt, H.
Qed.

Lemma key_lt_numeric (a b : sort_key) (x y : xnum) :
  key_num a = Some x -> key_num b = Some y ->
  key_lt a b = Ok (negb (xleb y x)).
Proof.
  destruct a as [| u], b as [| v]; cbn [key_num key_lt].
  - intros [= <-] [= <-]. reflexivity.
  - unfold is_num. destruct (as_num v) as [[q |] |]; intros [= <-] [= <-];
      reflexivity.
  - unfold is_num. destruct (as_num u) as [[q |] |]; intros [= <-] [= <-];
      reflexivity.
  - unfold py_le. destruct (as_num u) as [[p |] |], (as_num v) as [[q |] |];
      intros [= <-] [= <-]; reflexivity.
Qed.

Lemma le_trans_keys (a b c : A) : le a b -> le b c -> le a c.
Proof.
  unfold le, key_le.
  destruct (key_num (key a)), (key_num (key b)), (key_num (key c));
    try tauto. apply xleb_trans.
Qed.

Lemma insert_sorted_numeric (x : A) (s : list A) :
  numeric x -> Forall numeric s -> StronglySorted le s ->
  exists r, insert_sorted lt x s = Ok r /\ StronglySorted le r
            /\ Forall numeric r /\ r ≡ₚ x :: s.
Proof.
  intros [kx Hx] Hs Hsorted.
  induction s as [| y s IH].
  - exists [x]. cbn. repeat split; auto.
    + repeat constructor.
    + repeat constructor. exists kx. exact Hx.
  - apply Forall_cons in Hs as [[ky Hy] Hs].
    apply StronglySorted_inv in Hsorted as [Hsorted Hall].
    cbn [insert_sorted]. change (lt y x) with (key_lt (key y) (key x)).
    rewrite (key_lt_numeric _ _ ky kx Hy Hx), bind_Ok.
    destruct (xleb kx ky) eqn:Hle; cbn [negb].
    + exists (x :: y :: s). split; [reflexivity |].
      assert (Hxy : le x y) by (unfold le, key_le; rewrite Hx, Hy; exact Hle).
      split; [| split; [| reflexivity]].
      * constructor; [constructor; assumption |].
        constructor; [exact Hxy |].
        eapply Forall_impl; [exact Hall |].
        intros z Hz. eapply le_trans_keys; eauto.
      * repeat constructor; [exists kx | exists ky |]; assumption.
    + destruct (IH Hs Hsorted) as (r & Hr & Sr & Nr & Pr).
      rewrite Hr, bind_Ok. exists (y :: r). split; [reflexivity |].
      assert (Hyx : le y x).
      { unfold le, key_le. rewrite Hx, Hy. apply xleb_total, Hle. }
      split; [| split].
      * constructor; [exact Sr |].
        rewrite Pr. constructor; assumption.
      * constructor; [exists ky |]; assumption.
      * rewrite Pr. apply Permutation_swap.
Qed.

Lemma stable_sort_numeric (l : list A) :
  Forall numeric l ->
  exists r, stable_sort lt l = Ok r /\ StronglySorted le r
            /\ Forall numeric r /\ r ≡ₚ l.
Proof.
  induction l as [| x l IH]; intros Hl.
  - exists []. repeat split; auto; constructor.
  - apply Forall_cons in Hl as [Hx Hl].
    destruct (IH Hl) as (s & Hs & Ss & Ns & Ps).
    destruct (insert_sorted_numeric x s Hx Ns Ss) as (r & Hr & Sr & Nr & Pr).
    exists r. cbn [stable_sort]. rewrite Hs, bind_Ok.
    repeat split; auto. rewrite Pr, Ps. reflexivity.
Qed.

Lemma StronglySorted_rev_flip (R : relation A) (l : list A) :
  StronglySorted R l -> StronglySorted (flip R) (rev l).
Proof.
  induction 1 as [| x l Hl IH Hx]; [constructor |].
  cbn [rev]. apply StronglySorted_app_2.
  - intros a b Ha Hb. apply list_elem_of_singleton in Hb as ->.
    rewrite Forall_forall in Hx. apply Hx.
    apply list_elem_of_In, in_rev, list_elem_of_In, Ha.
  - exact IH.
  - repeat constructor.
Qed.

(** On numeric keys [sorted] returns, and its outcome is ordered by the
    keys: ascending, or descending for a reverse sort. *)
Lemma py_sorted_numeric (reverse : bool) (l : list A) :
  Forall numeric l ->
  exists r, py_sorted key reverse l = Ok r
            /\ r ≡ₚ l
            /\ StronglySorted (if reverse then flip le else le) r.
Proof.
  intros Hl. unfold py_sorted. fold lt. destruct reverse.
  - assert (Hrev : Forall numeric (rev l)).
    { rewrite Forall_forall in *. intros a Ha. apply Hl.
      apply list_elem_of_In. apply in_rev. apply list_elem_of_In. exact Ha. }
    destruct (stable_sort_numeric (rev l) Hrev) as (s & Hs & Ss & _ & Ps).
    rewrite Hs. exists (rev s). split; [reflexivity |].
    split.
    + rewrite <- (Permutation_rev s), Ps, <- (Permutation_rev l). reflexivity.
    + apply StronglySorted_rev_flip, Ss.
  - destruct (stable_sort_numeric l Hl) as (s & Hs & Ss & _ & Ps).
    exists s. auto.
Qed.
End NumericSort.

Lemma py_sorted_nil {A} (key : A -> sort_key) (reverse : bool) :
  py_sorted key reverse [] = Ok [].
Proof. destruct reverse; reflexivity. Qed.

(** [sort_properties] is [sorted] on the key and in the direction its
    table gives. *)
Lemma sort_properties_sorted (ps : list Property) (sort_by : string)
    (reverse : bool) :
  sort_properties ps sort_by reverse
  = py_sorted (key_of sort_by) (descending sort_by reverse) ps.
Proof.
  unfold sort_properties, key_of, descending.
  destruct ps as [| p ps]; [symmetry; apply py_sorted_nil |].
  destruct (lookup_key sort_by sort_keys) as [f |] eqn:Hk; cbn [default];
    destruct (String.eqb_spec sort_by "price_asc") as [-> | _];
    try discriminate; try reflexivity;
    destruct (String.eqb_spec sort_by "risk_score") as [-> | _];
    try discriminate; reflexivity.
Qed.

(** X1: whatever the sort key and the flag, a sort that returns gives back
    exactly the records it was given: none added, none dropped, none
    repeated. *)
Theorem sort_properties_permutation (ps out : list Property)
    (sort_by : string) (reverse : bool) :
  sort_properties ps sort_by reverse = Ok out -> out ≡ₚ ps.
Proof.
  rewrite sort_properties_sorted. apply py_sorted_Permutation.
Qed.

Lemma sort_properties_permutation_witness :
  [example_property; listing_without_rent]
  ≡ₚ [listing_without_rent; example_property].
Proof.
  apply (sort_properties_permutation
           [listing_without_rent; example_property]
           [example_property; listing_without_rent] "rental_yield" true).
  vm_compute. reflexivity.
Defined.

Lemma sort_properties_numeric (ps : list Property) (sort_by : string)
    (reverse : bool) :
  Forall (fun p => is_Some (key_num (key_of sort_by p))) ps ->
  let le := fun p q => key_le (key_of sort_by p) (key_of sort_by q) in
  exists out,
    sort_properties ps sort_by reverse = Ok out
    /\ out ≡ₚ ps
    /\ StronglySorted (if descending sort_by reverse then flip le else le) out.
Proof.
  intros Hnum le. rewrite sort_properties_sorted.
  apply (py_sorted_numeric (key_of sort_by)), Hnum.
Qed.

(** X2: when the keys of all records are numbers, the sort returns the
    records ordered by key, ascending or descending as the table says for
    the sort key and the flag; records with equal keys aside, any earlier
    record has a key at most (at least) that of any later one. *)
Theorem sort_properties_ordered (ps : list Property) (sort_by : string)
    (reverse : bool) :
  Forall (fun p => is_Some (key_num (key_of sort_by p))) ps ->
  let le := fun p q => key_le (key_of sort_by p) (key_of sort_by q) in
  exists out,
    sort_properties ps sort_by reverse = Ok out
    /\ out ≡ₚ ps
    /\ StronglySorted (if descending sort_by reverse then flip le else le) out.
Proof. exact (sort_properties_numeric ps sort_by reverse). Qed.

Lemma sort_properties_ordered_witness :
  exists out,
    sort_properties [listing_without_rent; example_property] "cash_flow" true
      = Ok out
    /\ out ≡ₚ [listing_without_rent; example_property].
Proof.
  destruct (sort_properties_ordered [listing_without_rent; example_property]
              "cash_flow" true) as (out & H1 & H2 & _).
  - repeat constructor; vm_compute; eauto.
  - exists out. split; assumption.
Defined.

Lemma or_default_num (q : option Q) (dflt : sort_key) :
  is_Some (key_num dflt) -> is_Some (key_num (or_default (num q) dflt)).
Proof. destruct q; cbn; eauto. Qed.

Lemma or_default_int (z : option Z) (dflt : sort_key) :
  is_Some (key_num dflt) -> is_Some (key_num (or_default (int z) dflt)).
Proof. destruct z; cbn; eauto. Qed.

(** The keys read off the record itself are numbers. *)
Lemma field_key_numeric (sort_by : string) (p : Property) :
  sort_by <> "cash_flow"%string -> sort_by <> "cash_on_cash"%string ->
  sort_by <> "risk_score"%string ->
  is_Some (key_num (key_of sort_by p)).
Proof.
  intros H1 H2 H3. unfold key_of, sort_keys. cbn [lookup_key].
  repeat match goal with
  | |- context [String.eqb sort_by ?k] =>
      destruct (String.eqb_spec sort_by k) as [-> | _]
  end; try congruence; cbn [default];
    first [apply or_default_num | apply or_default_int]; cbn; eauto.
Qed.

(** X3: sorting by a key read off the record itself (price, price_asc,
    rental_yield, cap_rate, price_to_rent, square_feet, bedrooms,
    bathrooms, year_built) or by a name that is not in the table never
    raises, whatever fields the records lack, and returns the records
    ordered by that key in the direction of the table. *)
Theorem sort_by_field_returns (ps : list Property) (sort_by : string)
    (reverse : bool) :
  sort_by <> "cash_flow"%string -> sort_by <> "cash_on_cash"%string ->
  sort_by <> "risk_score"%string ->
  let le := fun p q => key_le (key_of sort_by p) (key_of sort_by q) in
  exists out,
    sort_properties ps sort_by reverse = Ok out
    /\ out ≡ₚ ps
    /\ StronglySorted (if descending sort_by reverse then flip le else le) out.
Proof.
  intros H1 H2 H3. apply sort_properties_numeric.
  apply Forall_forall. intros p _. apply field_key_numeric; assumption.
Qed.

Lemma sort_by_field_returns_witness :
  exists out,
    sort_properties [listing_without_rent; example_property] "no_such_key" true
      = Ok out
    /\ out ≡ₚ [listing_without_rent; example_property].
Proof.
  destruct (sort_by_field_returns [listing_without_rent; example_property]
              "no_such_key" true) as (out & H1 & H2 & _);
    [discriminate | discriminate | discriminate |].
  exists out. split; assumption.
Defined.

(** ** Normalisation of a property *)

Lemma q_truthy_mul12 (m : Q) : q_truthy m = true -> q_truthy (m * 12) = true.
Proof. rewrite !q_truthy_iff. intros H H0. apply H. lra. Qed.

Lemma q_truthy_div12 (a : Q) : q_truthy a = true -> q_truthy (a / 12) = true.
Proof.
  rewrite !q_truthy_iff. intros H H0. apply H.
  setoid_replace a with (a / 12 * 12) using relation Qeq by field.
  rewrite H0. reflexivity.
Qed.

Lemma price_positive_nonzero (p : Property) (x : Q) :
  price_positive p = Some x -> ~ x == 0.
Proof. intros H. apply price_positive_Some in H as [_ H]. lra. Qed.

Lemma post_init_yield_returns (p : Property) :
  exists y, post_init_yield p = Ok (set_rental_yield y p).
Proof.
  unfold post_init_yield.
  destruct (annual_rent p) as [a |] eqn:Ea;
    [| exists (rental_yield p); destruct p; reflexivity].
  destruct (price_positive p) as [x |] eqn:Ex;
    [| exists (rental_yield p); destruct p; reflexivity].
  destruct (q_truthy a); [| exists (rental_yield p); destruct p; reflexivity].
  rewrite (py_div_Ok a x) by (eapply price_positive_nonzero; eauto).
  eexists. reflexivity.
Qed.

Lemma post_init_ratio_returns (p : Property) :
  exists r, post_init_ratio p = Ok (set_price_to_rent_ratio r p).
Proof.
  unfold post_init_ratio.
  destruct (annual_rent p) as [a |] eqn:Ea;
    [| exists (price_to_rent_ratio p); destruct p; reflexivity].
  destruct (price p) as [x |] eqn:Ex;
    [| exists (price_to_rent_ratio p); destruct p; reflexivity].
  destruct (q_truthy a && q_truthy x && Qlt_bool 0 a) eqn:E;
    [| exists (price_to_rent_ratio p); destruct p; reflexivity].
  apply andb_true_iff in E as [E _]. apply andb_true_iff in E as [E _].
  rewrite (py_div_Ok x a) by (apply q_truthy_iff, E).
  eexists. reflexivity.
Qed.

(** X4: constructing a property never raises: every division of
    [__post_init__] is behind a test that its divisor is not zero. *)
Theorem post_init_returns (p : Property) : exists p', post_init p = Ok p'.
Proof.
  unfold post_init.
  destruct (post_init_yield_returns p) as [y ->]. rewrite bind_Ok.
  destruct (post_init_ratio_returns (set_rental_yield y p)) as [r ->].
  rewrite bind_Ok.
  set (p2 := set_price_to_rent_ratio r (set_rental_yield y p)).
  assert (H3 : exists p3, post_init_annual p2 = Ok p3).
  { unfold post_init_annual.
    destruct (monthly_rent p2) as [m |]; [| eauto].
    destruct (q_truthy m && negb (rent_truthy (annual_rent p2))) eqn:E; [| eauto].
    apply andb_true_iff in E as [Em _].
    destruct (price_positive (set_annual_rent (Some (m * 12)) p2)) as [x |] eqn:Ex;
      [| eauto].
    rewrite (py_div_Ok (m * 12) x) by (eapply price_positive_nonzero; eauto).
    rewrite bind_Ok.
    rewrite (py_div_Ok x (m * 12)) by (apply q_truthy_iff, q_truthy_mul12, Em).
    rewrite bind_Ok. eauto. }
  destruct H3 as [p3 ->]. rewrite bind_Ok.
  unfold post_init_monthly.
  destruct (annual_rent p3) as [a |]; [| eauto].
  destruct (q_truthy a && negb (rent_truthy (monthly_rent p3))); eauto.
Qed.

Lemma post_init_yield_derive (p : Property) :
  post_init_yield p = Ok (derive_yield p).
Proof.
  unfold post_init_yield, derive_yield.
  destruct (annual_rent p) as [a |]; [| reflexivity].
  destruct (price_positive p) as [x |] eqn:Ex; [| reflexivity].
  destruct (q_truthy a); [| reflexivity].
  rewrite (py_div_Ok a x) by (eapply price_positive_nonzero; eauto).
  reflexivity.
Qed.

Lemma post_init_ratio_derive (p : Property) :
  post_init_ratio p = Ok (derive_ratio p).
Proof.
  unfold post_init_ratio, derive_ratio.
  destruct (annual_rent p) as [a |]; [| reflexivity].
  destruct (price p) as [x |]; [| reflexivity].
  destruct (q_truthy a && q_truthy x && Qlt_bool 0 a) eqn:E; [| reflexivity].
  apply andb_true_iff in E as [E _]. apply andb_true_iff in E as [E _].
  rewrite (py_div_Ok x a) by (apply q_truthy_iff, E). reflexivity.
Qed.

Lemma post_init_annual_derive (p : Property) :
  post_init_annual p = Ok (derive_annual p).
Proof.
  unfold post_init_annual, derive_annual.
  destruct (monthly_rent p) as [m |]; [| reflexivity].
  destruct (q_truthy m && negb (rent_truthy (annual_rent p))) eqn:E;
    [| reflexivity].
  apply andb_true_iff in E as [Em _]. cbv zeta.
  destruct (price_positive (set_annual_rent (Some (m * 12)) p)) as [x |] eqn:Ex;
    [| reflexivity].
  rewrite (py_div_Ok (m * 12) x) by (eapply price_positive_nonzero; eauto).
  rewrite bind_Ok.
  rewrite (py_div_Ok x (m * 12)) by (apply q_truthy_iff, q_truthy_mul12, Em).
  reflexivity.
Qed.

Lemma post_init_monthly_derive (p : Property) :
  post_init_monthly p = Ok (derive_monthly p).
Proof.
  unfold post_init_monthly, derive_monthly.
  destruct (annual_rent p) as [a |]; [| reflexivity].
  destruct (q_truthy a && negb (rent_truthy (monthly_rent p))); reflexivity.
Qed.

(** Construction gives the record that the four derivations lead to in
    turn. *)
Lemma post_init_normalises (p : Property) : post_init p = Ok (normalised p).
Proof.
  unfold post_init, normalised.
  rewrite post_init_yield_derive, bind_Ok.
  rewrite post_init_ratio_derive, bind_Ok.
  rewrite post_init_annual_derive, bind_Ok.
  apply post_init_monthly_derive.
Qed.

Lemma derive_yield_fields (p : Property) :
  price (derive_yield p) = price p
  /\ monthly_rent (derive_yield p) = monthly_rent p
  /\ annual_rent (derive_yield p) = annual_rent p.
Proof. unfold derive_yield. repeat case_match; auto. Qed.

Lemma derive_ratio_fields (p : Property) :
  price (derive_ratio p) = price p
  /\ monthly_rent (derive_ratio p) = monthly_rent p
  /\ annual_rent (derive_ratio p) = annual_rent p.
Proof. unfold derive_ratio. repeat case_match; auto. Qed.

Lemma derive_annual_fields (p : Property) :
  price (derive_annual p) = price p
  /\ monthly_rent (derive_annual p) = monthly_rent p
  /\ annual_rent (derive_annual p)
     = match monthly_rent p with
       | Some m =>
           if q_truthy m && negb (rent_truthy (annual_rent p))
           then Some (m * 12) else annual_rent p
       | None => annual_rent p
       end.
Proof. unfold derive_annual. repeat case_match; auto. Qed.

Lemma derive_monthly_fields (p : Property) :
  price (derive_monthly p) = price p
  /\ annual_rent (derive_monthly p) = annual_rent p
  /\ monthly_rent (derive_monthly p)
     = match annual_rent p with
       | Some a =>
           if q_truthy a && negb (rent_truthy (monthly_rent p))
           then Some (a / 12) else monthly_rent p
       | None => monthly_rent p
       end.
Proof. unfold derive_monthly. repeat case_match; auto. Qed.

(** The price and the rent fields of a normalised record. *)
Lemma normalised_fields (p : Property) :
  price (normalised p) = price p
  /\ annual_rent (normalised p)
     = match monthly_rent p with
       | Some m =>
           if q_truthy m && negb (rent_truthy (annual_rent p))
           then Some (m * 12) else annual_rent p
       | None => annual_rent p
       end
  /\ monthly_rent (normalised p)
     = match annual_rent (normalised p) with
       | Some a =>
           if q_truthy a && negb (rent_truthy (monthly_rent p))
           then Some (a / 12) else monthly_rent p
       | None => monthly_rent p
       end.
Proof.
  unfold normalised.
  destruct (derive_yield_fields p) as (P1 & M1 & A1).
  destruct (derive_ratio_fields (derive_yield p)) as (P2 & M2 & A2).
  destruct (derive_annual_fields (derive_ratio (derive_yield p))) as (P3 & M3 & A3).
  destruct (derive_monthly_fields
              (derive_annual (derive_ratio (derive_yield p)))) as (P4 & A4 & M4).
  rewrite P4, P3, P2, P1, M4, A4, M3, A3, M2, A2, M1, A1. auto.
Qed.

(** X5: construction leaves the price alone and makes the rent fields
    agree when exactly one of them was supplied (present and non-zero):
    the annual rent becomes twelve times the monthly one, or the monthly
    rent a twelfth of the annual one.  With both or neither supplied the
    rent fields stay as they are. *)
Theorem post_init_rents (p p' : Property) :
  post_init p = Ok p' ->
  price p' = price p
  /\ (forall m, monthly_rent p = Some m -> ~ m == 0 ->
        rent_truthy (annual_rent p) = false ->
        monthly_rent p' = Some m /\ annual_rent p' = Some (m * 12))
  /\ (forall a, annual_rent p = Some a -> ~ a == 0 ->
        rent_truthy (monthly_rent p) = false ->
        annual_rent p' = Some a /\ monthly_rent p' = Some (a / 12))
  /\ (rent_truthy (monthly_rent p) = rent_truthy (annual_rent p) ->
        monthly_rent p' = monthly_rent p /\ annual_rent p' = annual_rent p).
Proof.
  intros H. rewrite post_init_normalises in H. injection H as <-.
  destruct (normalised_fields p) as (HP & HA & HM).
  split; [exact HP |]. rewrite HM, HA. clear HP HA HM.
  split; [| split].
  - intros m Hm Hm0 Ha. apply q_truthy_iff in Hm0.
    rewrite Hm, Ha, Hm0. cbn [andb negb rent_truthy]. rewrite Hm0.
    rewrite ?andb_false_r. done.
  - intros a Ha Ha0 Hm. apply q_truthy_iff in Ha0.
    rewrite Ha.
    destruct (monthly_rent p) as [m |]; cbn [rent_truthy] in *;
      rewrite ?Hm, ?Ha0; cbn [andb negb]; rewrite ?Ha0; cbn [andb negb];
      done.
  - intros Heq.
    destruct (monthly_rent p) as [m |], (annual_rent p) as [a |];
      cbn [rent_truthy] in *; rewrite <- ?Heq;
      repeat (case_match; simplify_eq); try done;
      repeat match goal with
      | H : _ && _ = true |- _ => apply andb_true_iff in H as [? ?]
      | H : negb _ = true |- _ => apply negb_true_iff in H
      end; congruence.
Qed.

Lemma post_init_rents_witness :
  monthly_rent example_property = Some 2000
  /\ annual_rent example_property = Some (2000 * 12).
Proof.
  destruct (post_init_rents example_fields example_property post_init_example)
    as (_ & H & _).
  apply (H 2000); [reflexivity | lra | reflexivity].
Defined.


Lemma q_truthy_mul12_eq (m : Q) : q_truthy (m * 12) = q_truthy m.
Proof.
  destruct (q_truthy m) eqn:E; [apply q_truthy_mul12, E |].
  apply not_true_is_false. intros H. apply not_true_iff_false in E.
  apply E. apply q_truthy_iff. apply q_truthy_iff in H. intros H0.
  apply H. rewrite H0. reflexivity.
Qed.

Lemma q_truthy_div12_eq (a : Q) : q_truthy (a / 12) = q_truthy a.
Proof.
  destruct (q_truthy a) eqn:E; [apply q_truthy_div12, E |].
  apply not_true_is_false. intros H. apply not_true_iff_false in E.
  apply E. apply q_truthy_iff. apply q_truthy_iff in H. intros H0.
  apply H. rewrite H0. reflexivity.
Qed.

Lemma truthy_nonneg_positive (x : Q) :
  0 <= x -> q_truthy x = true -> Qlt_bool 0 x = true.
Proof.
  intros Hx Ht. apply q_truthy_iff in Ht. apply Qlt_bool_iff.
  apply Qle_lteq in Hx as [Hx | Hx]; [exact Hx |].
  exfalso. apply Ht. symmetry. exact Hx.
Qed.

Lemma set_rental_yield_same (p : Property) (v : option Q) :
  rental_yield p = v -> set_rental_yield v p = p.
Proof. intros <-. destruct p; reflexivity. Qed.

Lemma set_price_to_rent_ratio_same (p : Property) (v : option Q) :
  price_to_rent_ratio p = v -> set_price_to_rent_ratio v p = p.
Proof. intros <-. destruct p; reflexivity. Qed.

Lemma derive_yield_skips (p : Property) :
  rent_truthy (annual_rent p) = false -> derive_yield p = p.
Proof.
  unfold derive_yield, rent_truthy.
  destruct (annual_rent p), (price_positive p); try reflexivity.
  intros ->. reflexivity.
Qed.

Lemma derive_ratio_skips (p : Property) :
  rent_truthy (annual_rent p) = false -> derive_ratio p = p.
Proof.
  unfold derive_ratio, rent_truthy.
  destruct (annual_rent p), (price p); try reflexivity.
  intros ->. reflexivity.
Qed.

Lemma derive_annual_skips (p : Property) :
  rent_truthy (monthly_rent p) = false \/ rent_truthy (annual_rent p) = true ->
  derive_annual p = p.
Proof.
  unfold derive_annual. destruct (monthly_rent p) as [m |]; [| reflexivity].
  cbn [rent_truthy]. intros [-> | ->]; [reflexivity |].
  rewrite andb_false_r. reflexivity.
Qed.

Lemma derive_monthly_skips (p : Property) :
  rent_truthy (annual_rent p) = false \/ rent_truthy (monthly_rent p) = true ->
  derive_monthly p = p.
Proof.
  unfold derive_monthly. destruct (annual_rent p) as [a |]; [| reflexivity].
  cbn [rent_truthy]. intros [-> | ->]; [reflexivity |].
  rewrite andb_false_r. reflexivity.
Qed.

Lemma derive_annual_fires (p : Property) (m : Q) :
  monthly_rent p = Some m -> q_truthy m = true ->
  rent_truthy (annual_rent p) = false ->
  derive_annual p
  = match price_positive p with
    | Some x =>
        set_price_to_rent_ratio (Some (x / (m * 12)))
          (set_rental_yield (Some (m * 12 / x * 100))
             (set_annual_rent (Some (m * 12)) p))
    | None => set_annual_rent (Some (m * 12)) p
    end.
Proof.
  intros Hm Tm Ta. unfold derive_annual. rewrite Hm, Tm, Ta. reflexivity.
Qed.

Lemma derive_monthly_fires (p : Property) (a : Q) :
  annual_rent p = Some a -> q_truthy a = true ->
  rent_truthy (monthly_rent p) = false ->
  derive_monthly p = set_monthly_rent (Some (a / 12)) p.
Proof.
  intros Ha Ta Tm. unfold derive_monthly. rewrite Ha, Ta, Tm. reflexivity.
Qed.

(** A consistent record is left as it is by the four derivations. *)
Lemma consistent_fixed (q : Property) : consistent q -> normalised q = q.
Proof.
  intros (I3 & I1 & I2). unfold normalised.
  assert (Hy : derive_yield q = q).
  { unfold derive_yield.
    destruct (annual_rent q) as [a |] eqn:Ea; [| reflexivity].
    destruct (price_positive q) as [x |] eqn:Ex; [| reflexivity].
    destruct (q_truthy a) eqn:Ta; [| reflexivity].
    apply set_rental_yield_same. apply I1; auto. }
  rewrite Hy.
  assert (Hr : derive_ratio q = q).
  { unfold derive_ratio.
    destruct (annual_rent q) as [a |] eqn:Ea; [| reflexivity].
    destruct (price q) as [x |] eqn:Ex; [| reflexivity].
    destruct (q_truthy a && q_truthy x && Qlt_bool 0 a) eqn:Hc; [| reflexivity].
    apply set_price_to_rent_ratio_same. apply I2; auto. }
  rewrite Hr.
  rewrite derive_annual_skips, derive_monthly_skips; [reflexivity | |];
    rewrite <- I3; destruct (rent_truthy (monthly_rent q)); auto.
Qed.

(** Normalisation gives a consistent record when the price is not
    negative. *)
Lemma normalised_consistent (p : Property) :
  (forall x, price p = Some x -> 0 <= x) -> consistent (normalised p).
Proof.
  intros Hpos. unfold normalised.
  destruct (rent_truthy (annual_rent p)) eqn:Ta.
  - (* the annual rent is usable *)
    set (p1 := derive_yield p). set (p2 := derive_ratio p1).
    destruct (derive_yield_fields p) as (P1 & M1 & A1). fold p1 in P1, M1, A1.
    destruct (derive_ratio_fields p1) as (P2 & M2 & A2). fold p2 in P2, M2, A2.
    rewrite P1 in P2. rewrite M1 in M2. rewrite A1 in A2.
    assert (Hpp2 : price_positive p2 = price_positive p)
      by (unfold price_positive; rewrite P2; reflexivity).
    rewrite (derive_annual_skips p2) by (right; rewrite A2; exact Ta).
    destruct (annual_rent p) as [a |] eqn:Ea; [| discriminate].
    cbn [rent_truthy] in Ta.
    assert (Y2 : forall x, price_positive p = Some x ->
                   rental_yield p2 = Some (a / x * 100)).
    { intros x Hx.
      assert (Hy : rental_yield p2 = rental_yield p1)
        by (unfold p2, derive_ratio; repeat case_match; reflexivity).
      rewrite Hy. unfold p1, derive_yield. rewrite Ea, Hx, Ta. reflexivity. }
    assert (R2 : forall x, price p = Some x ->
                   q_truthy a && q_truthy x && Qlt_bool 0 a = true ->
                   price_to_rent_ratio p2 = Some (x / a)).
    { intros x Hx Hc. unfold p2, derive_ratio.
      rewrite A1, P1, Hx, Hc. reflexivity. }
    destruct (rent_truthy (monthly_rent p)) eqn:Tm.
    + rewrite derive_monthly_skips by (right; rewrite M2; exact Tm).
      split; [rewrite M2, A2, Tm; cbn [rent_truthy]; congruence |].
      rewrite A2, P2, Hpp2.
      split; intros a' x [= <-]; auto.
    + rewrite (derive_monthly_fires p2 a)
        by (rewrite ?A2, ?M2; auto).
      unfold consistent, price_positive.
      cbn [monthly_rent annual_rent price rental_yield price_to_rent_ratio
             set_monthly_rent rent_truthy].
      fold (price_positive p2). rewrite A2, P2, Hpp2, q_truthy_div12_eq.
      split; [cbn [rent_truthy]; reflexivity |].
      split; intros a' x [= <-]; auto.
  - (* the annual rent is not usable *)
    rewrite (derive_yield_skips p), (derive_ratio_skips p) by exact Ta.
    assert (I1 : forall a x, annual_rent p = Some a -> q_truthy a = true ->
                   price_positive p = Some x ->
                   rental_yield p = Some (a / x * 100)).
    { intros a x Ha Hta _. rewrite Ha in Ta. cbn in Ta. congruence. }
    assert (I2 : forall a x, annual_rent p = Some a -> price p = Some x ->
                   q_truthy a && q_truthy x && Qlt_bool 0 a = true ->
                   price_to_rent_ratio p = Some (x / a)).
    { intros a x Ha _ Hc. rewrite Ha in Ta. cbn in Ta. rewrite Ta in Hc.
      discriminate. }
    destruct (rent_truthy (monthly_rent p)) eqn:Tm.
    + (* the monthly rent gives the annual one *)
      destruct (monthly_rent p) as [m |] eqn:Em; [| discriminate].
      cbn [rent_truthy] in Tm.
      rewrite (derive_annual_fires p m) by auto.
      destruct (price_positive p) as [x |] eqn:Ex.
      * rewrite derive_monthly_skips
          by (right; cbn [monthly_rent set_price_to_rent_ratio set_rental_yield
                            set_annual_rent]; rewrite Em; exact Tm).
        unfold consistent, price_positive.
        cbn [monthly_rent annual_rent price rental_yield price_to_rent_ratio
               set_price_to_rent_ratio set_rental_yield set_annual_rent].
        fold (price_positive p). rewrite Em, Ex. cbn [rent_truthy].
        rewrite q_truthy_mul12_eq, Tm. split; [reflexivity |].
        apply price_positive_Some in Ex as [Ex _]. rewrite Ex.
        split; intros a' x' [= <-]; [intros _ [= <-] | intros [= <-] _];
          reflexivity.
      * rewrite derive_monthly_skips
          by (right; cbn [monthly_rent set_annual_rent]; rewrite Em; exact Tm).
        unfold consistent, price_positive.
        cbn [monthly_rent annual_rent price rental_yield price_to_rent_ratio
               set_annual_rent].
        fold (price_positive p). rewrite Em, Ex. cbn [rent_truthy].
        rewrite q_truthy_mul12_eq, Tm. split; [reflexivity |].
        split; intros a' x' [= <-]; [discriminate |].
        intros Hx' Hc. exfalso.
        apply andb_true_iff in Hc as [Hc _].
        apply andb_true_iff in Hc as [_ Hc].
        pose proof (truthy_nonneg_positive x' (Hpos x' Hx') Hc) as Hlt.
        unfold price_positive in Ex. rewrite Hx', Hc, Hlt in Ex.
        discriminate.
    + rewrite derive_annual_skips by (left; exact Tm).
      rewrite derive_monthly_skips by (left; exact Ta).
      split; [congruence | split; assumption].
Qed.

Lemma normalised_idempotent (p : Property) :
  (forall x, price p = Some x -> 0 <= x) ->
  normalised (normalised p) = normalised p.
Proof. intros Hpos. apply consistent_fixed, normalised_consistent, Hpos. Qed.

(** X6: constructing a record again from the fields of a constructed one
    changes nothing, provided the price is not negative: the derived
    fields are already the ones the constructor computes. *)
Theorem post_init_idempotent (p p' : Property) :
  (forall x, price p = Some x -> 0 <= x) ->
  post_init p = Ok p' -> post_init p' = Ok p'.
Proof.
  intros Hpos H. rewrite post_init_normalises in H. injection H as <-.
  rewrite post_init_normalises. f_equal.
  apply normalised_idempotent, Hpos.
Qed.

Lemma post_init_idempotent_witness :
  post_init example_property = Ok example_property.
Proof.
  apply (post_init_idempotent example_fields example_property).
  - intros x [= <-]. lra.
  - reflexivity.
Defined.

(** The price hypothesis is needed: for a negative price with only a
    monthly rent, the first construction leaves the price-to-rent ratio
    unset and a second one fills it in. *)
Lemma post_init_negative_price :
  exists p', post_init (listing (Some (-100)) (Some 10) None None ∅) = Ok p'
             /\ price_to_rent_ratio p' = None
             /\ exists p'', post_init p' = Ok p''
                            /\ price_to_rent_ratio p'' = Some (-100 / (10 * 12)).
Proof.
  eexists. split; [reflexivity |]. split; [reflexivity |].
  eexists. split; reflexivity.
Qed.

(** X7: for a positive price and a usable rent (monthly or annual, present
    and non-zero), the constructed record has both rents non-zero, its
    rental yield is the annual rent over the price in percent, and, when
    the annual rent is positive, its price-to-rent ratio is the price over
    the annual rent. *)
Theorem post_init_derived_metrics (p p' : Property) (x : Q) :
  post_init p = Ok p' -> price p = Some x -> 0 < x ->
  rent_truthy (monthly_rent p) || rent_truthy (annual_rent p) = true ->
  exists m a,
    monthly_rent p' = Some m /\ annual_rent p' = Some a
    /\ ~ m == 0 /\ ~ a == 0
    /\ rental_yield p' = Some (a / x * 100)
    /\ (0 < a -> price_to_rent_ratio p' = Some (x / a)).
Proof.
  intros H Hx Hx0 Hrent. rewrite post_init_normalises in H. injection H as <-.
  assert (Hpos : forall y, price p = Some y -> 0 <= y)
    by (intros y Hy; rewrite Hx in Hy; injection Hy as <-; lra).
  destruct (normalised_consistent p Hpos) as (I3 & I1 & I2).
  destruct (normalised_fields p) as (HP & HA & _).
  assert (Ta : rent_truthy (annual_rent (normalised p)) = true).
  { rewrite HA.
    destruct (monthly_rent p) as [m |], (annual_rent p) as [a |];
      cbn [rent_truthy orb] in *.
    - destruct (q_truthy m) eqn:Tm, (q_truthy a) eqn:Ta;
        cbn [andb orb negb rent_truthy] in *;
        rewrite ?q_truthy_mul12_eq; congruence.
    - rewrite orb_false_r in Hrent. rewrite Hrent. cbn [andb negb rent_truthy].
      rewrite q_truthy_mul12_eq. exact Hrent.
    - exact Hrent.
    - discriminate. }
  assert (Tm : rent_truthy (monthly_rent (normalised p)) = true) by congruence.
  destruct (monthly_rent (normalised p)) as [m |]; [| discriminate].
  destruct (annual_rent (normalised p)) as [a |]; [| discriminate].
  cbn [rent_truthy] in Ta, Tm.
  assert (Hpp : price_positive (normalised p) = Some x)
    by (apply price_positive_Some; rewrite HP; auto).
  exists m, a. repeat split.
  - apply q_truthy_iff, Tm.
  - apply q_truthy_iff, Ta.
  - apply I1; auto.
  - intros Ha0. apply I2; [reflexivity | rewrite HP; exact Hx |].
    rewrite Ta. cbn [andb].
    apply andb_true_iff. split; [apply q_truthy_iff; lra | apply Qlt_bool_iff, Ha0].
Qed.

Lemma post_init_derived_metrics_witness :
  exists m a,
    monthly_rent example_property = Some m
    /\ annual_rent example_property = Some a
    /\ rental_yield example_property = Some (a / 300000 * 100).
Proof.
  destruct (post_init_derived_metrics example_fields example_property 300000)
    as (m & a & Hm & Ha & _ & _ & Hy & _);
    [reflexivity | reflexivity | lra | reflexivity |].
  exists m, a. auto.
Defined.

(** ** Outcomes of [calculate_metrics] *)

Lemma effective_annual_rent_Some (p : Property) :
  rent_truthy (monthly_rent p) || rent_truthy (annual_rent p) = true ->
  exists a, effective_annual_rent p = Some a.
Proof.
  intros H. destruct (effective_annual_rent p) as [a |] eqn:E; [eauto |].
  apply effective_annual_rent_None in E as [Hm Ha].
  rewrite Hm, Ha in H. discriminate.
Qed.

Lemma calculate_metrics_total (p : Property) (dp : Q)
    (ir : option Q) (n : Z) :
  (0 < n)%Z -> 0 <= default DEFAULT_MORTGAGE_INTEREST_RATE ir -> ~ dp == 0 ->
  exists d,
    calculate_metrics p dp ir n = Ok d
    /\ (is_Some (d !! "error"%string) <->
        price_positive p = None
        \/ (rent_truthy (monthly_rent p) = false
            /\ rent_truthy (annual_rent p) = false)).
Proof.
  intros Hn Hr Hdp.
  destruct (price_positive p) as [x |] eqn:Hx.
  - destruct (effective_annual_rent p) as [a |] eqn:Ha.
    + destruct (calculate_metrics_full p dp ir n x a
                  (amortization_formula (x - x * dp)
                     (default DEFAULT_MORTGAGE_INTEREST_RATE ir) n))
        as (d & Hd & Herr & _); auto.
      * apply mortgage_payment_returns; assumption.
      * apply price_positive_Some in Hx as [_ Hx]. intros H0.
        apply Hdp. apply Qmult_integral in H0 as [H0 | H0]; [lra | exact H0].
      * exists d. split; [exact Hd |]. rewrite Herr.
        split; [intros [? ?]; discriminate |].
        intros [? | H]; [discriminate |].
        apply effective_annual_rent_None in H. congruence.
    + rewrite (calculate_metrics_no_rent p dp ir n x Hx Ha).
      rewrite mortgage_payment_returns by assumption.
      eexists. split; [reflexivity |].
      split; [| intros _; eexists; reflexivity].
      intros _. right. apply effective_annual_rent_None, Ha.
  - exists {[ "error"%string := VStr MSG_PRICE ]}.
    unfold calculate_metrics. rewrite Hx.
    split; [reflexivity |].
    split; [auto | intros _; eexists; reflexivity].
Qed.

(** X8: with a positive term, a rate that is not negative and a down
    payment share other than zero, the computation never raises, whatever
    the record holds; the result carries an error entry exactly when the
    price is not a positive number or no rent is usable. *)
Theorem calculate_metrics_never_raises (p : Property) (dp : Q)
    (ir : option Q) (n : Z) :
  (0 < n)%Z -> 0 <= default DEFAULT_MORTGAGE_INTEREST_RATE ir -> ~ dp == 0 ->
  exists d,
    calculate_metrics p dp ir n = Ok d
    /\ (is_Some (d !! "error"%string) <->
        price_positive p = None
        \/ (rent_truthy (monthly_rent p) = false
            /\ rent_truthy (annual_rent p) = false)).
Proof. exact (calculate_metrics_total p dp ir n). Qed.

Lemma calculate_metrics_never_raises_witness :
  exists d, calculate_metrics listing_without_rent (25 # 100) None 15 = Ok d.
Proof.
  destruct (calculate_metrics_never_raises listing_without_rent (25 # 100)
              None 15) as (d & Hd & _);
    [reflexivity | discriminate | discriminate |].
  exists d. exact Hd.
Defined.

(** X9: with a usable price and rent, a down payment share of zero makes
    the computation raise [ZeroDivisionError] (the cash-on-cash return
    divides by the down payment), although the mortgage itself is
    defined. *)
Theorem zero_down_payment_raises (p : Property) (dp : Q) (ir : option Q)
    (n : Z) (x : Q) :
  price p = Some x -> 0 < x ->
  rent_truthy (monthly_rent p) || rent_truthy (annual_rent p) = true ->
  (0 < n)%Z -> 0 <= default DEFAULT_MORTGAGE_INTEREST_RATE ir ->
  dp == 0 ->
  calculate_metrics p dp ir n = Raise ZeroDivisionError.
Proof.
  intros Hx Hx0 Hrent Hn Hr Hdp.
  assert (Hpp : price_positive p = Some x) by (apply price_positive_Some; auto).
  destruct (effective_annual_rent_Some p Hrent) as [a Ha].
  pose proof (effective_annual_rent_nonzero p a Ha) as Ha0.
  remember (calculate_metrics p dp ir n) as r eqn:E.
  unfold calculate_metrics in E. rewrite Hpp, Ha in E. cbv zeta in E.
  rewrite rent_used_Ok, bind_Ok in E.
  rewrite mortgage_payment_returns, bind_Ok in E by assumption.
  div_step E; [| lra].
  div_step E; [| lra].
  rewrite (py_div_zero _ (x * dp)), bind_Raise in E by (rewrite Hdp; ring).
  exact E.
Qed.

Lemma zero_down_payment_raises_witness :
  calculate_metrics example_property 0 None 30 = Raise ZeroDivisionError.
Proof.
  apply (zero_down_payment_raises example_property 0 None 30 300000);
    [reflexivity | reflexivity | reflexivity | reflexivity | discriminate
    | reflexivity].
Defined.

(** The computation reads the record through its positive price, the
    annual rent in effect and the monthly rent used. *)
Lemma calculate_metrics_ext (p q : Property) (dp : Q) (ir : option Q) (n : Z) :
  price_positive p = price_positive q ->
  effective_annual_rent p = effective_annual_rent q ->
  (forall a, effective_annual_rent q = Some a -> rent_used p a = rent_used q a) ->
  calculate_metrics p dp ir n = calculate_metrics q dp ir n.
Proof.
  intros Hp Ha Hm. unfold calculate_metrics. rewrite Hp, Ha.
  destruct (price_positive q) as [x |]; [| reflexivity].
  destruct (effective_annual_rent q) as [a |]; [| reflexivity].
  cbv zeta. rewrite !rent_used_Ok, (Hm a eq_refl). reflexivity.
Qed.

Lemma normalised_reads (p : Property) :
  price_positive (normalised p) = price_positive p
  /\ effective_annual_rent (normalised p) = effective_annual_rent p
  /\ (forall a, effective_annual_rent p = Some a ->
        rent_used (normalised p) a = rent_used p a).
Proof.
  destruct (normalised_fields p) as (HP & HA & HM).
  unfold price_positive, effective_annual_rent, rent_used.
  rewrite HP, HM, HA. clear HP HM HA.
  split; [reflexivity |].
  destruct (monthly_rent p) as [m |], (annual_rent p) as [a |];
    cbn [rent_truthy].
  - destruct (q_truthy m) eqn:Tm, (q_truthy a) eqn:Ta;
      cbn [andb negb rent_truthy default];
      rewrite ?q_truthy_mul12_eq, ?q_truthy_div12_eq, ?Tm, ?Ta;
      cbn [andb negb rent_truthy default];
      rewrite ?q_truthy_mul12_eq, ?q_truthy_div12_eq, ?Tm, ?Ta;
      (split; [reflexivity |]); intros a'; intros [= <-] || discriminate;
      reflexivity.
  - destruct (q_truthy m) eqn:Tm;
      cbn [andb negb rent_truthy default];
      rewrite ?q_truthy_mul12_eq, ?Tm;
      cbn [andb negb rent_truthy default]; rewrite ?Tm;
      (split; [reflexivity |]); intros a'; intros [= <-] || discriminate;
      reflexivity.
  - destruct (q_truthy a) eqn:Ta;
      cbn [andb negb rent_truthy default];
      rewrite ?q_truthy_div12_eq, ?Ta;
      (split; [reflexivity |]); intros a'; intros [= <-] || discriminate;
      reflexivity.
  - split; [reflexivity |]. discriminate.
Qed.

Lemma calculate_metrics_normalised (p : Property) (dp : Q) (ir : option Q)
    (n : Z) :
  calculate_metrics (normalised p) dp ir n = calculate_metrics p dp ir n.
Proof.
  destruct (normalised_reads p) as (HP & HA & HM).
  apply calculate_metrics_ext; [exact HP | exact HA |].
  intros a Ha. apply HM. exact Ha.
Qed.

(** X10: the metrics of a record are those of the record as supplied: the
    rent fields that construction derives are derived in the same way by
    the computation itself, so that constructing the record first changes
    no entry and no exception. *)
Theorem calculate_metrics_after_post_init (p p' : Property) (dp : Q)
    (ir : option Q) (n : Z) :
  post_init p = Ok p' ->
  calculate_metrics p' dp ir n = calculate_metrics p dp ir n.
Proof.
  intros H. rewrite post_init_normalises in H. injection H as <-.
  apply calculate_metrics_normalised.
Qed.

Lemma calculate_metrics_after_post_init_witness :
  calculate_metrics example_property (2 # 10) None 30
  = calculate_metrics example_fields (2 # 10) None 30.
Proof.
  apply (calculate_metrics_after_post_init example_fields example_property).
  reflexivity.
Defined.

(** ** The full dictionary *)

Lemma ratio_or_inf_Ok (num den : Q) :
  (if Qlt_bool 0 den then Fin <$> py_div num den else Ok PInf)
  = Ok (ratio_or_inf num den).
Proof.
  unfold ratio_or_inf. destruct (Qlt_bool 0 den) eqn:G; [| reflexivity].
  apply Qlt_bool_iff in G. rewrite py_div_Ok by lra. reflexivity.
Qed.

(** With rent, a defined mortgage payment [M] and a non-zero down payment
    the result is the full dictionary. *)
Lemma calculate_metrics_full_result p dp ir n x a M :
  price_positive p = Some x ->
  effective_annual_rent p = Some a ->
  _calculate_mortgage_payment (x - x * dp)
    (default DEFAULT_MORTGAGE_INTEREST_RATE ir) n = Ok M ->
  ~ x * dp == 0 ->
  calculate_metrics p dp ir n
  = Ok (full_result x a (rent_used p a) M dp
          (default DEFAULT_MORTGAGE_INTEREST_RATE ir) n).
Proof.
  intros Hx Ha HM Hdp.
  assert (Hx0 : 0 < x) by (apply price_positive_Some in Hx; tauto).
  pose proof (effective_annual_rent_nonzero p a Ha) as Ha0.
  remember (calculate_metrics p dp ir n) as r eqn:Hr.
  unfold calculate_metrics in Hr. rewrite Hx, Ha in Hr. cbv zeta in Hr.
  rewrite rent_used_Ok, bind_Ok, HM, bind_Ok in Hr.
  set (m := rent_used p a) in *.
  div_step Hr; [| lra].
  div_step Hr; [| lra].
  div_step Hr; [| assumption].
  div_step Hr; [| assumption].
  rewrite !ratio_or_inf_Ok, !bind_Ok in Hr.
  replace (Qlt_bool 0 x) with true in Hr by (symmetry; apply Qlt_bool_iff, Hx0).
  cbv iota in Hr.
  rewrite (py_div_Ok m x), !bind_Ok in Hr by lra.
  subst r. reflexivity.
Qed.

(** A returned dictionary without an error entry is the full one. *)
Lemma calculate_metrics_full_inv p dp ir n d :
  calculate_metrics p dp ir n = Ok d ->
  d !! "error"%string = None ->
  exists x a M,
    price_positive p = Some x
    /\ effective_annual_rent p = Some a
    /\ _calculate_mortgage_payment (x - x * dp)
         (default DEFAULT_MORTGAGE_INTEREST_RATE ir) n = Ok M
    /\ ~ x * dp == 0
    /\ d = full_result x a (rent_used p a) M dp
             (default DEFAULT_MORTGAGE_INTEREST_RATE ir) n.
Proof.
  intros Hd Herr.
  destruct (price_positive p) as [x |] eqn:Hx.
  - destruct (effective_annual_rent p) as [a |] eqn:Ha.
    + destruct (calculate_metrics_returns_inv p dp ir n x a d Hx Ha Hd)
        as (M & HM & Hdp).
      exists x, a, M. repeat (split; [assumption || reflexivity |]).
      rewrite (calculate_metrics_full_result p dp ir n x a M) in Hd by assumption.
      injection Hd as <-. reflexivity.
    + rewrite (calculate_metrics_no_rent p dp ir n x Hx Ha) in Hd.
      destruct (_calculate_mortgage_payment _ _ _); [| discriminate].
      injection Hd as <-. discriminate.
  - unfold calculate_metrics in Hd. rewrite Hx in Hd.
    injection Hd as <-. discriminate.
Qed.

(** ** The risk assessment *)

Lemma risk_parts_bounds (c coc : Q) (dscr : pynum) (passed : bool) :
  let r1 := risk_cap_rate c in
  let r2 := risk_cash_on_cash coc in
  let r3 := risk_dscr dscr in
  let r4 := risk_one_percent passed in
  let factors := r1.1 ++ r2.1 ++ r3.1 ++ r4.1 in
  let score := (r1.2 + r2.2 + r3.2 + r4.2)%Z in
  (0 <= score <= 8)%Z
  /\ (Z.of_nat (length factors) <= score)%Z
  /\ (length factors <= 4)%nat
  /\ (factors = [] <-> score = 0%Z).
Proof.
  unfold risk_cap_rate, risk_cash_on_cash, risk_dscr, risk_one_percent.
  repeat case_match; cbn; (repeat split; try lia; try discriminate).
Qed.

Lemma risk_level_of_cases (score : Z) :
  (risk_level_of score = "Low"%string <-> (score <= 1)%Z)
  /\ (risk_level_of score = "Moderate"%string <-> (2 <= score <= 4)%Z)
  /\ (risk_level_of score = "High"%string <-> (5 <= score)%Z).
Proof.
  unfold risk_level_of.
  destruct (Z.leb_spec score 1); [| destruct (Z.leb_spec score 4)];
    (repeat split; try lia; try discriminate; try reflexivity).
Qed.

(** X11: in every full result the risk score lies between 0 and 8 and
    counts at least one point for each listed risk factor, of which there
    are at most four and none exactly when the score is 0; the level is
    Low up to a score of 1, Moderate from 2 to 4 and High from 5. *)
Theorem risk_assessment_bounds (p : Property) (dp : Q) (ir : option Q)
    (n : Z) (d : gmap string pyval) :
  calculate_metrics p dp ir n = Ok d ->
  d !! "error"%string = None ->
  exists score level factors,
    d !! "risk_score"%string = Some (VInt score)
    /\ d !! "risk_level"%string = Some (VStr level)
    /\ d !! "risk_factors"%string = Some (VList factors)
    /\ (0 <= score <= 8)%Z
    /\ (Z.of_nat (length factors) <= score)%Z
    /\ (length factors <= 4)%nat
    /\ (factors = [] <-> score = 0%Z)
    /\ (level = "Low"%string <-> (score <= 1)%Z)
    /\ (level = "Moderate"%string <-> (2 <= score <= 4)%Z)
    /\ (level = "High"%string <-> (5 <= score)%Z).
Proof.
  intros Hd Herr.
  destruct (calculate_metrics_full_inv p dp ir n d Hd Herr)
    as (x & a & M & _ & _ & _ & _ & ->).
  do 3 eexists.
  split; [reflexivity |]. split; [reflexivity |]. split; [reflexivity |].
  match goal with
  | |- context [risk_cap_rate ?c] =>
      match goal with
      | |- context [risk_cash_on_cash ?coc] =>
          match goal with
          | |- context [risk_dscr ?r] =>
              match goal with
              | |- context [risk_one_percent ?b] =>
                  pose proof (risk_parts_bounds c coc r b) as (B1 & B2 & B3 & B4)
              end
          end
      end
  end.
  match goal with
  | |- context [risk_level_of ?s] =>
      pose proof (risk_level_of_cases s) as (HL & HM & HH)
  end.
  split; [exact B1 |]. split; [exact B2 |]. split; [exact B3 |].
  split; [exact B4 |]. split; [exact HL |]. split; [exact HM | exact HH].
Qed.

Lemma example_metrics :
  calculate_metrics example_property (2 # 10) None 30
  = Ok (full_result 300000 (2000 * 12) 2000
          (amortization_formula (300000 - 300000 * (2 # 10))
             DEFAULT_MORTGAGE_INTEREST_RATE 30)
          (2 # 10) DEFAULT_MORTGAGE_INTEREST_RATE 30).
Proof.
  apply (calculate_metrics_full_result example_property (2 # 10) None 30
           300000 (2000 * 12));
    [reflexivity | reflexivity | | discriminate].
  apply mortgage_payment_returns; [reflexivity | discriminate].
Qed.

Lemma risk_assessment_bounds_witness :
  exists score,
    full_result 300000 (2000 * 12) 2000
      (amortization_formula (300000 - 300000 * (2 # 10))
         DEFAULT_MORTGAGE_INTEREST_RATE 30)
      (2 # 10) DEFAULT_MORTGAGE_INTEREST_RATE 30 !! "risk_score"%string
    = Some (VInt score)
    /\ (0 <= score <= 8)%Z.
Proof.
  destruct (risk_assessment_bounds example_property (2 # 10) None 30 _
              example_metrics eq_refl)
    as (score & _ & _ & Hs & _ & _ & Hb & _).
  exists score. split; assumption.
Defined.

(** The entries of the full dictionary that the results below read. *)
Lemma full_result_lookups (x a m M dp ir : Q) (n : Z) :
  let d := full_result x a m M dp ir n in
  let E := total_expenses x m in
  d !! "error"%string = None
  /\ d !! "property_price"%string = Some (VFloat x)
  /\ d !! "down_payment"%string = Some (VFloat (x * dp))
  /\ d !! "loan_amount"%string = Some (VFloat (x - x * dp))
  /\ d !! "monthly_rent"%string = Some (VFloat m)
  /\ d !! "monthly_mortgage_payment"%string = Some (VFloat M)
  /\ d !! "annual_mortgage_payment"%string = Some (VFloat (M * 12))
  /\ d !! "total_monthly_expenses"%string = Some (VFloat E)
  /\ d !! "total_annual_expenses"%string = Some (VFloat (E * 12))
  /\ d !! "monthly_noi"%string = Some (VFloat (m - E))
  /\ d !! "annual_noi"%string = Some (VFloat ((m - E) * 12))
  /\ d !! "monthly_cash_flow"%string = Some (VFloat (m - M - E))
  /\ d !! "annual_cash_flow"%string = Some (VFloat ((m - M - E) * 12))
  /\ d !! "debt_service_coverage_ratio"%string
     = Some (of_num (ratio_or_inf ((m - E) * 12) (M * 12)))
  /\ d !! "break_even_ratio"%string = Some (of_num (ratio_or_inf (E + M) m))
  /\ d !! "risk_factors"%string
     = Some (VList
               ((risk_cap_rate ((m - E) * 12 / x * 100)).1
                ++ (risk_cash_on_cash ((m - M - E) * 12 / (x * dp) * 100)).1
                ++ (risk_dscr (ratio_or_inf ((m - E) * 12) (M * 12))).1
                ++ (risk_one_percent (Qle_bool 1 (m / x * 100))).1)).
Proof. cbv zeta. repeat split; reflexivity. Qed.




(** ** Bounds on the mortgage payment *)

(** Compound growth over [k] periods at a rate [c] above zero lies
    between simple growth and the bound of its geometric sum. *)
Lemma growth_bounds (c : Q) (k : nat) :
  0 < c ->
  let K := inject_Z (Z.of_nat k) in
  let G := (1 + c) ^ Z.of_nat k in
  1 <= G /\ 1 + K * c <= G /\ G - 1 <= K * c * G.
Proof.
  intros Hc. induction k as [| k IH].
  - cbv zeta. change (Z.of_nat 0) with 0%Z. rewrite Qpower_0_r.
    change (inject_Z 0) with 0. repeat split; lra.
  - cbv zeta in *. destruct IH as (H1 & Ha & Hb).
    rewrite Nat2Z.inj_succ, <- Z.add_1_r.
    rewrite Qpower_plus by lra. rewrite inject_Z_plus, Qpower_1_r.
    set (K := inject_Z (Z.of_nat k)) in *.
    assert (HK : 0 <= K).
    { unfold K. change 0 with (inject_Z 0). rewrite <- Zle_Qle. lia. }
    set (G := (1 + c) ^ Z.of_nat k) in *. clearbody G K.
    change (inject_Z 1) with 1.
    repeat split; nra.
Qed.

Lemma amortization_bounds (L r : Q) (n : Z) :
  (0 < n)%Z -> 0 <= r -> 0 <= L ->
  L <= amortization_formula L r n * inject_Z (n * 12)
  /\ L * (r / 12) <= amortization_formula L r n
  /\ amortization_formula L r n <= L / inject_Z (n * 12) + L * (r / 12).
Proof.
  intros Hn Hr HL. set (N := inject_Z (n * 12)).
  unfold amortization_formula. cbv zeta.
  assert (HN : 1 <= N).
  { unfold N. change 1 with (inject_Z 1). rewrite <- Zle_Qle. lia. }
  fold N.
  destruct (Qeq_bool (r / 12) 0) eqn:Ec.
  - apply Qeq_bool_iff in Ec. rewrite Ec.
    assert (E : L / N * N == L) by (field; lra).
    assert (HS : 0 <= L / N) by (apply Qle_shift_div_l; lra).
    rewrite E. set (S := L / N) in *. clearbody S. repeat split; lra.
  - apply Qeq_bool_neq in Ec.
    assert (Hc : 0 < r / 12).
    { apply Qle_lteq in Hr as [Hr | Hr].
      - apply Qlt_shift_div_l; [reflexivity | lra].
      - exfalso. apply Ec. rewrite <- Hr. reflexivity. }
    set (c := r / 12) in *. clearbody c.
    destruct (growth_bounds c (Z.to_nat (n * 12)) Hc) as (H1 & Ha & Hb).
    rewrite Z2Nat.id in H1, Ha, Hb by lia. fold N in Ha, Hb.
    assert (HG : 1 < (1 + c) ^ (n * 12))
      by (apply Qpower_1_lt; [lra | lia]).
    set (G := (1 + c) ^ (n * 12)) in *. clearbody G.
    assert (HD : 0 < G - 1) by lra.
    assert (HPD : L * (c * G) / (G - 1) * (G - 1) == L * (c * G))
      by (field; lra).
    assert (HLN : L / N * N == L) by (field; lra).
    set (P := L * (c * G) / (G - 1)) in *. clearbody P.
    set (S := L / N) in *. clearbody S.
    repeat split.
    + apply (Qmult_le_r _ _ (G - 1) HD). nra.
    + apply (Qmult_le_r _ _ (G - 1) HD). nra.
    + apply (Qmult_le_r _ _ (G - 1) HD).
      assert (HN0 : 0 < N) by lra.
      apply (Qmult_le_r _ _ N HN0). nra.
Qed.

(** X14: for a positive term, a rate that is not negative and a loan that
    is not negative, the monthly payment is defined; the payments of the
    whole term repay at least the loan, and each payment is at least the
    monthly interest on the full loan and at most that interest plus an
    equal share of the loan. *)
Theorem mortgage_payment_bounds (L r : Q) (n : Z) :
  (0 < n)%Z -> 0 <= r -> 0 <= L ->
  exists P,
    _calculate_mortgage_payment L r n = Ok P
    /\ L <= P * inject_Z (n * 12)
    /\ L * (r / 12) <= P
    /\ P <= L / inject_Z (n * 12) + L * (r / 12).
Proof.
  intros Hn Hr HL. exists (amortization_formula L r n).
  split; [apply mortgage_payment_returns; assumption |].
  apply amortization_bounds; assumption.
Qed.

Lemma mortgage_payment_bounds_witness :
  exists P,
    _calculate_mortgage_payment 240000 DEFAULT_MORTGAGE_INTEREST_RATE 30 = Ok P
    /\ 240000 * (DEFAULT_MORTGAGE_INTEREST_RATE / 12) <= P.
Proof.
  destruct (mortgage_payment_bounds 240000 DEFAULT_MORTGAGE_INTEREST_RATE 30)
    as (P & H1 & _ & H2 & _); [reflexivity | discriminate | discriminate |].
  exists P. split; assumption.
Defined.

(** ** Scenarios *)

Lemma scenario_names :
  scenario_name (20 # 100) = "20%_down_payment"%string
  /\ scenario_name (25 # 100) = "25%_down_payment"%string
  /\ scenario_name (30 # 100) = "30%_down_payment"%string.
Proof. repeat split; vm_compute; reflexivity. Qed.

(** X15: the three down-payment scenarios never raise, whatever the
    record holds: the result has exactly the entries for 20, 25 and 30
    percent, each the metrics for that down payment over thirty years at
    the default rate. *)
Theorem calculate_multiple_scenarios_returns (p : Property) :
  exists scenarios m20 m25 m30,
    calculate_multiple_scenarios p = Ok scenarios
    /\ dom scenarios
       = {[ "20%_down_payment"%string; "25%_down_payment"%string;
            "30%_down_payment"%string ]}
    /\ calculate_metrics p (20 # 100) None 30 = Ok m20
    /\ calculate_metrics p (25 # 100) None 30 = Ok m25
    /\ calculate_metrics p (30 # 100) None 30 = Ok m30
    /\ scenarios !! "20%_down_payment"%string = Some m20
    /\ scenarios !! "25%_down_payment"%string = Some m25
    /\ scenarios !! "30%_down_payment"%string = Some m30.
Proof.
  destruct (calculate_metrics_total p (20 # 100) None 30) as (m20 & H20 & _);
    [reflexivity | discriminate | discriminate |].
  destruct (calculate_metrics_total p (25 # 100) None 30) as (m25 & H25 & _);
    [reflexivity | discriminate | discriminate |].
  destruct (calculate_metrics_total p (30 # 100) None 30) as (m30 & H30 & _);
    [reflexivity | discriminate | discriminate |].
  destruct scenario_names as (N20 & N25 & N30).
  eexists _, m20, m25, m30.
  split.
  { unfold calculate_multiple_scenarios. cbn [foldl].
    rewrite !bind_Ok, H20, !bind_Ok, H25, !bind_Ok, H30, !bind_Ok.
    rewrite N20, N25, N30. reflexivity. }
  split; [rewrite !dom_insert_L, dom_empty_L; set_solver |].
  repeat (split; [assumption || reflexivity |]). reflexivity.
Qed.

(** ** The stress test *)

Lemma rent_used_monthly (p : Property) (r a : Q) :
  monthly_rent p = Some r -> q_truthy r = true -> rent_used p a = r.
Proof.
  intros Hm Hr. unfold rent_used. rewrite Hm. cbn [rent_truthy].
  rewrite Hr. reflexivity.
Qed.

(** The metrics of the stress test: a 20 percent down payment over thirty
    years at a rate [ir] that is not negative. *)
Lemma stress_metrics (p : Property) (x r : Q) (ir : option Q) :
  price p = Some x -> 0 < x ->
  monthly_rent p = Some r -> q_truthy r = true ->
  0 <= default DEFAULT_MORTGAGE_INTEREST_RATE ir ->
  exists a,
    calculate_metrics p (2 # 10) ir 30
    = Ok (full_result x a r
            (payment_at x (default DEFAULT_MORTGAGE_INTEREST_RATE ir))
            (2 # 10) (default DEFAULT_MORTGAGE_INTEREST_RATE ir) 30).
Proof.
  intros Hx Hx0 Hm Hr Hir.
  assert (Hpp : price_positive p = Some x) by (apply price_positive_Some; auto).
  destruct (effective_annual_rent_Some p) as [a Ha].
  { rewrite Hm. cbn [rent_truthy]. rewrite Hr. reflexivity. }
  exists a.
  rewrite (calculate_metrics_full_result p (2 # 10) ir 30 x a
             (payment_at x (default DEFAULT_MORTGAGE_INTEREST_RATE ir)));
    auto.
  - rewrite (rent_used_monthly p r a Hm Hr). reflexivity.
  - apply mortgage_payment_returns; [reflexivity | assumption].
  - lra.
Qed.

(** With a usable price and monthly rent the stress test returns the
    report for the cash flows at the default and at the raised rate. *)
Lemma perform_stress_test_report (p : Property) (x r : Q) :
  price p = Some x -> 0 < x ->
  monthly_rent p = Some r -> q_truthy r = true ->
  let E := total_expenses x r in
  let M := payment_at x DEFAULT_MORTGAGE_INTEREST_RATE in
  let M' := payment_at x (DEFAULT_MORTGAGE_INTEREST_RATE + (2 # 100)) in
  perform_stress_test p = Ok (stress_report r (r - M - E) (r - M' - E) M').
Proof.
  intros Hx Hx0 Hm Hr E M M'.
  destruct (stress_metrics p x r None Hx Hx0 Hm Hr ltac:(discriminate))
    as (a & H1).
  destruct (stress_metrics p x r
              (Some (DEFAULT_MORTGAGE_INTEREST_RATE + (2 # 100)))
              Hx Hx0 Hm Hr ltac:(discriminate))
    as (a' & H2).
  change (default DEFAULT_MORTGAGE_INTEREST_RATE None)
    with DEFAULT_MORTGAGE_INTEREST_RATE in H1.
  change (default DEFAULT_MORTGAGE_INTEREST_RATE
            (Some (DEFAULT_MORTGAGE_INTEREST_RATE + (2 # 100))))
    with (DEFAULT_MORTGAGE_INTEREST_RATE + (2 # 100)) in H2.
  fold M in H1. fold M' in H2.
  destruct (full_result_lookups x a r M (2 # 10)
              DEFAULT_MORTGAGE_INTEREST_RATE 30)
    as (Herr1 & _ & _ & _ & _ & _ & _ & _ & _ & _ & _ & Hcf1 & _).
  destruct (full_result_lookups x a' r M' (2 # 10)
              (DEFAULT_MORTGAGE_INTEREST_RATE + (2 # 100)) 30)
    as (_ & _ & _ & _ & _ & Hmp2 & _ & _ & _ & _ & _ & Hcf2 & Hacf2 & _).
  cbv zeta in Herr1, Hcf1, Hmp2, Hcf2, Hacf2.
  fold E in Hcf1, Hcf2, Hacf2.
  remember (perform_stress_test p) as res eqn:Hres.
  unfold perform_stress_test in Hres.
  rewrite H1, bind_Ok, Herr1 in Hres.
  rewrite post_init_normalises, bind_Ok in Hres.
  rewrite !calculate_metrics_normalised in Hres.
  rewrite H1, bind_Ok in Hres.
  rewrite (subscript_Some _ _ _ Hcf1), bind_Ok, py_float_VFloat, bind_Ok in Hres.
  rewrite Hm in Hres. cbv iota in Hres.
  rewrite bind_Ok, H2, bind_Ok in Hres.
  rewrite (subscript_Some _ _ _ Hmp2), bind_Ok in Hres.
  rewrite (subscript_Some _ _ _ Hcf2), !bind_Ok in Hres.
  rewrite (subscript_Some _ _ _ Hacf2), !bind_Ok in Hres.
  rewrite py_gt_VFloat_zero, !bind_Ok in Hres.
  rewrite ?calculate_metrics_normalised, ?H2, !bind_Ok in Hres.
  rewrite ?(subscript_Some _ _ _ Hcf2), ?bind_Ok in Hres.
  rewrite py_float_VFloat, bind_Ok in Hres.
  subst res. reflexivity.
Qed.

(** Thirty years at the default rate multiply a balance by at least
    fifteen fourths. *)
Lemma default_rate_growth_bound :
  15 # 4 <= (1 + DEFAULT_MORTGAGE_INTEREST_RATE / 12) ^ (30 * 12).
Proof.
  setoid_replace (DEFAULT_MORTGAGE_INTEREST_RATE / 12) with (11 # 2400)
    using relation Qeq by reflexivity.
  change (30 * 12)%Z with (Z.of_nat 90 * 4)%Z.
  rewrite Qpower_mult.
  destruct (growth_bounds (11 # 2400) 90 eq_refl) as (_ & Ha & _).
  cbv zeta in Ha.
  set (G := (1 + (11 # 2400)) ^ Z.of_nat 90) in *. clearbody G.
  assert (HG : 113 # 80 <= G).
  { eapply Qle_trans; [| exact Ha]. discriminate. }
  assert (H2 : (113 # 80) * (113 # 80) <= G * G) by nra.
  setoid_replace (G ^ 4) with (G * G * (G * G)) using relation Qeq by ring.
  set (G2 := G * G) in *. clearbody G2. nra.
Qed.

(** On the loan of the stress test the payment at the default rate is at
    most the payment at the raised rate. *)
Lemma payment_at_raised (x : Q) :
  0 <= x ->
  payment_at x DEFAULT_MORTGAGE_INTEREST_RATE
  <= payment_at x (DEFAULT_MORTGAGE_INTEREST_RATE + (2 # 100)).
Proof.
  intros Hx. unfold payment_at.
  set (L := x - x * (2 # 10)).
  assert (HL : 0 <= L) by (unfold L; lra).
  apply Qle_trans with (L * (1 # 160)).
  - unfold amortization_formula. cbv zeta.
    replace (Qeq_bool (DEFAULT_MORTGAGE_INTEREST_RATE / 12) 0) with false
      by reflexivity.
    pose proof default_rate_growth_bound as HG.
    set (G := (1 + DEFAULT_MORTGAGE_INTEREST_RATE / 12) ^ (30 * 12)) in *.
    clearbody G.
    setoid_replace (DEFAULT_MORTGAGE_INTEREST_RATE / 12) with (11 # 2400)
      using relation Qeq by reflexivity.
    apply Qle_shift_div_r; [lra |]. clearbody L. nra.
  - assert (Hr : 0 <= DEFAULT_MORTGAGE_INTEREST_RATE + (2 # 100)) by discriminate.
    pose proof (amortization_bounds L _ 30 eq_refl Hr HL) as (_ & H & _).
    set (P := amortization_formula L _ 30) in *. clearbody P.
    setoid_replace ((DEFAULT_MORTGAGE_INTEREST_RATE + (2 # 100)) / 12)
      with (1 # 160) using relation Qeq in H by reflexivity.
    exact H.
Qed.

(** X16: for a positive price and a positive monthly rent the stress test
    never raises.  Its report has the four entries; the monthly cash
    flows satisfy combined <= raised-rate <= base and combined <=
    increased-vacancy <= base, where base is the monthly cash flow of
    [calculate_metrics] under the default parameters; the worst case
    reported is the combined one, and all tests pass exactly when the
    combined cash flow is positive. *)
Theorem stress_test_ordering (p : Property) (x r : Q) :
  price p = Some x -> 0 < x -> monthly_rent p = Some r -> 0 < r ->
  exists base report vacancy raised combined summary b v i c passed,
    calculate_metrics p (2 # 10) None 30 = Ok base
    /\ base !! "monthly_cash_flow"%string = Some (VFloat b)
    /\ perform_stress_test p = Ok report
    /\ dom report = {[ "increased_vacancy"%string;
                       "interest_rate_increase"%string;
                       "combined_stress"%string; "summary"%string ]}
    /\ report !! "increased_vacancy"%string = Some (inr vacancy)
    /\ report !! "interest_rate_increase"%string = Some (inr raised)
    /\ report !! "combined_stress"%string = Some (inr combined)
    /\ report !! "summary"%string = Some (inr summary)
    /\ vacancy !! "monthly_cash_flow"%string = Some (VFloat v)
    /\ raised !! "monthly_cash_flow"%string = Some (VFloat i)
    /\ combined !! "monthly_cash_flow"%string = Some (VFloat c)
    /\ summary !! "worst_case_monthly_cash_flow"%string = Some (VFloat c)
    /\ summary !! "passed_all_tests"%string = Some (VBool passed)
    /\ c <= i /\ i <= b /\ c <= v /\ v <= b
    /\ (passed = true <-> 0 < c).
Proof.
  intros Hx Hx0 Hm Hr0.
  assert (Hr : q_truthy r = true) by (apply q_truthy_iff; lra).
  destruct (stress_metrics p x r None Hx Hx0 Hm Hr ltac:(discriminate))
    as (a & H1).
  change (default DEFAULT_MORTGAGE_INTEREST_RATE None)
    with DEFAULT_MORTGAGE_INTEREST_RATE in H1.
  pose proof (perform_stress_test_report p x r Hx Hx0 Hm Hr) as H2.
  cbv zeta in H2.
  pose proof (payment_at_raised x ltac:(lra)) as HM.
  destruct (full_result_lookups x a r
              (payment_at x DEFAULT_MORTGAGE_INTEREST_RATE) (2 # 10)
              DEFAULT_MORTGAGE_INTEREST_RATE 30)
    as (_ & _ & _ & _ & _ & _ & _ & _ & _ & _ & _ & Hcf & _).
  cbv zeta in Hcf.
  set (M := payment_at x DEFAULT_MORTGAGE_INTEREST_RATE) in *.
  set (M' := payment_at x (DEFAULT_MORTGAGE_INTEREST_RATE + (2 # 100))) in *.
  set (E := total_expenses x r) in *. clearbody M M' E.
  set (v := r - M - E - r * DEFAULT_VACANCY_RATE).
  set (c := r - M' - E - r * DEFAULT_VACANCY_RATE
            - r * (DEFAULT_MAINTENANCE_RATE * (5 # 10))).
  eexists _, _, _, _, _, _, (r - M - E), v, (r - M' - E), c,
    (Qlt_bool 0 v && Qlt_bool 0 (r - M' - E) && Qlt_bool 0 c).
  split; [exact H1 |].
  split; [exact Hcf |].
  split; [exact H2 |].
  split; [unfold stress_report; cbv zeta; cbn [list_to_map foldr];
          rewrite !dom_insert_L, dom_empty_L; set_solver |].
  do 9 (split; [reflexivity |]).
  assert (Hci : c <= r - M' - E)
    by (unfold c, DEFAULT_VACANCY_RATE, DEFAULT_MAINTENANCE_RATE; lra).
  assert (Hcv : c <= v)
    by (unfold c, v, DEFAULT_VACANCY_RATE, DEFAULT_MAINTENANCE_RATE; lra).
  assert (Hvb : v <= r - M - E) by (unfold v, DEFAULT_VACANCY_RATE; lra).
  split; [exact Hci |]. split; [lra |]. split; [exact Hcv |].
  split; [exact Hvb |].
  rewrite !andb_true_iff, !Qlt_bool_iff.
  split; [tauto |]. intros Hc. repeat split; lra.
Qed.

Lemma stress_test_ordering_witness :
  exists report, perform_stress_test example_fields = Ok report.
Proof.
  destruct (stress_test_ordering example_fields 300000 2000)
    as (base & report & vacancy & raised & combined & summary & b & v & i
        & c & passed & _ & _ & H & _);
    [reflexivity | reflexivity | reflexivity | reflexivity |].
  exists report. exact H.
Defined.

(** X17: for a record whose price is not a positive number, or which has
    no usable rent, the stress test never raises and returns the error
    entry of [calculate_metrics] and nothing else. *)
Theorem stress_test_error (p : Property) :
  price_positive p = None
  \/ (rent_truthy (monthly_rent p) = false
      /\ rent_truthy (annual_rent p) = false) ->
  perform_stress_test p
  = Ok {[ "error"%string :=
            inl (VStr match price_positive p with
                      | Some _ => MSG_RENT
                      | None => MSG_PRICE
                      end) ]}.
Proof.
  intros H. unfold perform_stress_test.
  destruct (price_positive p) as [x |] eqn:Hx.
  - destruct H as [H | H]; [discriminate |].
    apply effective_annual_rent_None in H.
    rewrite (calculate_metrics_no_rent p (2 # 10) None 30 x Hx H).
    rewrite mortgage_payment_returns by (reflexivity || discriminate).
    reflexivity.
  - unfold calculate_metrics. rewrite Hx. reflexivity.
Qed.

Lemma stress_test_error_witness :
  perform_stress_test listing_without_rent
  = Ok {[ "error"%string := inl (VStr MSG_RENT) ]}.
Proof.
  apply (stress_test_error listing_without_rent). right. split; reflexivity.
Defined.

(** X18: for a record with a positive price and a usable annual rent
    whose monthly rent is absent (a state that construction never leaves
    and that only a later assignment can produce), the stress test raises
    [TypeError] when it multiplies the monthly rent, although
    [calculate_metrics] itself returns a full result for the record. *)
Theorem stress_test_without_monthly_rent (p : Property) (x a : Q) :
  price p = Some x -> 0 < x ->
  annual_rent p = Some a -> ~ a == 0 -> monthly_rent p = None ->
  perform_stress_test p = Raise TypeError
  /\ exists d, calculate_metrics p (2 # 10) None 30 = Ok d
               /\ d !! "error"%string = None.
Proof.
  intros Hx Hx0 Ha Ha0 Hm.
  assert (Hpp : price_positive p = Some x) by (apply price_positive_Some; auto).
  assert (Hea : effective_annual_rent p = Some a).
  { unfold effective_annual_rent. rewrite Ha. cbn [rent_truthy].
    apply q_truthy_iff in Ha0. rewrite Ha0. reflexivity. }
  pose proof (calculate_metrics_full_result p (2 # 10) None 30 x a
                (payment_at x DEFAULT_MORTGAGE_INTEREST_RATE) Hpp Hea) as H1.
  rewrite mortgage_payment_returns in H1 by (reflexivity || discriminate).
  specialize (H1 eq_refl ltac:(lra)).
  destruct (full_result_lookups x a (rent_used p a)
              (payment_at x DEFAULT_MORTGAGE_INTEREST_RATE) (2 # 10)
              (default DEFAULT_MORTGAGE_INTEREST_RATE None) 30)
    as (Herr & _ & _ & _ & _ & _ & _ & _ & _ & _ & _ & Hcf & _).
  cbv zeta in Herr, Hcf.
  split; [| eexists; split; [exact H1 | exact Herr]].
  unfold perform_stress_test.
  rewrite H1, bind_Ok, Herr.
  rewrite post_init_normalises, bind_Ok, calculate_metrics_normalised.
  rewrite H1, bind_Ok.
  rewrite (subscript_Some _ _ _ Hcf), bind_Ok, py_float_VFloat, bind_Ok.
  rewrite Hm. reflexivity.
Qed.

Lemma stress_test_without_monthly_rent_witness :
  perform_stress_test (set_monthly_rent None example_property)
  = Raise TypeError.
Proof.
  apply (stress_test_without_monthly_rent
           (set_monthly_rent None example_property) 300000 (2000 * 12));
    [reflexivity | reflexivity | reflexivity | discriminate | reflexivity].
Defined.

(** ** Cached results *)

Section CachedResults.
Context {A V : Type}.
Variable md5_hexdigest : string -> string.
Variable py_str : A -> string.
Variables (ttl : Z) (use_disk : bool) (func_name : string).
Variable func : nat -> list A -> gmap string A -> option V.
Variables (args : list A) (kwargs : gmap string A).

Let key := cache_key py_str func_name args kwargs.
Let call := wrapper md5_hexdigest py_str ttl use_disk func_name func args kwargs.

(** The entry of the key, in the tier in use, holds [value] until [e]. *)
Let holds (value : option V) (e : Q) (w : world A V) : Prop :=
  if use_disk
  then disk w !! DiskCache._get_cache_path md5_hexdigest key
       = Some (Pickled value e)
  else memory w !! key = Some (value, e).

(** A call that runs the operation stores its answer until [t_set + ttl]. *)
Lemma invoked_stores (t_get t_set : Q) (w : world A V) :
  calls (call t_get t_set w).2 = calls w ++ [(args, kwargs)] ->
  (call t_get t_set w).1 = func (length (calls w)) args kwargs
  /\ holds (call t_get t_set w).1 (t_set + inject_Z ttl) (call t_get t_set w).2.
Proof.
  unfold holds, call, wrapper. fold key.
  destruct (handler_get md5_hexdigest use_disk t_get key w) as [[v|] w1] eqn:Hg.
  - intros Hc. exfalso.
    assert (Hw : calls w1 = calls w).
    { unfold handler_get in Hg. destruct use_disk; injection Hg as _ <-; reflexivity. }
    cbn in Hc. rewrite Hw in Hc.
    apply (f_equal length) in Hc. rewrite length_app in Hc. cbn in Hc. lia.
  - intros _.
    assert (Hw : calls w1 = calls w).
    { unfold handler_get in Hg. destruct use_disk; injection Hg as _ <-; reflexivity. }
    cbn [fst snd]. rewrite Hw. split; [reflexivity |].
    unfold handler_set. destruct use_disk; cbn; apply lookup_insert_eq.
Qed.

(** A live entry with a value other than [None] is served to every call
    that computes the same key, and the world stays as it is. *)
Lemma live_entry_served (func' : nat -> list A -> gmap string A -> option V)
    (args' : list A) (kwargs' : gmap string A) (v : V) (e t_get t_set : Q)
    (w : world A V) :
  cache_key py_str func_name args' kwargs' = key ->
  holds (Some v) e w -> t_get < e ->
  wrapper md5_hexdigest py_str ttl use_disk func_name func' args' kwargs'
    t_get t_set w = (Some v, w).
Proof.
  intros Hk Hh Ht. apply Qlt_bool_iff in Ht.
  unfold wrapper, handler_get. rewrite Hk.
  unfold holds in Hh. destruct w as [m d c]. destruct use_disk; cbn in *.
  - unfold DiskCache.get. cbv zeta. rewrite Hh, Ht. reflexivity.
  - unfold MemoryCache.get. rewrite Hh, Ht. reflexivity.
Qed.

Lemma live_entry_sequence (func' : nat -> list A -> gmap string A -> option V)
    (args' : list A) (kwargs' : gmap string A) (v : V) (e : Q)
    (times : list (Q * Q)) (w : world A V) :
  cache_key py_str func_name args' kwargs' = key ->
  holds (Some v) e w ->
  Forall (fun tt => tt.1 < e) times ->
  call_sequence md5_hexdigest py_str ttl use_disk func_name func' args' kwargs'
    times w
  = (replicate (length times) (Some v), w).
Proof.
  intros Hk Hh Ht. induction Ht as [| [t_get t_set] times Ht _ IH].
  - reflexivity.
  - cbn [call_sequence length replicate]. cbv zeta.
    rewrite (live_entry_served func' args' kwargs' v e t_get t_set w Hk Hh Ht).
    cbn [fst snd]. rewrite IH. reflexivity.
Qed.

(** An entry whose time is up is not served: the operation runs again. *)
Lemma expired_entry_call (value : option V) (e t_get t_set : Q) (w : world A V) :
  holds value e w -> e <= t_get ->
  (call t_get t_set w).1 = func (length (calls w)) args kwargs
  /\ calls (call t_get t_set w).2 = calls w ++ [(args, kwargs)]
  /\ holds (func (length (calls w)) args kwargs) (t_set + inject_Z ttl)
       (call t_get t_set w).2.
Proof.
  intros Hh Ht.
  assert (Hf : Qlt_bool t_get e = false).
  { apply not_true_iff_false. rewrite Qlt_bool_iff. apply Qle_not_lt, Ht. }
  unfold call, wrapper, handler_get, handler_set. fold key.
  unfold holds in *. destruct w as [m d c]. destruct use_disk; cbn in *.
  - unfold DiskCache.get, DiskCache.set. cbv zeta. rewrite Hh, Hf. cbn.
    repeat split. apply lookup_insert_eq.
  - unfold MemoryCache.get, MemoryCache.set. rewrite Hh, Hf. cbn.
    repeat split. apply lookup_insert_eq.
Qed.

(** X19: once a call has run the operation and got a result other than
    [None], every call that computes the same cache key (the same
    arguments, or others that are joined to the same string, even for
    another operation registered under the same name) made before the
    instant [t_set + ttl] returns that result without running anything,
    and leaves both stores and the invocation log as they are. *)
Theorem cached_result_served
    (func' : nat -> list A -> gmap string A -> option V)
    (args' : list A) (kwargs' : gmap string A) (v : V) (t_get t_set : Q)
    (times : list (Q * Q)) (w : world A V) :
  let first := call t_get t_set w in
  calls first.2 = calls w ++ [(args, kwargs)] ->
  first.1 = Some v ->
  cache_key py_str func_name args' kwargs' = cache_key py_str func_name args kwargs ->
  Forall (fun tt => tt.1 < t_set + inject_Z ttl) times ->
  call_sequence md5_hexdigest py_str ttl use_disk func_name func' args' kwargs'
    times first.2
  = (replicate (length times) (Some v), first.2).
Proof.
  intros first Hinv Hv Hk Ht.
  destruct (invoked_stores t_get t_set w Hinv) as [_ Hs].
  fold first in Hs. rewrite Hv in Hs.
  exact (live_entry_sequence func' args' kwargs' v _ times first.2 Hk Hs Ht).
Qed.

(** X20: a stored result is not served at or after its expiry instant:
    when a call has run the operation and stored its answer at [t_set],
    the next call with the same arguments, looking up at a time not
    before [t_set + ttl], runs the operation again, returns the new
    answer and logs one more invocation. *)
Theorem expired_result_recomputed (t_get t_set t_get' t_set' : Q)
    (w : world A V) :
  let first := call t_get t_set w in
  calls first.2 = calls w ++ [(args, kwargs)] ->
  t_set + inject_Z ttl <= t_get' ->
  let second := call t_get' t_set' first.2 in
  second.1 = func (S (length (calls w))) args kwargs
  /\ calls second.2 = calls first.2 ++ [(args, kwargs)].
Proof.
  intros first Hinv Ht second.
  destruct (invoked_stores t_get t_set w Hinv) as [_ Hs]. fold first in Hs.
  destruct (expired_entry_call first.1 _ t_get' t_set' first.2 Hs Ht)
    as (H1 & H2 & _).
  fold second in H1, H2. rewrite H1, H2. fold first in Hinv. rewrite Hinv.
  rewrite length_app. cbn [length]. rewrite Nat.add_1_r.
  split; reflexivity.
Qed.
End CachedResults.

Lemma cached_result_served_witness :
  let f := fun (i : nat) (_ : list string) (_ : gmap string string) => Some i in
  let first :=
    wrapper (fun s => s) (fun s => s) 3600 true "search" f ["Austin:TX"%string]
      ∅ 0 1 (mkWorld ∅ ∅ []) in
  call_sequence (fun s => s) (fun s => s) 3600 true "search" f
    ["Austin"%string; "TX"%string] ∅ [(2, 3); (3600, 3601)] first.2
  = ([Some 0%nat; Some 0%nat], first.2).
Proof.
  intros f first.
  apply (cached_result_served (fun s => s) (fun s => s) 3600 true "search" f
           ["Austin:TX"%string] ∅ f ["Austin"%string; "TX"%string] ∅ 0%nat
           0 1 [(2, 3); (3600, 3601)] (mkWorld ∅ ∅ []));
    [reflexivity | reflexivity | reflexivity |].
  repeat constructor.
Defined.

Lemma expired_result_recomputed_witness :
  let f := fun (i : nat) (_ : list string) (_ : gmap string string) => Some i in
  let first :=
    wrapper (fun s => s) (fun s => s) 3600 false "search" f ["Austin"%string]
      ∅ 0 1 (mkWorld ∅ ∅ []) in
  let second :=
    wrapper (fun s => s) (fun s => s) 3600 false "search" f ["Austin"%string]
      ∅ 3601 3602 first.2 in
  second.1 = Some 1%nat
  /\ calls second.2 = calls first.2 ++ [(["Austin"%string], ∅)].
Proof.
  intros f first second.
  apply (expired_result_recomputed (fun s => s) (fun s => s) 3600 false
           "search" f ["Austin"%string] ∅ 0 1 3601 3602 (mkWorld ∅ ∅ []));
    [reflexivity | discriminate].
Defined.

(** ** Enrichment of a listing *)

(** The three shapes of a returned dictionary. *)
Lemma calculate_metrics_shapes p dp ir n d :
  calculate_metrics p dp ir n = Ok d ->
  d = {[ "error"%string := VStr MSG_PRICE ]}
  \/ (exists x M,
        d = <["monthly_mortgage_payment"%string := VFloat M]>
              (<["loan_amount"%string := VFloat (x - x * dp)]>
                 (<["down_payment"%string := VFloat (x * dp)]>
                    (<["error"%string := VStr MSG_RENT]> ∅))))
  \/ (exists x a m M,
        d = full_result x a m M dp
              (default DEFAULT_MORTGAGE_INTEREST_RATE ir) n).
Proof.
  intros Hd.
  destruct (d !! "error"%string) as [e |] eqn:Herr.
  - destruct (price_positive p) as [x |] eqn:Hx.
    + destruct (effective_annual_rent p) as [a |] eqn:Ha.
      * destruct (calculate_metrics_returns_inv p dp ir n x a d Hx Ha Hd)
          as (M & HM & Hdp).
        rewrite (calculate_metrics_full_result p dp ir n x a M) in Hd
          by assumption.
        injection Hd as <-. discriminate.
      * right. left.
        rewrite (calculate_metrics_no_rent p dp ir n x Hx Ha) in Hd.
        destruct (_calculate_mortgage_payment _ _ _) as [M |]; [| discriminate].
        injection Hd as <-. eauto.
    + left. unfold calculate_metrics in Hd. rewrite Hx in Hd.
      injection Hd as <-. reflexivity.
  - right. right.
    destruct (calculate_metrics_full_inv p dp ir n d Hd Herr)
      as (x & a & M & _ & _ & _ & _ & ->).
    eauto.
Qed.

Lemma calculate_for_property_metrics (p : Property) :
  exists d,
    calculate_metrics p (2 # 10) None 30 = Ok d
    /\ App.calculate_for_property p = set_financial_metrics d p.
Proof.
  destruct (calculate_metrics_total p (2 # 10) None 30) as (d & Hd & _);
    [reflexivity | discriminate | discriminate |].
  exists d. split; [exact Hd |].
  unfold App.calculate_for_property. rewrite Hd. reflexivity.
Qed.

Lemma shapes_nonempty p dp ir n d :
  calculate_metrics p dp ir n = Ok d -> d <> ∅.
Proof.
  intros Hd ->.
  apply calculate_metrics_shapes in Hd
    as [H | [(x & M & H) | (x & a & m & M & H)]];
    apply (f_equal (fun m => size m)) in H; vm_compute in H; discriminate.
Qed.

(** X21: enrichment keeps the listing as it is, record for record and in
    order, and gives every record the result of [calculate_metrics]
    under the default parameters as its metrics: with these parameters
    the computation never raises, so that no record is left without
    metrics, and the metrics of a record are never empty. *)
Theorem enrichment_attaches_metrics (ps : list Property) :
  Forall2
    (fun p q =>
       q = set_financial_metrics (financial_metrics q) p
       /\ calculate_metrics p (2 # 10) None 30 = Ok (financial_metrics q)
       /\ financial_metrics q <> ∅)
    ps (App.calculate_financial_metrics ps).
Proof.
  assert (H : Forall2
                (fun p q =>
                   q = set_financial_metrics (financial_metrics q) p
                   /\ calculate_metrics p (2 # 10) None 30
                      = Ok (financial_metrics q)
                   /\ financial_metrics q <> ∅)
                ps (App.calculate_for_property <$> ps)).
  { induction ps as [| p ps IH]; [constructor |].
    cbn [fmap list_fmap]. constructor; [| exact IH].
    destruct (calculate_for_property_metrics p) as (d & Hd & ->).
    cbn [financial_metrics set_financial_metrics].
    split; [reflexivity |]. split; [exact Hd |].
    eapply shapes_nonempty, Hd. }
  destruct ps; [constructor | exact H].
Qed.

Lemma full_result_sort_entries (x a m M dp ir : Q) (n : Z) :
  exists cf coc score,
    full_result x a m M dp ir n !! "monthly_cash_flow"%string
    = Some (VFloat cf)
    /\ full_result x a m M dp ir n !! "cash_on_cash_return"%string
       = Some (VFloat coc)
    /\ full_result x a m M dp ir n !! "risk_score"%string
       = Some (VInt score).
Proof. do 3 eexists. repeat split; reflexivity. Qed.

(** The metrics that sorting reads are numbers in each of the three
    shapes. *)
Lemma metrics_key_numeric p dp ir n d (q : Property) (sort_by : string) :
  calculate_metrics p dp ir n = Ok d ->
  financial_metrics q = d ->
  sort_by = "cash_flow"%string \/ sort_by = "cash_on_cash"%string
  \/ sort_by = "risk_score"%string ->
  is_Some (key_num (key_of sort_by q)).
Proof.
  intros Hd Hq Hk.
  pose proof (shapes_nonempty p dp ir n d Hd) as Hne.
  assert (Ht : dict_truthy d = true).
  { unfold dict_truthy. apply negb_true_iff, bool_decide_eq_false.
    intros H0. apply Hne. apply map_size_empty_iff, H0. }
  assert (Hkey : forall k dflt,
             key_of sort_by q = metric_or q k dflt ->
             (exists v, d !! k = Some v /\ is_Some (as_num v))
             \/ (d !! k = None /\ is_Some (as_num dflt)) ->
             is_Some (key_num (key_of sort_by q))).
  { intros k dflt -> Hv. unfold metric_or. rewrite Hq, Ht.
    destruct Hv as [(v & -> & Hv) | [-> Hv]]; cbn [default from_option Datatypes.id key_num];
      destruct Hv as [[y |] ->]; eauto. }
  apply calculate_metrics_shapes in Hd
    as [H | [(x & M & H) | (x & a & m & M & H)]].
  - destruct Hk as [-> | [-> | ->]];
      (eapply Hkey; [reflexivity |]); right; rewrite H;
      (split; [reflexivity | cbn; eauto]).
  - destruct Hk as [-> | [-> | ->]];
      (eapply Hkey; [reflexivity |]); right; rewrite H;
      (split; [reflexivity | cbn; eauto]).
  - destruct (full_result_sort_entries x a m M dp
                (default DEFAULT_MORTGAGE_INTEREST_RATE ir) n)
      as (cf & coc & score & E1 & E2 & E3).
    rewrite <- H in E1, E2, E3.
    destruct Hk as [-> | [-> | ->]];
      (eapply Hkey; [reflexivity |]); left; eexists;
      (split; [eassumption | cbn; eauto]).
Qed.

Lemma enriched_key_numeric (p : Property) (sort_by : string) :
  is_Some (key_num (key_of sort_by (App.calculate_for_property p))).
Proof.
  destruct (calculate_for_property_metrics p) as (d & Hd & ->).
  destruct (String.eqb_spec sort_by "cash_flow") as [-> | H1];
    [eapply metrics_key_numeric; eauto |].
  destruct (String.eqb_spec sort_by "cash_on_cash") as [-> | H2];
    [eapply metrics_key_numeric; eauto |].
  destruct (String.eqb_spec sort_by "risk_score") as [-> | H3];
    [eapply metrics_key_numeric; eauto |].
  apply field_key_numeric; assumption.
Qed.

(** X22: sorting an enriched listing never raises, whatever the sort key
    and the flag: every key the table reads off the attached metrics is a
    number (or the default that stands in for a missing entry), so the
    records come back ordered by that key in the direction of the
    table. *)
Theorem sort_after_enrichment (ps : list Property) (sort_by : string)
    (reverse : bool) :
  let enriched := App.calculate_financial_metrics ps in
  let le := fun p q => key_le (key_of sort_by p) (key_of sort_by q) in
  exists out,
    sort_properties enriched sort_by reverse = Ok out
    /\ out ≡ₚ enriched
    /\ StronglySorted (if descending sort_by reverse then flip le else le) out.
Proof.
  intros enriched le. apply sort_properties_numeric.
  subst enriched. unfold App.calculate_financial_metrics.
  destruct ps as [| p ps]; [constructor |].
  apply Forall_fmap, Forall_forall. intros q _. apply enriched_key_numeric.
Qed.

(** ** Filtering record by record *)

Lemma filterM_sublist {A} (cond : A -> result bool) (l l' : list A) :
  filterM cond l = Ok l' -> sublist l' l.
Proof.
  revert l'. induction l as [| x l IH]; intros l' H.
  - injection H as <-. constructor.
  - cbn [filterM] in H.
    apply bind_Ok_inv in H as (b & Hb & H).
    apply bind_Ok_inv in H as (rest & Hrest & H).
    injection H as <-.
    destruct b; [apply sublist_skip | apply sublist_cons]; auto.
Qed.

Lemma filterM_app {A} (cond : A -> result bool) (a b out : list A) :
  filterM cond (a ++ b) = Ok out <->
  exists a' b', filterM cond a = Ok a' /\ filterM cond b = Ok b' /\ out = a' ++ b'.
Proof.
  revert out. induction a as [| x a IH]; intros out.
  - cbn [app filterM]. split.
    + intros H. exists [], out. auto.
    + intros (a' & b' & [= <-] & Hb & ->). exact Hb.
  - cbn [app filterM]. split.
    + intros H.
      apply bind_Ok_inv in H as (bx & Hx & H).
      apply bind_Ok_inv in H as (rest & Hrest & H).
      injection H as <-.
      apply IH in Hrest as (a' & b' & Ha & Hb & ->).
      rewrite Hx, Ha. cbn.
      exists (if bx then x :: a' else a'), b'.
      split; [reflexivity |]. split; [exact Hb |].
      destruct bx; reflexivity.
    + intros (a' & b' & Ha & Hb & ->).
      apply bind_Ok_inv in Ha as (bx & Hx & Ha).
      apply bind_Ok_inv in Ha as (rest & Hrest & Ha).
      injection Ha as <-.
      assert (Hab : filterM cond (a ++ b) = Ok (rest ++ b'))
        by (apply IH; eauto).
      rewrite Hx, Hab. cbn. destruct bx; reflexivity.
Qed.

Lemma record_wise_filterM (cond : Property -> result bool) :
  record_wise (filterM cond).
Proof. split; [apply filterM_sublist | apply filterM_app]. Qed.

Lemma record_wise_ret : record_wise (fun l => Ok l).
Proof.
  split.
  - intros l l' [= <-]. reflexivity.
  - intros a b out. split.
    + intros [= <-]. eauto.
    + intros (a' & b' & [= <-] & [= <-] & ->). reflexivity.
Qed.

Lemma record_wise_bind (S1 S2 : list Property -> result (list Property)) :
  record_wise S1 -> record_wise S2 ->
  record_wise (fun l => l1 ← S1 l; S2 l1).
Proof.
  intros [Sub1 App1] [Sub2 App2]. split.
  - intros l l' H. apply bind_Ok_inv in H as (l1 & H1 & H2).
    transitivity l1; [apply (Sub2 _ _ H2) | apply (Sub1 _ _ H1)].
  - intros a b out. split.
    + intros H. apply bind_Ok_inv in H as (l1 & H1 & H2).
      apply App1 in H1 as (a1 & b1 & Ha1 & Hb1 & ->).
      apply App2 in H2 as (a2 & b2 & Ha2 & Hb2 & ->).
      exists a2, b2. rewrite Ha1, Hb1. cbn. auto.
    + intros (a2 & b2 & Ha & Hb & ->).
      apply bind_Ok_inv in Ha as (a1 & Ha1 & Ha2).
      apply bind_Ok_inv in Hb as (b1 & Hb1 & Hb2).
      assert (H1 : S1 (a ++ b) = Ok (a1 ++ b1)) by (apply App1; eauto).
      rewrite H1. cbn. apply App2. eauto.
Qed.

Lemma record_wise_if_truthy (filters : gmap string pyval) (k : string)
    (f : pyval -> list Property -> result (list Property)) :
  (forall v, record_wise (f v)) -> record_wise (if_truthy filters k f).
Proof.
  intros Hf. unfold if_truthy.
  destruct (filters !! k) as [v |]; [| apply record_wise_ret].
  destruct (truthy v); [apply Hf | apply record_wise_ret].
Qed.

Lemma record_wise_if_not_none (filters : gmap string pyval) (k : string)
    (f : pyval -> list Property -> result (list Property)) :
  (forall v, record_wise (f v)) -> record_wise (if_not_none filters k f).
Proof.
  intros Hf. unfold if_not_none.
  destruct (filters !! k) as [v |]; [| apply record_wise_ret].
  destruct v; first [apply record_wise_ret | apply Hf].
Qed.

Lemma record_wise_lowered (v : pyval)
    (cond : list string -> Property -> result bool) :
  record_wise (fun ps => lowered ← lower_all v; filterM (cond lowered) ps).
Proof.
  destruct (lower_all v) as [lowered | e].
  - apply (record_wise_filterM (cond lowered)).
  - split.
    + intros l l' H. discriminate.
    + intros a b out. split; [intros H; discriminate |].
      intros (a' & b' & H & _). discriminate.
Qed.

Lemma filter_properties_record_wise (filters : gmap string pyval) :
  record_wise (fun ps => filter_properties ps filters).
Proof.
  unfold filter_properties. cbv zeta.
  repeat
    (apply record_wise_bind;
     [first [ apply record_wise_if_not_none; intros v;
              apply record_wise_filterM
            | apply record_wise_if_truthy; intros v;
              first [ apply record_wise_filterM
                    | apply (record_wise_lowered v
                               (fun lowered p => Ok (type_matches lowered p)))
                    | apply (record_wise_lowered v) ] ]
     |]).
  apply record_wise_ret.
Qed.

Lemma sublist_singleton {A} (l : list A) (x : A) :
  sublist l [x] -> l = [] \/ l = [x].
Proof.
  intros H. inversion H as [| ? ? ? H' | ? ? ? H']; subst.
  - apply sublist_nil_r in H'. subst. auto.
  - apply sublist_nil_r in H'. subst. auto.
Qed.

(** X23: filtering judges each record on its own: on a concatenation of
    two lists it returns exactly when it returns on both, and then the
    outcome is the two outcomes concatenated. *)
Theorem filter_properties_app (a b out : list Property)
    (filters : gmap string pyval) :
  filter_properties (a ++ b) filters = Ok out <->
  exists a' b',
    filter_properties a filters = Ok a'
    /\ filter_properties b filters = Ok b'
    /\ out = a' ++ b'.
Proof. apply (filter_properties_record_wise filters). Qed.

Lemma filter_properties_kept (ps out : list Property)
    (filters : gmap string pyval) :
  filter_properties ps filters = Ok out -> out = List.filter (kept filters) ps.
Proof.
  destruct (filter_properties_record_wise filters) as [Sub App].
  revert out. induction ps as [| p ps IH]; intros out H.
  - apply Sub in H. apply sublist_nil_r in H. subst. reflexivity.
  - change (p :: ps) with ([p] ++ ps) in H.
    apply App in H as (a' & b' & Ha & Hb & ->).
    rewrite (IH b' Hb). cbn [List.filter]. unfold kept at 2. rewrite Ha.
    destruct (sublist_singleton a' p (Sub _ _ Ha)) as [-> | ->]; reflexivity.
Qed.

(** X24: a filtering that returns gives back the records that pass the
    filters on their own, in the order of the input and as often as they
    occur there: nothing is added, reordered or duplicated. *)
Theorem filter_properties_record_by_record (ps out : list Property)
    (filters : gmap string pyval) :
  filter_properties ps filters = Ok out ->
  out = List.filter (kept filters) ps /\ sublist out ps.
Proof.
  intros H. split; [apply filter_properties_kept, H |].
  apply (filter_properties_record_wise filters), H.
Qed.

Lemma filter_properties_record_by_record_witness :
  [example_property]
  = List.filter (kept {[ "min_price"%string := VInt 250000 ]})
      [listing None (Some 2000) None None ∅; example_property].
Proof.
  apply (filter_properties_record_by_record
           [listing None (Some 2000) None None ∅; example_property]
           [example_property] {[ "min_price"%string := VInt 250000 ]}).
  vm_compute. reflexivity.
Defined.

(** X25: filtering is idempotent: filtering the outcome again with the
    same filters returns it unchanged. *)
Theorem filter_properties_idempotent (ps out : list Property)
    (filters : gmap string pyval) :
  filter_properties ps filters = Ok out ->
  filter_properties out filters = Ok out.
Proof.
  destruct (filter_properties_record_wise filters) as [Sub App].
  revert out. induction ps as [| p ps IH]; intros out H.
  - pose proof (Sub _ _ H) as Hs. apply sublist_nil_r in Hs. subst. exact H.
  - change (p :: ps) with ([p] ++ ps) in H.
    apply App in H as (a' & b' & Ha & Hb & ->).
    apply App. exists a', b'.
    split; [| split; [apply IH, Hb | reflexivity]].
    destruct (sublist_singleton a' p (Sub _ _ Ha)) as [-> | ->]; [| exact Ha].
    change [p] with ([] ++ [p]) in Ha.
    apply App in Ha as (a0 & b0 & Ha0 & _ & _).
    pose proof (Sub _ _ Ha0) as Hs. apply sublist_nil_r in Hs. subst.
    exact Ha0.
Qed.

Lemma filter_properties_idempotent_witness :
  filter_properties [example_property] {[ "min_price"%string := VInt 250000 ]}
  = Ok [example_property].
Proof.
  apply (filter_properties_idempotent
           [listing None (Some 2000) None None ∅; example_property]).
  vm_compute. reflexivity.
Defined.

Ltac key_listed :=
  unfold list_filter_keys, bound_filter_keys; cbn [app];
  repeat first [apply list_elem_of_here | apply list_elem_of_further].

(** X26: filtering reads the filter dictionary at the keys of its
    seventeen stages only: two dictionaries that agree on these keys give
    the same outcome, so that any other entry (a minimum number of
    bathrooms, say) has no effect. *)
Theorem filter_properties_reads_only (ps : list Property)
    (filters filters' : gmap string pyval) :
  (forall k, k ∈ list_filter_keys ++ bound_filter_keys ->
             filters !! k = filters' !! k) ->
  filter_properties ps filters = filter_properties ps filters'.
Proof.
  intros H. unfold filter_properties, if_truthy, if_not_none. cbv zeta.
  repeat match goal with
  | |- context [filters !! ?k] =>
      rewrite (H k) by key_listed
  end.
  reflexivity.
Qed.

Lemma filter_properties_reads_only_witness :
  filter_properties [example_property; listing_without_rent]
    {[ "min_bathrooms"%string := VInt 6 ]}
  = filter_properties [example_property; listing_without_rent] ∅.
Proof.
  apply (filter_properties_reads_only
           [example_property; listing_without_rent]
           {[ "min_bathrooms"%string := VInt 6 ]} ∅).
  intros k Hk. rewrite lookup_empty. apply lookup_singleton_ne.
  intros <-.
  assert (Hn : bool_decide ("min_bathrooms"%string
                            ∈ list_filter_keys ++ bound_filter_keys) = false)
    by (vm_compute; reflexivity).
  apply bool_decide_eq_false in Hn. exact (Hn Hk).
Defined.

(** X27: filters that are switched off change nothing: when every bound
    is absent or [None] and every list-valued filter is absent or empty,
    the listing is returned as it is, and nothing raises. *)
Theorem inactive_filters_keep_all (ps : list Property)
    (filters : gmap string pyval) :
  (forall k v, k ∈ bound_filter_keys -> filters !! k = Some v -> v = VNone) ->
  (forall k v, k ∈ list_filter_keys -> filters !! k = Some v ->
               truthy v = false) ->
  filter_properties ps filters = Ok ps.
Proof.
  intros Hb Hl.
  assert (Sb : forall k f (l : list Property),
             k ∈ bound_filter_keys -> if_not_none filters k f l = Ok l).
  { intros k f l Hk. unfold if_not_none.
    destruct (filters !! k) as [v |] eqn:E; [| reflexivity].
    rewrite (Hb k v Hk E). reflexivity. }
  assert (Sl : forall k f (l : list Property),
             k ∈ list_filter_keys -> if_truthy filters k f l = Ok l).
  { intros k f l Hk. unfold if_truthy.
    destruct (filters !! k) as [v |] eqn:E; [| reflexivity].
    rewrite (Hl k v Hk E). reflexivity. }
  unfold filter_properties. cbv zeta.
  repeat first
    [ rewrite Sb by key_listed
    | rewrite Sl by key_listed
    | rewrite bind_Ok ].
  reflexivity.
Qed.

Lemma inactive_filters_keep_all_witness :
  filter_properties [example_property; listing_without_rent]
    {[ "min_price"%string := VNone ]}
  = Ok [example_property; listing_without_rent].
Proof.
  apply (inactive_filters_keep_all [example_property; listing_without_rent]
           {[ "min_price"%string := VNone ]}).
  - intros k v _ Hv. apply lookup_singleton_Some in Hv as [_ <-]. reflexivity.
  - intros k v Hk Hv. apply lookup_singleton_Some in Hv as [<- <-].
    reflexivity.
Defined.

Lemma py_ge_num (v bound : pyval) (x b : Q) :
  as_num v = Some (Fin x) -> as_num bound = Some (Fin b) ->
  py_ge v bound = Ok true -> b <= x.
Proof.
  intros Hv Hb H. unfold py_ge, py_le in H. rewrite Hb, Hv in H.
  injection H as H. apply Qle_bool_iff, H.
Qed.

(** With a bound above zero, a missing entry, which counts as 0, fails
    the check. *)
Lemma metrics_cmp_positive_bound (p : Property) (k : string) (bound : pyval)
    (b : Q) :
  as_num bound = Some (Fin b) -> 0 < b ->
  metrics_cmp py_ge p k (VInt 0) bound = Ok true ->
  exists v, financial_metrics p !! k = Some v /\ py_ge v bound = Ok true.
Proof.
  intros Hb Hb0 H. unfold metrics_cmp in H.
  destruct (dict_truthy (financial_metrics p)); [| discriminate].
  destruct (financial_metrics p !! k) as [v |]; [eauto |].
  cbn [default from_option Datatypes.id] in H. exfalso.
  pose proof (py_ge_num (VInt 0) bound (inject_Z 0) b eq_refl Hb H) as Hle.
  change (inject_Z 0) with 0 in Hle. lra.
Qed.

(** X28: a minimum above zero excludes what has no figure: with a
    positive minimum cap rate, every record let through has a cap rate of
    its own that reaches the bound or a cap-rate entry in its metrics
    that does; with a positive minimum cash flow, it has a monthly cash
    flow entry in its metrics that reaches the bound. *)
Theorem positive_minimum_needs_figure (ps out : list Property)
    (filters : gmap string pyval) (p : Property) (bound : pyval) (b : Q) :
  filter_properties ps filters = Ok out -> p ∈ out ->
  as_num bound = Some (Fin b) -> 0 < b ->
  (filters !! "min_cap_rate"%string = Some bound ->
     (exists x, cap_rate p = Some x /\ b <= x)
     \/ (exists v, financial_metrics p !! "cap_rate"%string = Some v
                   /\ py_ge v bound = Ok true))
  /\ (filters !! "min_cash_flow"%string = Some bound ->
        exists v, financial_metrics p !! "monthly_cash_flow"%string = Some v
                  /\ py_ge v bound = Ok true).
Proof.
  intros H Hp Hb Hb0.
  destruct (filter_properties_stages ps filters out H p Hp)
    as (_ & _ & _ & _ & _ & _ & _ & C1 & _ & _ & _ & _ & _ & F).
  assert (Hn : bound <> VNone) by (intros ->; discriminate).
  split.
  - intros Hk. specialize (C1 bound Hk Hn).
    apply py_or_true in C1 as [Hf | Hm].
    + left. apply field_cmp_true in Hf as (v & Hv & _ & Hge).
      unfold num in Hv. destruct (cap_rate p) as [x |]; [| discriminate].
      injection Hv as <-. exists x. split; [reflexivity |].
      apply (py_ge_num (VFloat x) bound x b eq_refl Hb Hge).
    + right. apply (metrics_cmp_positive_bound p _ bound b Hb Hb0 Hm).
  - intros Hk. specialize (F bound Hk Hn).
    apply (metrics_cmp_positive_bound p _ bound b Hb Hb0 F).
Qed.

Lemma positive_minimum_needs_figure_witness :
  exists v,
    financial_metrics
      (set_financial_metrics {[ "monthly_cash_flow"%string := VFloat 150 ]}
         example_property) !! "monthly_cash_flow"%string = Some v
    /\ py_ge v (VInt 100) = Ok true.
Proof.
  assert (Hf : filter_properties
                 [listing_without_rent;
                  set_financial_metrics
                    {[ "monthly_cash_flow"%string := VFloat 150 ]}
                    example_property]
                 {[ "min_cash_flow"%string := VInt 100 ]}
               = Ok [set_financial_metrics
                       {[ "monthly_cash_flow"%string := VFloat 150 ]}
                       example_property]) by (vm_compute; reflexivity).
  destruct (positive_minimum_needs_figure _ _ _ _ (VInt 100) 100 Hf
              (list_elem_of_here _ _) eq_refl eq_refl) as [_ H].
  apply H. reflexivity.
Defined.

(** ** Filtering without exceptions *)

Section FilterTotal.
Variable filters : gmap string pyval.
Hypothesis typed : filters_typed filters.

Lemma filterM_total (cond : Property -> result bool) (l : list Property) :
  Forall (fun p => exists b, cond p = Ok b) l ->
  exists l', filterM cond l = Ok l' /\ sublist l' l.
Proof.
  induction 1 as [| p l [b Hb] _ (l' & Hl' & Hs)].
  - exists []. split; [reflexivity | constructor].
  - cbn [filterM]. rewrite Hb, Hl'. cbn. eexists. split; [reflexivity |].
    destruct b; [apply sublist_skip | apply sublist_cons]; exact Hs.
Qed.

Lemma py_le_total (a b : pyval) :
  is_Some (as_num a) -> is_Some (as_num b) -> exists r, py_le a b = Ok r.
Proof. intros [x Hx] [y Hy]. unfold py_le. rewrite Hx, Hy. eauto. Qed.

Lemma field_cmp_total (cmp : pyval -> pyval -> result bool)
    (field : option pyval) (bound : pyval) :
  cmp = py_ge \/ cmp = py_le ->
  (forall v, field = Some v -> is_Some (as_num v)) ->
  is_Some (as_num bound) ->
  exists r, field_cmp cmp field bound = Ok r.
Proof.
  intros Hc Hf Hb. unfold field_cmp.
  destruct field as [v |]; [| eauto].
  destruct (truthy v); [| eauto].
  destruct Hc as [-> | ->]; [unfold py_ge |]; apply py_le_total; auto.
Qed.

Lemma metrics_cmp_total (cmp : pyval -> pyval -> result bool)
    (p : Property) (k : string) (bound : pyval) :
  cmp = py_ge \/ cmp = py_le ->
  (forall v, financial_metrics p !! k = Some v -> is_Some (as_num v)) ->
  is_Some (as_num bound) ->
  exists r, metrics_cmp cmp p k (VInt 0) bound = Ok r.
Proof.
  intros Hc Hf Hb. unfold metrics_cmp.
  destruct (dict_truthy (financial_metrics p)); [| eauto].
  assert (Hv : is_Some (as_num (default (VInt 0) (financial_metrics p !! k)))).
  { destruct (financial_metrics p !! k) as [v |]; [apply Hf; reflexivity |].
    cbn. eauto. }
  destruct Hc as [-> | ->]; [unfold py_ge |]; apply py_le_total; auto.
Qed.

Lemma py_or_total (a b : result bool) :
  (exists r, a = Ok r) -> (exists r, b = Ok r) -> exists r, py_or a b = Ok r.
Proof. intros [x ->] [y ->]. unfold py_or. cbn. destruct x; eauto. Qed.

Lemma num_numeric (q : option Q) (v : pyval) :
  num q = Some v -> is_Some (as_num v).
Proof. destruct q; intros [= <-]. cbn. eauto. Qed.

Lemma int_numeric (z : option Z) (v : pyval) :
  int z = Some v -> is_Some (as_num v).
Proof. destruct z; intros [= <-]. cbn. eauto. Qed.

(** A stage guarded by [is not None] returns when its condition does for
    a bound that is a number. *)
Lemma if_not_none_total (k : string) (cond : pyval -> Property -> result bool)
    (l : list Property) :
  k ∈ bound_filter_keys ->
  Forall (fun p => forall v, is_Some (as_num v) -> exists b, cond v p = Ok b) l ->
  exists l', if_not_none filters k (fun v => filterM (cond v)) l = Ok l'
             /\ sublist l' l.
Proof.
  intros Hk Hc. unfold if_not_none.
  destruct (filters !! k) as [v |] eqn:E; [| eauto].
  destruct (proj1 typed k v Hk E) as [-> | Hv]; [eauto |].
  assert (H : exists l', filterM (cond v) l = Ok l' /\ sublist l' l).
  { apply filterM_total. eapply Forall_impl; [exact Hc |]. cbn. auto. }
  destruct v; first [exact H | eauto].
Qed.

(** A stage guarded by truthiness returns when its condition does for a
    list of strings. *)
Lemma if_truthy_total (k : string)
    (f : pyval -> list Property -> result (list Property))
    (l : list Property) :
  k ∈ list_filter_keys ->
  (forall ss, exists l', f (VList ss) l = Ok l' /\ sublist l' l) ->
  exists l', if_truthy filters k f l = Ok l' /\ sublist l' l.
Proof.
  intros Hk Hf. unfold if_truthy.
  destruct (filters !! k) as [v |] eqn:E; [| eauto].
  destruct (proj2 typed k v Hk E) as [-> | [ss ->]]; [eauto |].
  destruct (truthy (VList ss)); [apply Hf | eauto].
Qed.

Lemma filter_properties_total (ps : list Property) :
  Forall metrics_typed ps ->
  exists out, filter_properties ps filters = Ok out /\ sublist out ps.
Proof.
  intros HP. unfold filter_properties. cbv zeta.
  assert (Hsub : forall l, sublist l ps -> Forall metrics_typed l).
  { intros l Hl. eapply Forall_forall. intros p Hp.
    eapply Forall_forall; [exact HP |]. eapply elem_of_sublist; eauto. }
  assert (T0 : sublist ps ps) by reflexivity.
  (* sources *)
  destruct (if_truthy_total "sources"
              (fun v => filterM (fun p => py_in (source p) v)) ps)
    as (l1 & E1 & S1); [key_listed | |].
  { intros ss. apply filterM_total, Forall_forall. intros p _. cbn. eauto. }
  rewrite E1, bind_Ok. assert (T1 : sublist l1 ps) by exact S1.
  clear E1 S1.
  (* property types *)
  destruct (if_truthy_total "property_types"
              (fun v ps =>
                 property_types_lower ← lower_all v;
                 filterM (fun p => Ok (type_matches property_types_lower p)) ps)
              l1)
    as (l2 & E2 & S2); [key_listed | |].
  { intros ss. cbn [lower_all]. rewrite bind_Ok.
    apply filterM_total, Forall_forall. intros p _. eauto. }
  rewrite E2, bind_Ok. assert (T2 : sublist l2 ps) by (etrans; eauto).
  clear E2 S2.
  (* the bounds *)
  repeat
    match goal with
    | T : sublist ?l ps
      |- context [if_not_none filters ?k (fun v => filterM (@?cond v)) ?l] =>
        let l' := fresh "l" in
        let E := fresh "E" in
        let S := fresh "S" in
        let T' := fresh "T" in
        destruct (if_not_none_total k cond l) as (l' & E & S);
          [ key_listed
          | apply Forall_forall; intros p Hp v Hv;
            pose proof (proj1 (Forall_forall _ _) (Hsub l T) p Hp)
              as (Hcap & Hcf & _);
            first
              [ apply field_cmp_total;
                [ auto | first [apply num_numeric | apply int_numeric] | exact Hv ]
              | apply py_or_total;
                [ apply field_cmp_total; [auto | apply num_numeric | exact Hv]
                | apply metrics_cmp_total; [auto | assumption | exact Hv] ]
              | apply metrics_cmp_total; [auto | assumption | exact Hv] ]
          | rewrite E, bind_Ok;
            assert (T' : sublist l' ps) by (etrans; eauto);
            clear E S ]
    end.
  (* risk levels *)
  match goal with
  | T : sublist ?l ps |- context [if_truthy filters "risk_levels" ?f ?l] =>
      destruct (if_truthy_total "risk_levels" f l) as (l16 & E16 & S16);
        [ key_listed | | ]
  end.
  { intros ss. cbn [lower_all]. rewrite bind_Ok.
    apply filterM_total, Forall_forall. intros p Hp.
    match goal with
    | T : sublist ?l ps |- _ =>
        pose proof (proj1 (Forall_forall _ _) (Hsub l T) p Hp) as (_ & _ & Hrl)
    end.
    apply py_or_total; [eauto |].
    destruct (dict_truthy (financial_metrics p)); [| eauto].
    destruct (financial_metrics p !! "risk_level"%string) as [v |] eqn:Ev.
    - destruct (Hrl v eq_refl) as [s ->]. cbn. eauto.
    - cbn. eauto. }
  rewrite E16, bind_Ok.
  match goal with
  | T : sublist ?l ps |- _ =>
      assert (T16 : sublist l16 ps) by (etrans; eauto); clear E16 S16
  end.
  (* locations *)
  match goal with
  | |- context [if_truthy filters "locations" ?f l16] =>
      destruct (if_truthy_total "locations" f l16) as (l17 & E17 & S17);
        [ key_listed | | ]
  end.
  { intros ss. cbn [lower_all]. rewrite bind_Ok.
    apply filterM_total, Forall_forall. intros p _.
    apply py_or_total; [eauto |]. apply py_or_total; [eauto |].
    destruct (zip_code p) as [z |]; [| eauto].
    destruct (String.eqb z ""); cbn; eauto. }
  rewrite E17, bind_Ok.
  exists l17. split; [reflexivity | etrans; eauto].
Qed.
End FilterTotal.

Lemma full_result_filter_entries (x a m M dp ir : Q) (n : Z) :
  exists cr cf level,
    full_result x a m M dp ir n !! "cap_rate"%string = Some (VFloat cr)
    /\ full_result x a m M dp ir n !! "monthly_cash_flow"%string
       = Some (VFloat cf)
    /\ full_result x a m M dp ir n !! "risk_level"%string
       = Some (VStr level).
Proof. do 3 eexists. repeat split; reflexivity. Qed.

(** The metrics that [calculate_metrics] returns are well typed for
    filtering, in each of the three shapes. *)
Lemma calculated_metrics_typed p dp ir n d (q : Property) :
  calculate_metrics p dp ir n = Ok d ->
  financial_metrics q = d ->
  metrics_typed q.
Proof.
  intros Hd Hq. unfold metrics_typed. rewrite Hq.
  apply calculate_metrics_shapes in Hd
    as [-> | [(x & M & ->) | (x & a & m & M & ->)]].
  - repeat split; intros v Hv; vm_compute in Hv; discriminate.
  - repeat split; intros v Hv; vm_compute in Hv; discriminate.
  - destruct (full_result_filter_entries x a m M dp
                (default DEFAULT_MORTGAGE_INTEREST_RATE ir) n)
      as (cr & cf & level & E1 & E2 & E3).
    rewrite E1, E2, E3.
    repeat split; intros v [= <-]; cbn; eauto.
Qed.

Lemma enriched_metrics_typed (ps : list Property) :
  Forall metrics_typed (App.calculate_financial_metrics ps).
Proof.
  unfold App.calculate_financial_metrics.
  destruct ps as [| p0 ps0]; [constructor |].
  apply Forall_fmap, Forall_forall. intros p _. cbn.
  destruct (calculate_for_property_metrics p) as (d & Hd & ->).
  eapply calculated_metrics_typed; [exact Hd | reflexivity].
Qed.

(** X29: filtering an enriched listing never raises when the filters are
    well typed (every bound absent, [None] or a number, every list-valued
    filter absent, empty or a list of strings): each comparison is made
    between numbers and each risk level read from the metrics is a
    string.  The outcome is a sublist of the enriched listing. *)
Theorem filter_after_enrichment (ps : list Property)
    (filters : gmap string pyval) :
  filters_typed filters ->
  exists out,
    filter_properties (App.calculate_financial_metrics ps) filters = Ok out
    /\ sublist out (App.calculate_financial_metrics ps).
Proof.
  intros Hf. apply (filter_properties_total filters Hf).
  apply enriched_metrics_typed.
Qed.

Lemma filter_after_enrichment_witness :
  exists out,
    filter_properties
      (App.calculate_financial_metrics [example_fields; listing_without_rent])
      {[ "min_cap_rate"%string := VFloat 5 ]}
    = Ok out.
Proof.
  destruct (filter_after_enrichment [example_fields; listing_without_rent]
              {[ "min_cap_rate"%string := VFloat 5 ]})
    as (out & H & _).
  - split; intros k v Hk Hv; apply lookup_singleton_Some in Hv as [<- <-].
    + right. cbn. eauto.
    + exfalso.
      assert (Hn : bool_decide ("min_cap_rate"%string ∈ list_filter_keys)
                   = false) by (vm_compute; reflexivity).
      apply bool_decide_eq_false in Hn. exact (Hn Hk).
  - exists out. exact H.
Defined.

Lemma calculate_metrics_set_financial_metrics (d : gmap string pyval)
    (p : Property) (dp : Q) (ir : option Q) (n : Z) :
  calculate_metrics (set_financial_metrics d p) dp ir n
  = calculate_metrics p dp ir n.
Proof. apply calculate_metrics_ext; [reflexivity | reflexivity | auto]. Qed.

Lemma calculate_for_property_idempotent (p : Property) :
  App.calculate_for_property (App.calculate_for_property p)
  = App.calculate_for_property p.
Proof.
  destruct (calculate_for_property_metrics p) as (d & Hd & ->).
  unfold App.calculate_for_property.
  rewrite calculate_metrics_set_financial_metrics, Hd.
  destruct p; reflexivity.
Qed.

(** X30: the metrics of a record do not depend on metrics attached to it
    before, so that enriching an enriched listing changes nothing. *)
Theorem enrichment_idempotent (ps : list Property) :
  App.calculate_financial_metrics (App.calculate_financial_metrics ps)
  = App.calculate_financial_metrics ps.
Proof.
  unfold App.calculate_financial_metrics.
  destruct ps as [| p ps]; [reflexivity |].
  cbn [fmap list_fmap]. f_equal; [apply calculate_for_property_idempotent |].
  induction ps as [| q ps IH]; [reflexivity |].
  cbn [fmap list_fmap]. f_equal; [apply calculate_for_property_idempotent |].
  exact IH.
Qed.
